(** * Nutify: UPS reading aggregation, buffering and rollup scheduling

    A shallow embedding of [core/db/ups/aggregator.py], of the
    [UPSDataCache] class and of [save_ups_data] of [core/db/ups/cache.py],
    and of the parsing and the key transformation of
    [core/db/ups/data.py], with the properties of the status resolver, the
    composite aggregator, the key normalisation, the numeric reduction,
    the change-gated publisher, the rollup scheduler and the poll.

    Conventions of the embedding
    - Python floats are kept abstract behind the [FloatOps] interface, so
      every general theorem holds for any float semantics (IEEE doubles
      included); [FloatQ] instantiates it with exact rationals plus a NaN
      for the concrete runs.  An int converts to a float without overflow.
    - Python dictionaries are insertion-ordered association lists.
    - Instants ([datetime]) are integers counting microseconds (UTC).
    - Strings are [string]s of 8-bit characters read as ASCII text.
    - A computation of the cache is a function from the world to an outcome
      and a world: what was assigned before an exception is raised stays
      assigned.  The wall clock, the failures of pandas and of the database,
      the attributes of the ORM model and the text of a timestamp belong to
      the world and are arbitrary.  Logging is left out; [websocket.emit]
      and [db.session.rollback] do not raise.
    - The objects the collectors return are read through their attributes,
      as dictionaries; what a poll finds outside the cache (the enabled
      devices, the configured interval, the readings) is a parameter.
    - What pandas makes of the buffered rows is written out for the cells
      the readings give it: floats, ints, strings, bools, [None] and other
      objects; the reduction is stated for fields that hold no datetime
      and no int outside the signed 64-bit range. *)

From Stdlib Require Import ZArith QArith Qround Qabs List String Ascii Bool Lia.
Import ListNotations.
Local Open Scope string_scope.
Local Open Scope Z_scope.

Set Implicit Arguments.

(* ===================================================================== *)
(** * Floats *)
(* ===================================================================== *)

(** The float operations the two modules use.  [fdiv] is only applied by
    the code where Python cannot raise [ZeroDivisionError] (guarded by a
    positive count) or inside pandas, where division by zero yields NaN. *)
Class FloatOps (F : Type) : Type := {
  of_Z : Z -> F;                       (* float(n) for an int n *)
  parse_float : string -> option F;    (* float(s); None is ValueError *)
  fnan : F;                            (* the missing-value marker of pandas *)
  fisnan : F -> bool;
  fadd : F -> F -> F;
  fsub : F -> F -> F;
  fdiv : F -> F -> F;
  fabs : F -> F;
  fltb : F -> F -> bool;               (* x < y *)
  fleb : F -> F -> bool;               (* x <= y *)
  feqb : F -> F -> bool;               (* x == y *)
  py_round : F -> Z -> F;              (* builtin round(x, ndigits) *)
  np_round : F -> Z -> F               (* Series.round(decimals) *)
}.

(** ** Exact rationals with a NaN, used to run the model *)

Module FloatQ.

Definition t : Type := option Q.     (* None is NaN *)

Definition lift2 (f : Q -> Q -> Q) (x y : t) : t :=
  match x, y with
  | Some a, Some b => Some (Qred (f a b))
  | _, _ => None
  end.

Definition cmp2 (f : Q -> Q -> bool) (x y : t) : bool :=
  match x, y with
  | Some a, Some b => f a b
  | _, _ => false
  end.

Definition Qltb (a b : Q) : bool := negb (Qle_bool b a).

Definition div (x y : t) : t :=
  match x, y with
  | Some a, Some b => if Qeq_bool b 0 then None else Some (Qred (a / b))
  | _, _ => None
  end.

(** Nearest integer, ties to the even one. *)
Definition round_half_even (q : Q) : Z :=
  let fl := Qfloor q in
  let twice := Qred (2 * (q - inject_Z fl)) in
  if Qltb twice 1 then fl
  else if Qltb 1 twice then fl + 1
  else if Z.even fl then fl else fl + 1.

Definition pow10 (n : Z) : Q :=
  if 0 <=? n then inject_Z (10 ^ n) else Qred (/ inject_Z (10 ^ (- n))).

Definition round (x : t) (ndigits : Z) : t :=
  match x with
  | Some q =>
      Some (Qred (inject_Z (round_half_even (q * pow10 ndigits)) / pow10 ndigits))
  | None => None
  end.

(** A small reader of decimal literals: optional sign, digits, optional
    fraction.  Anything else is rejected, as [float] rejects text that
    is not a number. *)
Definition digit_of (c : ascii) : option Z :=
  let n := Z.of_nat (nat_of_ascii c) in
  if (48 <=? n) && (n <=? 57) then Some (n - 48) else None.

Fixpoint digits (s : string) (acc : Z) (seen : bool) : option (Z * string) :=
  match s with
  | EmptyString => if seen then Some (acc, EmptyString) else None
  | String c r =>
      match digit_of c with
      | Some d => digits r (10 * acc + d) true
      | None => if seen then Some (acc, s) else None
      end
  end.

Fixpoint fraction (s : string) (num den : Z) : option (Z * Z) :=
  match s with
  | EmptyString => Some (num, den)
  | String c r =>
      match digit_of c with
      | Some d => fraction r (10 * num + d) (10 * den)
      | None => None
      end
  end.

Definition parse_unsigned (s : string) : option Q :=
  match digits s 0 false with
  | Some (ip, EmptyString) => Some (inject_Z ip)
  | Some (ip, String "." r) =>
      match fraction r 0 1 with
      | Some (num, den) =>
          Some (Qred (inject_Z ip + inject_Z num / inject_Z den))
      | None => None
      end
  | _ => None
  end.

Definition parse (s : string) : option t :=
  match s with
  | String "-" r => option_map (fun q => Some (Qred (- q))) (parse_unsigned r)
  | _ => option_map (fun q => Some q) (parse_unsigned s)
  end.

#[global] Instance ops : FloatOps t := {
  of_Z := fun z => Some (inject_Z z);
  parse_float := parse;
  fnan := None;
  fisnan := fun x => match x with None => true | Some _ => false end;
  fadd := lift2 Qplus;
  fsub := lift2 Qminus;
  fdiv := div;
  fabs := fun x => option_map (fun q => Qred (Qabs q)) x;
  fltb := cmp2 Qltb;
  fleb := cmp2 Qle_bool;
  feqb := cmp2 Qeq_bool;
  py_round := round;
  np_round := round
}.

(** [dec n d] is the decimal n / 10^d, e.g. [dec 505 1] is 50.5. *)
Definition dec (n : Z) (d : Z) : t := Some (Qred (inject_Z n / inject_Z (10 ^ d))).

End FloatQ.

(* ===================================================================== *)
(** * Python values, exceptions, strings and dictionaries *)
(* ===================================================================== *)

Inductive exn : Type :=
| AttributeError
| TypeError
| ValueError
| LibraryError.      (* an error raised inside pandas or the database layer *)

Inductive outcome (A : Type) : Type :=
| Ok (a : A)
| Raise (e : exn).
Arguments Ok {A} a.
Arguments Raise {A} e.

Definition obind {A B} (m : outcome A) (k : A -> outcome B) : outcome B :=
  match m with
  | Ok a => k a
  | Raise e => Raise e
  end.

Declare Scope outcome_scope.
Delimit Scope outcome_scope with outcome.
Notation "x <~ m ;; k" := (obind m (fun x => k))
  (at level 100, m at next level, right associativity) : outcome_scope.

(** The values a reading carries.  [VObj] stands for any other object that
    is no number and no date (the [_data] dictionary of a [DotDict], a
    list, ...): it has a truth value and an identity, and no conversion to
    a number. *)
Inductive value (F : Type) : Type :=
| VNone
| VBool (b : bool)
| VInt (z : Z)
| VFloat (x : F)
| VStr (s : string)
| VTime (t : Z)
| VObj (truthy : bool) (id : nat).
Arguments VNone {F}.
Arguments VBool {F} b.
Arguments VInt {F} z.
Arguments VFloat {F} x.
Arguments VStr {F} s.
Arguments VTime {F} t.
Arguments VObj {F} truthy id.

Module Str.

Definition code (c : ascii) : Z := Z.of_nat (nat_of_ascii c).

(** [str.upper] on ASCII text. *)
Definition upper_char (c : ascii) : ascii :=
  if (97 <=? code c) && (code c <=? 122)
  then ascii_of_nat (nat_of_ascii c - 32) else c.

Fixpoint upper (s : string) : string :=
  match s with
  | EmptyString => EmptyString
  | String c r => String (upper_char c) (upper r)
  end.

(** The ASCII characters [str.strip] removes. *)
Definition is_space (c : ascii) : bool :=
  ((9 <=? code c) && (code c <=? 13)) || ((28 <=? code c) && (code c <=? 32)).

Fixpoint lstrip (s : string) : string :=
  match s with
  | EmptyString => EmptyString
  | String c r => if is_space c then lstrip r else s
  end.

Fixpoint rstrip (s : string) : string :=
  match s with
  | EmptyString => EmptyString
  | String c r =>
      match rstrip r with
      | EmptyString => if is_space c then EmptyString else String c EmptyString
      | r' => String c r'
      end
  end.

Definition strip (s : string) : string := rstrip (lstrip s).

(** [k in s] for strings. *)
Fixpoint contains (k s : string) : bool :=
  String.prefix k s ||
  match s with
  | EmptyString => false
  | String _ r => contains k r
  end.

(** [s.replace(a, b)] for single characters. *)
Fixpoint replace (a b : ascii) (s : string) : string :=
  match s with
  | EmptyString => EmptyString
  | String c r => String (if Ascii.eqb c a then b else c) (replace a b r)
  end.

(** [sep.join(parts)]. *)
Fixpoint join (sep : string) (parts : list string) : string :=
  match parts with
  | [] => EmptyString
  | [p] => p
  | p :: rest => p ++ sep ++ join sep rest
  end.

Fixpoint mem (c : ascii) (s : string) : bool :=
  match s with
  | EmptyString => false
  | String c' r => Ascii.eqb c' c || mem c r
  end.

End Str.

(** Insertion-ordered dictionaries. *)
Module Dict.
Section WithKey.
Context {K V : Type} (eqb : K -> K -> bool).

Fixpoint get (d : list (K * V)) (k : K) : option V :=
  match d with
  | [] => None
  | (k', v) :: r => if eqb k k' then Some v else get r k
  end.

(** [d[k] = v]: an existing key keeps its position. *)
Fixpoint set (d : list (K * V)) (k : K) (v : V) : list (K * V) :=
  match d with
  | [] => [(k, v)]
  | (k', v') :: r => if eqb k k' then (k', v) :: r else (k', v') :: set r k v
  end.

Definition mem (d : list (K * V)) (k : K) : bool :=
  match get d k with Some _ => true | None => false end.

(** [{**d, **e}]. *)
Definition update (d e : list (K * V)) : list (K * V) :=
  fold_left (fun acc kv => set acc (fst kv) (snd kv)) e d.

Definition keys (d : list (K * V)) : list K := map fst d.
Definition values (d : list (K * V)) : list V := map snd d.
End WithKey.
End Dict.

Definition dict (V : Type) : Type := list (string * V).

(** [not l] for a list or a dictionary. *)
Definition is_nil {A} (l : list A) : bool :=
  match l with [] => true | _ => false end.
Abbreviation dget := (Dict.get String.eqb).
Abbreviation dset := (Dict.set String.eqb).
Abbreviation dmem := (Dict.mem String.eqb).
Abbreviation dupdate := (Dict.update String.eqb).

Section Values.
Context {F : Type} {FO : FloatOps F}.

(** [bool(v)]. *)
Definition truthy (v : value F) : bool :=
  match v with
  | VNone => false
  | VBool b => b
  | VInt z => negb (z =? 0)
  | VFloat x => negb (feqb x (of_Z 0))
  | VStr s => negb (String.eqb s "")
  | VTime _ => true
  | VObj b _ => b
  end.

(** [float(v)]; [None] is the [ValueError] or [TypeError] it raises. *)
Definition py_float (v : value F) : option F :=
  match v with
  | VNone => None
  | VBool b => Some (of_Z (if b then 1 else 0))
  | VInt z => Some (of_Z z)
  | VFloat x => Some x
  | VStr s => parse_float s
  | VTime _ => None
  | VObj _ _ => None
  end.

(** [v or 0]. *)
Definition or_zero (v : value F) : value F :=
  if truthy v then v else VInt 0.

(** [a == b]. *)
Definition py_eq (a b : value F) : bool :=
  match a, b with
  | VNone, VNone => true
  | VStr s, VStr s' => String.eqb s s'
  | VTime t, VTime t' => t =? t'
  | VObj _ i, VObj _ j => Nat.eqb i j
  | VBool x, VBool y => Bool.eqb x y
  | VBool x, VInt z | VInt z, VBool x => (if x then 1 else 0) =? z
  | VInt z, VInt z' => z =? z'
  | VBool x, VFloat f | VFloat f, VBool x => feqb (of_Z (if x then 1 else 0)) f
  | VInt z, VFloat f | VFloat f, VInt z => feqb (of_Z z) f
  | VFloat f, VFloat f' => feqb f f'
  | _, _ => false
  end.

(** [d.get(k)], where a missing key reads as [None]. *)
Definition get_or_none (d : dict (value F)) (k : string) : value F :=
  match dget d k with Some v => v | None => VNone end.

(** A sum taken from 0.0 in list order, and the mean it gives. *)
Definition fsum (xs : list F) : F := fold_left fadd xs (of_Z 0).

Definition mean (xs : list F) : F :=
  fdiv (fsum xs) (of_Z (Z.of_nat (List.length xs))).

End Values.

(* ===================================================================== *)
(** * aggregator.py *)
(* ===================================================================== *)

Module Aggregator.
Section WithFloat.
Context {F : Type} {FO : FloatOps F}.
Local Open Scope outcome_scope.

Abbreviation reading := (dict (value F)).

(** Status priority for determining worst case (higher number = worse). *)
Definition STATUS_PRIORITY : dict Z :=
  [ ("OB DISCHRG", 7); ("OB", 6); ("LB", 5); ("RB", 4); ("OVER", 3);
    ("CHRG", 2); ("OL", 1); ("OFFLINE", 8); ("UNKNOWN", 0) ].

(** [STATUS_PRIORITY['UNKNOWN']]. *)
Definition UNKNOWN_PRIORITY : Z :=
  match dget STATUS_PRIORITY "UNKNOWN" with Some p => p | None => 0 end.

(** The loop over the table's keys of [get_status_priority]. *)
Definition scan_keys (status : string) : Z :=
  fold_left
    (fun max_priority kv =>
       if Str.contains (fst kv) status
       then Z.max max_priority (snd kv) else max_priority)
    STATUS_PRIORITY 0.

(** [get_status_priority] from [status.upper().strip()] on, for a string. *)
Definition priority_of_text (status : string) : Z :=
  let status := Str.strip (Str.upper status) in
  match dget STATUS_PRIORITY status with
  | Some p => p
  | None =>
      let max_priority := scan_keys status in
      if 0 <? max_priority then max_priority else UNKNOWN_PRIORITY
  end.

Definition get_status_priority (status : value F) : outcome Z :=
  if negb (truthy status) then Ok UNKNOWN_PRIORITY
  else match status with
       | VStr s => Ok (priority_of_text s)
       | _ => Raise AttributeError          (* no method [upper] *)
       end.

Fixpoint worst_loop (rest : list (value F)) (worst_status : value F)
  (worst_priority : Z) : outcome (value F) :=
  match rest with
  | [] => Ok worst_status
  | status :: rest' =>
      priority <~ get_status_priority status ;;
      if worst_priority <? priority
      then worst_loop rest' status priority
      else worst_loop rest' worst_status worst_priority
  end.

Definition get_worst_status (statuses : list (value F)) : outcome (value F) :=
  match statuses with
  | [] => Ok (VStr "UNKNOWN")
  | first :: rest =>
      worst_priority <~ get_status_priority first ;;
      worst_loop rest first worst_priority
  end.

Definition safe_float (v : value F) (default : F) : F :=
  match v with
  | VNone => default
  | _ => match py_float v with Some x => x | None => default end
  end.

Definition safe_get (data : reading) (key : string) (default : value F)
  : value F :=
  match dget data key with Some v => v | None => default end.

(** [safe_float(safe_get(d, us, safe_get(d, dot, 0)))]. *)
Definition metric (d : reading) (us dot : string) : F :=
  safe_float (safe_get d us (safe_get d dot (VInt 0))) (of_Z 0).

Definition status_of (d : reading) : value F :=
  safe_get d "ups_status" (safe_get d "ups.status" (VStr "UNKNOWN")).

(** The test [status and ('OL' in status.upper() or 'CHRG' in status.upper())]. *)
Definition is_online (status : value F) : outcome bool :=
  if truthy status then
    match status with
    | VStr s => Ok (Str.contains "OL" (Str.upper s)
                    || Str.contains "CHRG" (Str.upper s))
    | _ => Raise AttributeError
    end
  else Ok false.

(** The aggregation variables of [aggregate_ups_data]. *)
Record totals : Type := {
  statuses : list (value F);
  total_realpower : F;
  total_load : F;
  total_battery_charge : F;
  total_input_voltage : F;
  total_output_voltage : F;
  min_runtime : option F;
  online_count : Z;
  load_count : Z;
  battery_count : Z;
  input_voltage_count : Z;
  output_voltage_count : Z
}.

Definition totals0 : totals := {|
  statuses := [];
  total_realpower := of_Z 0;
  total_load := of_Z 0;
  total_battery_charge := of_Z 0;
  total_input_voltage := of_Z 0;
  total_output_voltage := of_Z 0;
  min_runtime := None;
  online_count := 0;
  load_count := 0;
  battery_count := 0;
  input_voltage_count := 0;
  output_voltage_count := 0
|}.

Definition positive (x : F) : bool := fltb (of_Z 0) x.     (* x > 0 *)

(** [min(a, b)] of Python: the first argument unless the second is smaller. *)
Definition py_min (a b : F) : F := if fltb b a then b else a.

(** One iteration of the loop over the devices. *)
Definition accumulate (t : totals) (ups_data : reading) : outcome totals :=
  let status := status_of ups_data in
  online <~ is_online status ;;
  let realpower := metric ups_data "ups_realpower" "ups.realpower" in
  let load := metric ups_data "ups_load" "ups.load" in
  let battery_charge := metric ups_data "battery_charge" "battery.charge" in
  let runtime := metric ups_data "battery_runtime" "battery.runtime" in
  let input_voltage := metric ups_data "input_voltage" "input.voltage" in
  let output_voltage := metric ups_data "output_voltage" "output.voltage" in
  Ok {|
    statuses := statuses t ++ [status];
    online_count := if online then online_count t + 1 else online_count t;
    total_realpower := fadd (total_realpower t) realpower;
    total_load :=
      if positive load then fadd (total_load t) load else total_load t;
    load_count := if positive load then load_count t + 1 else load_count t;
    total_battery_charge :=
      if positive battery_charge
      then fadd (total_battery_charge t) battery_charge
      else total_battery_charge t;
    battery_count :=
      if positive battery_charge then battery_count t + 1 else battery_count t;
    min_runtime :=
      if positive runtime then
        match min_runtime t with
        | None => Some runtime
        | Some m => Some (py_min m runtime)
        end
      else min_runtime t;
    total_input_voltage :=
      if positive input_voltage
      then fadd (total_input_voltage t) input_voltage
      else total_input_voltage t;
    input_voltage_count :=
      if positive input_voltage
      then input_voltage_count t + 1 else input_voltage_count t;
    total_output_voltage :=
      if positive output_voltage
      then fadd (total_output_voltage t) output_voltage
      else total_output_voltage t;
    output_voltage_count :=
      if positive output_voltage
      then output_voltage_count t + 1 else output_voltage_count t
  |}.

Fixpoint accumulate_all (ups_list : list reading) (t : totals)
  : outcome totals :=
  match ups_list with
  | [] => Ok t
  | ups_data :: rest =>
      t' <~ accumulate t ups_data ;;
      accumulate_all rest t'
  end.

(** [(total / count) if count > 0 else 0.0]. *)
Definition average (total : F) (count : Z) : F :=
  if 0 <? count then fdiv total (of_Z count) else of_Z 0.

(** [round(min_runtime, 0) if min_runtime is not None else 0]. *)
Definition runtime_value (m : option F) : value F :=
  match m with
  | Some x => VFloat (py_round x 0)
  | None => VInt 0
  end.

(** The dictionary returned for an empty input. *)
Definition no_data : reading :=
  [ ("ups_status", VStr "UNKNOWN");
    ("ups_realpower", VFloat (of_Z 0));
    ("ups_load", VFloat (of_Z 0));
    ("battery_charge", VFloat (of_Z 0));
    ("battery_runtime", VFloat (of_Z 0));
    ("input_voltage", VFloat (of_Z 0));
    ("output_voltage", VFloat (of_Z 0));
    ("ups_count", VInt 0);
    ("ups_online_count", VInt 0) ].

(** The dictionary [aggregated] built after the loop. *)
Definition aggregated (t : totals) (worst_status : value F) (ups_count : Z)
  : reading :=
  let avg_load := average (total_load t) (load_count t) in
  let avg_battery_charge :=
    average (total_battery_charge t) (battery_count t) in
  let avg_input_voltage :=
    average (total_input_voltage t) (input_voltage_count t) in
  let avg_output_voltage :=
    average (total_output_voltage t) (output_voltage_count t) in
  [ ("ups_status", worst_status);
    ("ups.status", worst_status);
    ("ups_realpower", VFloat (py_round (total_realpower t) 2));
    ("ups.realpower", VFloat (py_round (total_realpower t) 2));
    ("ups_load", VFloat (py_round avg_load 1));
    ("ups.load", VFloat (py_round avg_load 1));
    ("battery_charge", VFloat (py_round avg_battery_charge 1));
    ("battery.charge", VFloat (py_round avg_battery_charge 1));
    ("battery_runtime", runtime_value (min_runtime t));
    ("battery.runtime", runtime_value (min_runtime t));
    ("input_voltage", VFloat (py_round avg_input_voltage 1));
    ("input.voltage", VFloat (py_round avg_input_voltage 1));
    ("output_voltage", VFloat (py_round avg_output_voltage 1));
    ("output.voltage", VFloat (py_round avg_output_voltage 1));
    ("ups_count", VInt ups_count);
    ("ups_online_count", VInt (online_count t));
    ("ups_offline_count", VInt (ups_count - online_count t));
    ("is_aggregated", VBool true);
    ("source", VStr "multi_ups_aggregation") ].

Definition aggregate_ups_data (all_ups_data : list (Z * reading))
  : outcome reading :=
  let ups_list := Dict.values all_ups_data in
  if is_nil ups_list then Ok no_data
  else
    t <~ accumulate_all ups_list totals0 ;;
    let ups_count := Z.of_nat (List.length ups_list) in
    worst_status <~ get_worst_status (statuses t) ;;
    Ok (aggregated t worst_status ups_count).

(** The summary [aggregate_ups_data_with_details] gives of one device. *)
Definition device_summary (ups_id : Z) (ups_data : reading) : reading :=
  [ ("ups_id", VInt ups_id);
    ("status", status_of ups_data);
    ("battery_charge",
     VFloat (metric ups_data "battery_charge" "battery.charge"));
    ("realpower", VFloat (metric ups_data "ups_realpower" "ups.realpower"));
    ("load", VFloat (metric ups_data "ups_load" "ups.load")) ].

(** The values under ['aggregated'] and ['devices'], for an input
    dictionary. *)
Definition aggregate_ups_data_with_details (all_ups_data : list (Z * reading))
  : outcome (reading * list reading) :=
  agg <~ aggregate_ups_data all_ups_data ;;
  Ok (agg, map (fun kv => device_summary (fst kv) (snd kv)) all_ups_data).

End WithFloat.
End Aggregator.

(* ===================================================================== *)
(** * data.py: what the collector makes of the output of [upsc] *)
(* ===================================================================== *)

Module Data.
Section WithFloat.
Context {F : Type} {FO : FloatOps F}.

Abbreviation reading := (dict (value F)).

(** [line.split(':', 1)], when [':' in line]. *)
Fixpoint split_colon (line : string) : option (string * string) :=
  match line with
  | EmptyString => None
  | String c r =>
      if Ascii.eqb c ":" then Some (EmptyString, r)
      else
        match split_colon r with
        | Some (key, value) => Some (String c key, value)
        | None => None
        end
  end.

(** The loop [raw_data[key.strip()] = value.strip()] over the lines of
    the output. *)
Definition parse_output (lines : list string) : dict string :=
  fold_left
    (fun raw_data line =>
       match split_colon line with
       | Some (key, value) => dset raw_data (Str.strip key) (Str.strip value)
       | None => raw_data
       end)
    lines [].

(** The loop [transformed_data[key.replace('.', '_')] = float(value)],
    the text itself where it is no number. *)
Definition transform (raw_data : dict string) : reading :=
  fold_left
    (fun transformed_data kv =>
       let db_key := Str.replace "." "_" (fst kv) in
       match parse_float (snd kv) with
       | Some float_value => dset transformed_data db_key (VFloat float_value)
       | None => dset transformed_data db_key (VStr (snd kv))
       end)
    raw_data [].

(** The reading [get_ups_data] returns for a device it could not read. *)
Definition failure_reading (status error_msg : string) : reading :=
  [ ("ups_status", VStr status);
    ("battery_charge", VFloat (of_Z 0));
    ("battery_runtime", VInt 0);
    ("input_voltage", VFloat (of_Z 0));
    ("output_voltage", VFloat (of_Z 0));
    ("error", VStr error_msg) ].

(** The same of [get_all_ups_data], which names the device. *)
Definition device_failure_reading (ups_id : Z) (ups_name friendly_name : value F)
  (status error_msg : string) : reading :=
  [ ("ups_id", VInt ups_id);
    ("ups_name", ups_name);
    ("friendly_name", friendly_name);
    ("ups_status", VStr status);
    ("battery_charge", VFloat (of_Z 0));
    ("battery_runtime", VInt 0);
    ("input_voltage", VFloat (of_Z 0));
    ("output_voltage", VFloat (of_Z 0));
    ("error", VStr error_msg) ].

(** The statuses the two collectors give a device that failed. *)
Definition failure_statuses : list string :=
  ["NOCOMM"; "ERROR"; "NO_DATA"; "TIMEOUT"].

End WithFloat.
End Data.

(* ===================================================================== *)
(** * cache.py: the world the cache runs in *)
(* ===================================================================== *)

Module Cache.
Section WithFloat.
Context {F : Type} {FO : FloatOps F}.

Abbreviation reading := (dict (value F)).

(** ** Instants *)

Definition SECOND : Z := 1000000.
Definition MINUTE : Z := 60 * SECOND.
Definition HOUR : Z := 60 * MINUTE.
Definition DAY : Z := 24 * HOUR.

(** [t.replace(...)] with every field below [unit] set to zero. *)
Definition floor_to (unit t : Z) : Z := t - t mod unit.

(** ** State of a [UPSDataCache] *)

Definition buffer : Type := list (Z * reading).   (* [(timestamp, data), ...] *)
Definition dataframe : Type := list reading.      (* the rows given to pd.DataFrame *)

Record cache_state : Type := {
  size : Z;
  data : buffer;
  df : option dataframe;
  per_ups_data : list (Z * buffer);
  per_ups_df : list (Z * dataframe);
  aggregated_data : buffer;
  aggregated_df : option dataframe;
  next_save_time : option Z;
  next_hour : option Z;
  hourly_data : list reading;
  last_daily_aggregation : option Z;
  last_broadcast : option reading;
  last_broadcast_aggregated : option reading;
  last_broadcast_per_ups : list (Z * reading)
}.

(** [UPSDataCache.__init__]. *)
Definition init (size : Z) : cache_state := {|
  size := size;
  data := [];
  df := None;
  per_ups_data := [];
  per_ups_df := [];
  aggregated_data := [];
  aggregated_df := None;
  next_save_time := None;
  next_hour := None;
  hourly_data := [];
  last_daily_aggregation := None;
  last_broadcast := None;
  last_broadcast_aggregated := None;
  last_broadcast_per_ups := []
|}.

(** What [websocket.emit] sends. *)
Inductive event : Type :=
| cache_update (payload : reading)
| multi_ups_update (aggregated : reading) (individual : list (Z * reading))
    (ups_count : Z).

(** The cache together with its collaborators: the wall clock as the
    sequence of its future readings, the library calls that will fail
    (pandas processing, database queries and commits), the attributes of
    the [UPSDynamicData] model (declared outside these modules), the
    committed rows, the text [isoformat] gives an instant, and the
    events sent so far. *)
Record world : Type := {
  cache : cache_state;
  clock : nat -> Z;
  ticks : nat;
  faults : nat -> bool;
  calls : nat;
  model_attrs : list string;
  table : list reading;
  isoformat : Z -> string;
  emitted : list event
}.

Definition with_cache (f : cache_state -> cache_state) (w : world) : world := {|
  cache := f (cache w);
  clock := clock w;
  ticks := ticks w;
  faults := faults w;
  calls := calls w;
  model_attrs := model_attrs w;
  table := table w;
  isoformat := isoformat w;
  emitted := emitted w
|}.

(** The clock was read once more. *)
Definition tick (w : world) : world := {|
  cache := cache w; clock := clock w; ticks := S (ticks w);
  faults := faults w; calls := calls w; model_attrs := model_attrs w;
  table := table w; isoformat := isoformat w; emitted := emitted w
|}.

(** One more library call was made. *)
Definition called (w : world) : world := {|
  cache := cache w; clock := clock w; ticks := ticks w;
  faults := faults w; calls := S (calls w); model_attrs := model_attrs w;
  table := table w; isoformat := isoformat w; emitted := emitted w
|}.

(** A row was committed. *)
Definition stored (row : reading) (w : world) : world := {|
  cache := cache w; clock := clock w; ticks := ticks w;
  faults := faults w; calls := calls w; model_attrs := model_attrs w;
  table := (table w ++ [row])%list; isoformat := isoformat w;
  emitted := emitted w
|}.

(** An event was sent. *)
Definition sent (e : event) (w : world) : world := {|
  cache := cache w; clock := clock w; ticks := ticks w;
  faults := faults w; calls := calls w; model_attrs := model_attrs w;
  table := table w; isoformat := isoformat w;
  emitted := (emitted w ++ [e])%list
|}.

(** ** Computations: state that survives a raised exception *)

Definition Py (A : Type) : Type := world -> outcome A * world.

Definition ret {A} (a : A) : Py A := fun w => (Ok a, w).

Definition bind {A B} (m : Py A) (k : A -> Py B) : Py B :=
  fun w =>
    match m w with
    | (Ok a, w') => k a w'
    | (Raise e, w') => (Raise e, w')
    end.

Definition raise {A} (e : exn) : Py A := fun w => (Raise e, w).

(** [try: m  except Exception: handler]. *)
Definition try_except {A} (m : Py A) (handler : exn -> Py A) : Py A :=
  fun w =>
    match m w with
    | (Ok a, w') => (Ok a, w')
    | (Raise e, w') => handler e w'
    end.

Definition lift {A} (o : outcome A) : Py A := fun w => (o, w).

Definition get_cache : Py cache_state := fun w => (Ok (cache w), w).

Definition modify (f : cache_state -> cache_state) : Py unit :=
  fun w => (Ok tt, with_cache f w).

(** [datetime.now(...)]: the next reading of the clock. *)
Definition now : Py Z :=
  fun w => (Ok (clock w (ticks w)), tick w).

(** Entering a library call that may raise. *)
Definition library_call : Py unit :=
  fun w =>
    if faults w (calls w) then (Raise LibraryError, called w)
    else (Ok tt, called w).

(** [db.session.add(row); db.session.commit()]. *)
Definition session_add_commit (row : reading) : Py unit :=
  bind library_call (fun _ w => (Ok tt, stored row w)).

(** [websocket.emit(...)]. *)
Definition emit (e : event) : Py unit :=
  fun w => (Ok tt, sent e w).

Definition ask {A} (f : world -> A) : Py A := fun w => (Ok (f w), w).

(** Field assignments [self.x = v]. *)
Definition set_data (v : buffer) (c : cache_state) : cache_state :=
  {| size := size c; data := v; df := df c; per_ups_data := per_ups_data c;
     per_ups_df := per_ups_df c; aggregated_data := aggregated_data c;
     aggregated_df := aggregated_df c; next_save_time := next_save_time c;
     next_hour := next_hour c; hourly_data := hourly_data c;
     last_daily_aggregation := last_daily_aggregation c;
     last_broadcast := last_broadcast c;
     last_broadcast_aggregated := last_broadcast_aggregated c;
     last_broadcast_per_ups := last_broadcast_per_ups c |}.

Definition set_df (v : option dataframe) (c : cache_state) : cache_state :=
  {| size := size c; data := data c; df := v; per_ups_data := per_ups_data c;
     per_ups_df := per_ups_df c; aggregated_data := aggregated_data c;
     aggregated_df := aggregated_df c; next_save_time := next_save_time c;
     next_hour := next_hour c; hourly_data := hourly_data c;
     last_daily_aggregation := last_daily_aggregation c;
     last_broadcast := last_broadcast c;
     last_broadcast_aggregated := last_broadcast_aggregated c;
     last_broadcast_per_ups := last_broadcast_per_ups c |}.

Definition set_per_ups (d : list (Z * buffer)) (f : list (Z * dataframe))
  (c : cache_state) : cache_state :=
  {| size := size c; data := data c; df := df c; per_ups_data := d;
     per_ups_df := f; aggregated_data := aggregated_data c;
     aggregated_df := aggregated_df c; next_save_time := next_save_time c;
     next_hour := next_hour c; hourly_data := hourly_data c;
     last_daily_aggregation := last_daily_aggregation c;
     last_broadcast := last_broadcast c;
     last_broadcast_aggregated := last_broadcast_aggregated c;
     last_broadcast_per_ups := last_broadcast_per_ups c |}.

Definition set_aggregated (d : buffer) (f : option dataframe)
  (c : cache_state) : cache_state :=
  {| size := size c; data := data c; df := df c;
     per_ups_data := per_ups_data c; per_ups_df := per_ups_df c;
     aggregated_data := d; aggregated_df := f;
     next_save_time := next_save_time c;
     next_hour := next_hour c; hourly_data := hourly_data c;
     last_daily_aggregation := last_daily_aggregation c;
     last_broadcast := last_broadcast c;
     last_broadcast_aggregated := last_broadcast_aggregated c;
     last_broadcast_per_ups := last_broadcast_per_ups c |}.

Definition set_next_save_time (v : option Z) (c : cache_state) : cache_state :=
  {| size := size c; data := data c; df := df c;
     per_ups_data := per_ups_data c; per_ups_df := per_ups_df c;
     aggregated_data := aggregated_data c; aggregated_df := aggregated_df c;
     next_save_time := v;
     next_hour := next_hour c; hourly_data := hourly_data c;
     last_daily_aggregation := last_daily_aggregation c;
     last_broadcast := last_broadcast c;
     last_broadcast_aggregated := last_broadcast_aggregated c;
     last_broadcast_per_ups := last_broadcast_per_ups c |}.

Definition set_next_hour (v : option Z) (c : cache_state) : cache_state :=
  {| size := size c; data := data c; df := df c;
     per_ups_data := per_ups_data c; per_ups_df := per_ups_df c;
     aggregated_data := aggregated_data c; aggregated_df := aggregated_df c;
     next_save_time := next_save_time c;
     next_hour := v; hourly_data := hourly_data c;
     last_daily_aggregation := last_daily_aggregation c;
     last_broadcast := last_broadcast c;
     last_broadcast_aggregated := last_broadcast_aggregated c;
     last_broadcast_per_ups := last_broadcast_per_ups c |}.

Definition set_hourly_data (v : list reading) (c : cache_state) : cache_state :=
  {| size := size c; data := data c; df := df c;
     per_ups_data := per_ups_data c; per_ups_df := per_ups_df c;
     aggregated_data := aggregated_data c; aggregated_df := aggregated_df c;
     next_save_time := next_save_time c;
     next_hour := next_hour c; hourly_data := v;
     last_daily_aggregation := last_daily_aggregation c;
     last_broadcast := last_broadcast c;
     last_broadcast_aggregated := last_broadcast_aggregated c;
     last_broadcast_per_ups := last_broadcast_per_ups c |}.

Definition set_last_daily_aggregation (v : option Z) (c : cache_state)
  : cache_state :=
  {| size := size c; data := data c; df := df c;
     per_ups_data := per_ups_data c; per_ups_df := per_ups_df c;
     aggregated_data := aggregated_data c; aggregated_df := aggregated_df c;
     next_save_time := next_save_time c;
     next_hour := next_hour c; hourly_data := hourly_data c;
     last_daily_aggregation := v;
     last_broadcast := last_broadcast c;
     last_broadcast_aggregated := last_broadcast_aggregated c;
     last_broadcast_per_ups := last_broadcast_per_ups c |}.

Definition set_last_broadcast (v : option reading) (c : cache_state)
  : cache_state :=
  {| size := size c; data := data c; df := df c;
     per_ups_data := per_ups_data c; per_ups_df := per_ups_df c;
     aggregated_data := aggregated_data c; aggregated_df := aggregated_df c;
     next_save_time := next_save_time c;
     next_hour := next_hour c; hourly_data := hourly_data c;
     last_daily_aggregation := last_daily_aggregation c;
     last_broadcast := v;
     last_broadcast_aggregated := last_broadcast_aggregated c;
     last_broadcast_per_ups := last_broadcast_per_ups c |}.

Definition set_last_broadcast_multi (a : option reading)
  (p : list (Z * reading)) (c : cache_state) : cache_state :=
  {| size := size c; data := data c; df := df c;
     per_ups_data := per_ups_data c; per_ups_df := per_ups_df c;
     aggregated_data := aggregated_data c; aggregated_df := aggregated_df c;
     next_save_time := next_save_time c;
     next_hour := next_hour c; hourly_data := hourly_data c;
     last_daily_aggregation := last_daily_aggregation c;
     last_broadcast := last_broadcast c;
     last_broadcast_aggregated := a;
     last_broadcast_per_ups := p |}.

Declare Scope py_scope.
Delimit Scope py_scope with py.
Notation "x <- m ;; k" := (bind m (fun x => k))
  (at level 61, m at next level, right associativity) : py_scope.
Notation "m ;; k" := (bind m (fun _ => k))
  (at level 61, right associativity) : py_scope.
Local Open Scope py_scope.

(* =================================================================== *)
(** ** Boundaries *)

Definition get_next_hour (current_time : Z) : Py Z :=
  utc_time <- now ;;
  ret (floor_to HOUR utc_time + HOUR).

Definition get_next_minute (current_time : Z) : Py Z :=
  utc_time <- now ;;
  ret (floor_to MINUTE utc_time + MINUTE).

Definition is_save_time (current_time : Z) : Py bool :=
  c <- get_cache ;;
  match next_save_time c with
  | None => ret false
  | Some save_time =>
      current_utc <- now ;;
      ret (save_time <=? current_utc)
  end.

(* =================================================================== *)
(** ** The change-gated broadcasts *)

(** [{'timestamp': ts, **d}]. *)
Definition with_timestamp (ts : value F) (d : reading) : reading :=
  dupdate [("timestamp", ts)] d.

Definition important_metrics : list string :=
  ["ups_load"; "battery_charge"; "ups_realpower"; "input_voltage"].

(** The loop over [important_metrics], with its [break]s. *)
Fixpoint significant_change (metrics : list string) (current last : reading)
  : bool :=
  match metrics with
  | [] => false
  | metric :: rest =>
      if dmem current metric && dmem last metric then
        match py_float (or_zero (get_or_none current metric)),
              py_float (or_zero (get_or_none last metric)) with
        | Some current_val, Some last_val =>
            if fleb (of_Z 1) (fabs (fsub current_val last_val)) then true
            else significant_change rest current last
        | _, _ => true      (* ValueError, TypeError: assume a change *)
        end
      else significant_change rest current last
  end.

Definition status_changed (current last : reading) : bool :=
  negb (py_eq (get_or_none current "ups_status") (get_or_none last "ups_status")).

Definition broadcast_cache_update (data : reading) : Py unit :=
  try_except
    (if is_nil data then ret tt
     else
       stamp <- now ;;
       iso <- ask isoformat ;;
       let broadcast_data := with_timestamp (VStr (iso stamp)) data in
       c <- get_cache ;;
       let skip :=
         match last_broadcast c with
         | Some last =>
             if is_nil last then false
             else negb (status_changed broadcast_data last)
                  && negb (significant_change important_metrics
                             broadcast_data last)
         | None => false
         end in
       if skip then ret tt
       else
         modify (set_last_broadcast (Some broadcast_data)) ;;
         emit (cache_update broadcast_data))
    (fun _ => ret tt).

Definition broadcast_multi_ups_update (aggregated_data : reading)
  (per_ups : list (Z * reading)) : Py unit :=
  try_except
    (if is_nil aggregated_data then ret tt
     else
       stamp <- now ;;
       iso <- ask isoformat ;;
       let timestamp := VStr (iso stamp) in
       let broadcast_aggregated := with_timestamp timestamp aggregated_data in
       let broadcast_per_ups :=
         fold_left
           (fun acc kv =>
              Dict.set Z.eqb acc (fst kv) (with_timestamp timestamp (snd kv)))
           per_ups [] in
       c <- get_cache ;;
       let should_broadcast :=
         match last_broadcast_aggregated c with
         | None => true
         | Some last => status_changed broadcast_aggregated last
         end in
       let should_broadcast :=
         if should_broadcast then true
         else
           match last_broadcast_aggregated c with
           | Some last =>
               if is_nil last then false
               else significant_change important_metrics
                      broadcast_aggregated last
           | None => false
           end in
       if negb should_broadcast then ret tt
       else
         modify (set_last_broadcast_multi (Some broadcast_aggregated)
                   broadcast_per_ups) ;;
         emit (multi_ups_update broadcast_aggregated broadcast_per_ups
                 (Z.of_nat (List.length per_ups))))
    (fun _ => ret tt).

(* =================================================================== *)
(** ** Ingestion *)

(** The loop [formatted_data[key.replace('.', '_')] = value]. *)
Definition format_keys (data : reading) : reading :=
  fold_left
    (fun formatted_data kv =>
       dset formatted_data (Str.replace "." "_" (fst kv)) (snd kv))
    data [].

(** The rows [{'timestamp': ts, **d}] handed to [pd.DataFrame]. *)
Definition rows_of (b : buffer) : dataframe :=
  map (fun e => with_timestamp (VTime (fst e)) (snd e)) b.

Definition init_next_save_time (timestamp : Z) : Py unit :=
  c <- get_cache ;;
  match next_save_time c with
  | None =>
      t <- get_next_minute timestamp ;;
      modify (set_next_save_time (Some t))
  | Some _ => ret tt
  end.

(** [self.data.append(entry)] and [self.df = pd.DataFrame(df_data)]. *)
Definition append_data (entry : Z * reading) (c : cache_state) : cache_state :=
  set_data (data c ++ [entry])%list c.

Definition rebuild_df (c : cache_state) : cache_state :=
  set_df (Some (rows_of (data c))) c.

Definition add (timestamp : Z) (data : reading) : Py unit :=
  init_next_save_time timestamp ;;
  let formatted_data := format_keys data in
  modify (append_data (timestamp, formatted_data)) ;;
  modify rebuild_df ;;
  broadcast_cache_update formatted_data.

Definition add_one_ups (timestamp : Z) (ups_id : Z) (ups_data : reading)
  (c : cache_state) : cache_state :=
  let formatted_data := format_keys ups_data in
  let per :=
    if Dict.mem Z.eqb (per_ups_data c) ups_id then per_ups_data c
    else Dict.set Z.eqb (per_ups_data c) ups_id [] in
  let buf :=
    (match Dict.get Z.eqb per ups_id with Some b => b | None => [] end
     ++ [(timestamp, formatted_data)])%list in
  set_per_ups (Dict.set Z.eqb per ups_id buf)
    (Dict.set Z.eqb (per_ups_df c) ups_id (rows_of buf)) c.

Definition add_multi_ups (timestamp : Z) (all_ups_data : list (Z * reading))
  : Py unit :=
  init_next_save_time timestamp ;;
  modify (fun c =>
    fold_left (fun c kv => add_one_ups timestamp (fst kv) (snd kv) c)
      all_ups_data c) ;;
  aggregated <- lift (Aggregator.aggregate_ups_data all_ups_data) ;;
  modify (fun c =>
    let buf := (aggregated_data c ++ [(timestamp, aggregated)])%list in
    set_aggregated buf (Some (rows_of buf)) c) ;;
  broadcast_multi_ups_update aggregated all_ups_data.

(* =================================================================== *)
(** ** Numeric reduction ([calculate_averages])

    What pandas does with the rows is written out: the columns are the
    keys in order of first appearance; a cell is missing where the row
    lacks the key, and is filled with NaN, a float; a column has a numeric
    dtype when its cells are floats, ints numpy holds in 64 bits, [None]
    or missing, and not all of them are [None] ([None] becomes NaN in
    such a column); an int outside the signed 64-bit range, like a string
    or a bool, leaves the column a column of objects; [mean] skips NaN;
    [iloc[-1]] reads the last row, where a missing cell reads as NaN.
    Sums are taken in row order. *)

Definition add_column (cols : list string) (k : string) : list string :=
  if existsb (String.eqb k) cols then cols else (cols ++ [k])%list.

Definition columns_of (rows : dataframe) : list string :=
  fold_left (fun cols row => fold_left add_column (Dict.keys row) cols) rows [].

Definition cells (rows : dataframe) (col : string) : list (option (value F)) :=
  map (fun row => dget row col) rows.

(** The ints of [int64]. *)
Definition int64 (z : Z) : bool := (- 2 ^ 63 <=? z) && (z <? 2 ^ 63).

Definition is_number (c : option (value F)) : bool :=
  match c with
  | Some (VInt z) => int64 z
  | Some (VFloat _) => true
  | _ => false
  end.

Definition is_null (c : option (value F)) : bool :=
  match c with
  | None | Some VNone => true
  | _ => false
  end.

Definition is_missing (c : option (value F)) : bool :=
  match c with
  | None => true
  | Some _ => false
  end.

(** [select_dtypes(include=[np.number])] keeps the column. *)
Definition numeric_column (cs : list (option (value F))) : bool :=
  forallb (fun c => is_number c || is_null c) cs
  && existsb (fun c => is_number c || is_missing c) cs.

(** The values [mean] averages: the numbers that are not NaN. *)
Definition numbers (cs : list (option (value F))) : list F :=
  flat_map
    (fun c =>
       match c with
       | Some (VInt z) => [of_Z z]
       | Some (VFloat x) => if fisnan x then [] else [x]
       | _ => []
       end) cs.

(** The cell of the last row, [iloc[-1]]. *)
Definition last_value (rows : dataframe) (col : string) : value F :=
  match dget (List.last rows []) col with
  | Some v => v
  | None => VFloat fnan
  end.

Definition numeric_cols (rows : dataframe) : list string :=
  filter (fun col => numeric_column (cells rows col)) (columns_of rows).

Definition non_numeric_cols (rows : dataframe) : list string :=
  filter (fun col => negb (String.eqb col "timestamp"))
    (filter (fun col => negb (numeric_column (cells rows col)))
       (columns_of rows)).

Definition averages_of (rows : dataframe) : reading :=
  map (fun col => (col, VFloat (np_round (mean (numbers (cells rows col))) 2)))
    (numeric_cols rows).

Definition last_values_of (rows : dataframe) : reading :=
  map (fun col => (col, last_value rows col)) (non_numeric_cols rows).

Definition calculate_averages : Py (option reading) :=
  c <- get_cache ;;
  match df c with
  | None => ret None
  | Some rows =>
      if is_nil rows then ret None
      else
        try_except
          (library_call ;;
           ret (Some (dupdate (averages_of rows) (last_values_of rows))))
          (fun _ => ret None)
  end.

(* =================================================================== *)
(** ** Rollups ([calculate_and_save_averages]) *)

Definition hasattr (attrs : list string) (key : string) : bool :=
  existsb (String.eqb key) attrs.

Definition critical_fields : list string :=
  ["ups_status"; "ups_load"; "ups_realpower"; "ups_realpower_nominal"].

(** The record [dynamic_data] after its timestamp and the averages are
    set and the critical fields are checked again. *)
Definition new_record (attrs : list string) (stamp : Z) (averages : reading)
  : reading :=
  let dynamic_data := [("timestamp_utc", VTime stamp)] in
  let dynamic_data :=
    fold_left
      (fun row kv =>
         if hasattr attrs (fst kv) then dset row (fst kv) (snd kv) else row)
      averages dynamic_data in
  fold_left
    (fun row field =>
       if hasattr attrs field then
         match get_or_none row field with
         | VNone =>
             match dget averages field with
             | Some v => dset row field v
             | None => row
             end
         | _ => row
         end
       else row)
    critical_fields dynamic_data.

(** [UPSDynamicData.query.filter(timestamp_utc >= lo, timestamp_utc < hi)]. *)
Definition in_range (lo hi : Z) (row : reading) : bool :=
  match dget row "timestamp_utc" with
  | Some (VTime t) => (lo <=? t) && (t <? hi)
  | _ => false
  end.

Definition query_between (lo hi : Z) : Py (list reading) :=
  library_call ;;
  rows <- ask table ;;
  ret (filter (in_range lo hi) rows).

Definition is_none (v : value F) : bool :=
  match v with VNone => true | _ => false end.

(** [sum(powers)]: adding anything but a number is a TypeError. *)
Fixpoint py_sum (vs : list (value F)) (acc : F) : outcome F :=
  match vs with
  | [] => Ok acc
  | v :: rest =>
      match v with
      | VInt _ | VFloat _ | VBool _ =>
          match py_float v with
          | Some x => py_sum rest (fadd acc x)
          | None => Raise TypeError
          end
      | _ => Raise TypeError
      end
  end.

(** The real powers of the rows of the hour, [None]s left out. *)
Definition hour_powers (hour_data : list reading) : list (value F) :=
  filter (fun v => negb (is_none v))
    (map (fun d => get_or_none d "ups_realpower") hour_data).

(** [dynamic_data.ups_realpower_hrs = round(sum(powers) / len(powers), 2)],
    when there are powers. *)
Definition attach_hourly_average (powers : list (value F))
  (dynamic_data : reading) : outcome reading :=
  if is_nil powers then Ok dynamic_data
  else
    obind (py_sum powers (of_Z 0)) (fun total =>
      let hourly_avg := fdiv total (of_Z (Z.of_nat (List.length powers))) in
      Ok (dset dynamic_data "ups_realpower_hrs" (VFloat (py_round hourly_avg 2)))).

(** [self.hourly_data.append({...})]. *)
Definition append_hourly (stamp : Z) (realpower : value F) (c : cache_state)
  : cache_state :=
  set_hourly_data
    (hourly_data c ++
       [[("timestamp", VTime stamp); ("ups_realpower", realpower)]])%list c.

(** Lines 181-216: feed the hourly buffer and, at the hour boundary,
    attach the hourly average and move the boundary. *)
Definition hourly_step (utc_now stamp : Z) (averages dynamic_data : reading)
  : Py reading :=
  match dget averages "ups_realpower" with
  | None => ret dynamic_data
  | Some realpower =>
      modify (append_hourly stamp realpower) ;;
      c <- get_cache ;;
      match next_hour c with
      | None => raise TypeError          (* comparing with None *)
      | Some hour =>
          if hour <=? utc_now then
            let exact_hour := hour - HOUR in
            hour_data <- query_between exact_hour hour ;;
            dynamic_data <-
              lift (attach_hourly_average (hour_powers hour_data) dynamic_data) ;;
            modify (set_hourly_data []) ;;
            next <- get_next_hour utc_now ;;
            modify (set_next_hour (Some next)) ;;
            ret dynamic_data
          else ret dynamic_data
      end
  end.

Definition should_aggregate_daily (current_time : Z) : Py bool :=
  now_utc <- now ;;
  c <- get_cache ;;
  match last_daily_aggregation c with
  | None =>
      let day_start := floor_to DAY now_utc + 4 * HOUR in
      let day_start :=
        if 4 <=? (now_utc mod DAY) / HOUR then day_start + DAY else day_start in
      modify (set_last_daily_aggregation (Some day_start)) ;;
      ret false
  | Some due =>
      if due <=? now_utc then
        modify (set_last_daily_aggregation (Some (due + DAY))) ;;
        ret true
      else ret false
  end.

(** [func.avg(ups_realpower_hrs)] over the rows of the range; [None] when
    no row has a value. *)
Definition avg_hrs (rows : list reading) : option F :=
  let xs :=
    flat_map
      (fun d =>
         match py_float (get_or_none d "ups_realpower_hrs") with
         | Some x => [x]
         | None => []
         end) rows in
  if is_nil xs then None else Some (mean xs).

Definition aggregate_daily_data (current_time : Z) : Py unit :=
  try_except
    (now_utc <- now ;;
     let aggregation_time := floor_to DAY now_utc in
     rows <- query_between (aggregation_time - DAY) aggregation_time ;;
     match avg_hrs rows with
     | Some daily_data =>
         if truthy (VFloat daily_data) then
           let daily_avg := py_round daily_data 2 in
           session_add_commit
             [("timestamp_utc", VTime (aggregation_time - DAY));
              ("ups_realpower_days", VFloat daily_avg)]
         else ret tt
     | None => ret tt
     end)
    (fun _ => ret tt).          (* log, then db.session.rollback() *)

(** Lines 224-233: clean the buffer, move the minute boundary, and run the
    daily aggregation when it is due. *)
Definition finish_save (utc_now : Z) : Py bool :=
  modify (set_data []) ;;
  modify (set_df None) ;;
  next <- get_next_minute utc_now ;;
  modify (set_next_save_time (Some next)) ;;
  daily <- should_aggregate_daily utc_now ;;
  (if daily then aggregate_daily_data utc_now else ret tt) ;;
  ret true.

(** Lines 136-233: build the record, take the hourly step, commit, and
    finish. *)
Definition persist (utc_now stamp : Z) (averages : reading) : Py bool :=
  attrs <- ask model_attrs ;;
  let dynamic_data := new_record attrs stamp averages in
  dynamic_data <- hourly_step utc_now stamp averages dynamic_data ;;
  session_add_commit dynamic_data ;;
  finish_save utc_now.

(** The body of the [try] of [calculate_and_save_averages]. *)
Definition save_body (current_time : Z) : Py bool :=
  utc_now <- now ;;
  c <- get_cache ;;
  (match next_hour c with
   | None =>
       hour <- get_next_hour utc_now ;;
       modify (set_next_hour (Some hour))
   | Some _ => ret tt
   end) ;;
  due <- is_save_time utc_now ;;
  if negb due then ret false
  else
    averages <- calculate_averages ;;
    match averages with
    | None => ret false
    | Some averages =>
        if is_nil averages then ret false
        else
          c <- get_cache ;;
          match next_save_time c with
          | None => raise TypeError      (* never taken: the save is due *)
          | Some stamp => persist utc_now stamp averages
          end
    end.

Definition calculate_and_save_averages (current_time : Z) : Py bool :=
  try_except (save_body current_time) (fun _ => ret false).

(* =================================================================== *)
(** ** Accessors *)

Definition is_full (c : cache_state) : bool :=
  size c <=? Z.of_nat (List.length (data c)).

Definition get (c : cache_state) : buffer := data c.

Definition get_latest_cache_data (c : cache_state) : reading :=
  match last_broadcast c with
  | None => []
  | Some last => if is_nil last then [] else last
  end.

(** The values under ['aggregated'], ['individual'] and ['ups_count'];
    [None] is the empty dictionary. *)
Definition get_latest_multi_ups_data (c : cache_state)
  : option (reading * list (Z * reading) * Z) :=
  match last_broadcast_aggregated c with
  | None => None
  | Some last =>
      if is_nil last then None
      else Some (last, last_broadcast_per_ups c,
                 Z.of_nat (List.length (last_broadcast_per_ups c)))
  end.

(* =================================================================== *)
(** ** One poll ([save_ups_data]) *)

Definition set_size (v : Z) (c : cache_state) : cache_state :=
  {| size := v; data := data c; df := df c;
     per_ups_data := per_ups_data c; per_ups_df := per_ups_df c;
     aggregated_data := aggregated_data c; aggregated_df := aggregated_df c;
     next_save_time := next_save_time c;
     next_hour := next_hour c; hourly_data := hourly_data c;
     last_daily_aggregation := last_daily_aggregation c;
     last_broadcast := last_broadcast c;
     last_broadcast_aggregated := last_broadcast_aggregated c;
     last_broadcast_per_ups := last_broadcast_per_ups c |}.

(** What a poll finds outside the cache: the number of enabled devices,
    the polling interval the configuration query gives (an int, 1 when
    there is no configuration row) or the exception it raises, the
    readings [get_all_ups_data] collects, the answer of
    [is_ups_connected], and the attributes of the object [get_ups_data]
    returns. *)
Record poll : Type := {
  enabled_devices : nat;
  polling_query : outcome Z;
  all_ups_data : list (Z * reading);
  is_ups_connected : bool;
  data_dict : reading
}.

(** The error messages of [save_ups_data]. *)
Inductive message : Type :=
| no_data_retrieved
| connection_unavailable
| error_saving (e : exn).

(** [max(5, int(cache_seconds / polling_interval))] with [cache_seconds]
    60, for an interval above 1. *)
Definition target_buffer_size (polling_interval : Z) : Z :=
  Z.max 5 (60 / polling_interval).

Definition save_ups_data (env : poll) : Py (bool * option message) :=
  try_except
    (now_utc <- now ;;
     let polling_interval :=
       match polling_query env with
       | Ok interval => interval
       | Raise _ => 1
       end in
     (if 1 <? polling_interval then
        c <- get_cache ;;
        if negb (size c =? target_buffer_size polling_interval)
        then modify (set_size (target_buffer_size polling_interval))
        else ret tt
      else ret tt) ;;
     if (1 <? enabled_devices env)%nat then
       if is_nil (all_ups_data env)
       then ret (false, Some no_data_retrieved)
       else
         add_multi_ups now_utc (all_ups_data env) ;;
         ret (true, None)
     else
       if negb (is_ups_connected env)
       then ret (false, Some connection_unavailable)
       else
         add now_utc (data_dict env) ;;
         success <- calculate_and_save_averages now_utc ;;
         ret (true, None))
    (fun e => ret (false, Some (error_saving e))).

End WithFloat.
End Cache.

(* ===================================================================== *)
(** * The properties, in the words of the specification *)
(* ===================================================================== *)

Module Spec.
Section WithFloat.
Context {F : Type} {FO : FloatOps F}.
Import Aggregator.

Abbreviation reading := (dict (value F)).

(** ** Status resolver *)

Definition normalized (s : string) : string := Str.strip (Str.upper s).

(** The severities of the table keys occurring in [s] as substrings. *)
Definition matching_severities (s : string) : list Z :=
  map snd (filter (fun kv => Str.contains (fst kv) s) STATUS_PRIORITY).

Definition maximum (l : list Z) : Z := fold_right Z.max 0 l.

(** [k] occurs in [s] as a substring: some text, then [k], then the rest. *)
Definition occurs (k s : string) : Prop :=
  exists before after, s = (before ++ k ++ after)%string.

(** ** Composite aggregate *)

(** A status the aggregator can read: a string, or a false value. *)
Definition readable (v : value F) : Prop :=
  truthy v = false \/ exists s, v = VStr s.

Definition status_ok (d : reading) : Prop := readable (status_of d).

(** The running minimum of the aggregation loop, from its value before
    the loop. *)
Definition running_min (m : option F) (xs : list F) : option F :=
  fold_left
    (fun m x => Some (match m with None => x | Some y => py_min y x end))
    xs m.

Definition reported (us dot : string) (devices : list reading) : list F :=
  map (fun d => metric d us dot) devices.

(** The values strictly greater than 0. *)
Definition above_zero (xs : list F) : list F :=
  filter (fun x => fltb (of_Z 0) x) xs.


(** The merged metrics: the underscore and the dot spelling of each. *)
Definition merged_metrics : list (string * string) :=
  [ ("ups_status", "ups.status"); ("ups_realpower", "ups.realpower");
    ("ups_load", "ups.load"); ("battery_charge", "battery.charge");
    ("battery_runtime", "battery.runtime");
    ("input_voltage", "input.voltage");
    ("output_voltage", "output.voltage") ].




(** ** Key normalisation *)

Definition canonical_key (k : string) : string := Str.replace "." "_" k.

Definition no_dot (part : string) : Prop := Str.mem "." part = false.

(** The reading is a dictionary holding [v] under the key [k] and under
    no other key of the same canonical form. *)
Definition carries (d : reading) (k : string) (v : value F) : Prop :=
  NoDup (Dict.keys d) /\
  dget d k = Some v /\
  forall k', In k' (Dict.keys d) -> canonical_key k' = canonical_key k -> k' = k.

(** ** Numeric reduction, as the specification words it *)

Definition buffered_values (b : Cache.buffer) (field : string)
  : list (value F) :=
  flat_map
    (fun e => match dget (snd e) field with Some v => [v] | None => [] end) b.

Definition uniformly_numeric (vs : list (value F)) : bool :=
  forallb (fun v => match v with VInt _ | VFloat _ => true | _ => false end) vs.

Definition as_numbers (vs : list (value F)) : list F :=
  flat_map (fun v => match py_float v with Some x => [x] | None => [] end) vs.

(** The mean of the buffered values of a uniformly numeric field, else its
    most recently buffered value. *)
Definition claimed_reduction (b : Cache.buffer) (field : string)
  : option (value F) :=
  match buffered_values b field with
  | [] => None
  | vs =>
      if uniformly_numeric vs
      then Some (VFloat (np_round (mean (as_numbers vs)) 2))
      else Some (List.last vs VNone)
  end.

(** ** Change gate *)

(** The watched field read as a number, when the view has it and it
    converts. *)
Definition number_at (view : reading) (metric : string) : option F :=
  match dget view metric with
  | Some v => py_float (or_zero v)
  | None => None
  end.

Definition has_number (view : reading) (metric : string) : bool :=
  match number_at view metric with Some _ => true | None => false end.

(** The rule as claimed: (a) no prior view, (b) the status differs, (c) a
    watched number moved by 1.0 or more, (d) a watched field is present in
    one view and absent or not a number in the other. *)
Definition claimed_gate (prior : option reading) (view : reading) : bool :=
  match prior with
  | None => true
  | Some last =>
      negb (py_eq (get_or_none view "ups_status") (get_or_none last "ups_status"))
      || existsb
           (fun m =>
              match number_at view m, number_at last m with
              | Some c, Some l => fleb (of_Z 1) (fabs (fsub c l))
              | _, _ => false
              end) Cache.important_metrics
      || existsb
           (fun m =>
              (dmem view m && negb (has_number last m))
              || (dmem last m && negb (has_number view m)))
           Cache.important_metrics
  end.

(** The rule of the code: a watched field counts only when both views have
    it, and then either a value that does not convert or a move of 1.0 or
    more is a change. *)
Definition watched_change (view last : reading) (m : string) : Prop :=
  dmem view m = true /\ dmem last m = true /\
  (number_at view m = None \/ number_at last m = None \/
   exists c l, number_at view m = Some c /\ number_at last m = Some l /\
               fleb (of_Z 1) (fabs (fsub c l)) = true).

(** The status fields of the two views differ: two texts that are not the
    same text, and in any other case two values that Python's [==] tells
    apart (a view without the field has the status [None]). *)
Definition status_differs (view last : reading) : Prop :=
  match get_or_none view "ups_status", get_or_none last "ups_status" with
  | VStr s, VStr s' => s <> s'
  | a, b => py_eq a b = false
  end.

Definition notify_condition (prior : option reading) (view : reading) : Prop :=
  prior = None \/
  exists last, prior = Some last /\
    (status_differs view last \/
     exists m, In m Cache.important_metrics /\ watched_change view last m).

(** ** Scheduler *)

Definition monotone (clock : nat -> Z) : Prop :=
  forall n, clock n <= clock (S n).

(** The sample buffer and the minute boundary are as before. *)
Definition same_buffer (w w' : Cache.world (F:=F)) : Prop :=
  Cache.data (Cache.cache w') = Cache.data (Cache.cache w) /\
  Cache.df (Cache.cache w') = Cache.df (Cache.cache w) /\
  Cache.next_save_time (Cache.cache w') = Cache.next_save_time (Cache.cache w).

(** The whole state the specification calls scheduler and buffer state. *)
Definition same_schedule (w w' : Cache.world (F:=F)) : Prop :=
  same_buffer w w' /\
  Cache.hourly_data (Cache.cache w') = Cache.hourly_data (Cache.cache w) /\
  Cache.next_hour (Cache.cache w') = Cache.next_hour (Cache.cache w).

(** The collaborators are the same and the clock has only moved on. *)
Definition later (w w' : Cache.world (F:=F)) : Prop :=
  Cache.clock w' = Cache.clock w /\
  Cache.faults w' = Cache.faults w /\
  Cache.model_attrs w' = Cache.model_attrs w /\
  (Cache.ticks w <= Cache.ticks w')%nat /\
  (Cache.calls w <= Cache.calls w')%nat /\
  Cache.last_broadcast (Cache.cache w') = Cache.last_broadcast (Cache.cache w).

(** A boundary, when set, is a whole number of units. *)
Definition aligned (unit : Z) (boundary : option Z) : Prop :=
  forall t, boundary = Some t -> t mod unit = 0.

(** The boundary is kept, or set from a reading of the clock made
    meanwhile. *)
Definition kept_or_reset (unit : Z) (w w' : Cache.world (F:=F))
  (proj : Cache.cache_state (F:=F) -> option Z) : Prop :=
  proj (Cache.cache w') = proj (Cache.cache w) \/
  exists i, (Cache.ticks w <= i < Cache.ticks w')%nat /\
            proj (Cache.cache w') =
            Some (Cache.floor_to unit (Cache.clock w i) + unit).

(** The states of a run: a fresh cache, then any sequence of ingestions
    and rollup checks. *)
Inductive step : Cache.world (F:=F) -> Cache.world (F:=F) -> Prop :=
| step_add ts d w : step w (snd (Cache.add ts d w))
| step_add_multi_ups ts all w : step w (snd (Cache.add_multi_ups ts all w))
| step_save t w : step w (snd (Cache.calculate_and_save_averages t w)).

Inductive reachable : Cache.world (F:=F) -> Prop :=
| reachable_init w size :
    Cache.cache w = Cache.init size -> monotone (Cache.clock w) -> reachable w
| reachable_step w w' : reachable w -> step w w' -> reachable w'.

(** The rows stored with a timestamp from [lo] on and before [hi]. *)
Definition stored_between (lo hi : Z) (table : list reading) : list reading :=
  filter
    (fun row =>
       match dget row "timestamp_utc" with
       | Some (VTime t) => (lo <=? t) && (t <? hi)
       | _ => false
       end) table.

(** The numbers the rows hold under a field, rows without one left out. *)
Definition field_numbers (field : string) (rows : list reading) : list F :=
  flat_map
    (fun row =>
       match dget row field with
       | Some v => match py_float v with Some x => [x] | None => [] end
       | None => []
       end) rows.

(** The real power of every row is a number, or there is none. *)
Definition summable (rows : list reading) : Prop :=
  Forall
    (fun row =>
       match get_or_none row "ups_realpower" with
       | VNone | VBool _ | VInt _ | VFloat _ => True
       | _ => False
       end) rows.

(** The hour rollup of a flush fires: the hour boundary is reached, the
    minute rollup is due and reduces to a record with a real power, the
    query for the rows of the hour goes through, and the real powers of
    these rows are numbers. *)
Definition hour_rollup_fires (w : Cache.world (F:=F)) (boundary : Z) : Prop :=
  Cache.next_hour (Cache.cache w) = Some boundary /\
  boundary <= Cache.clock w (Cache.ticks w) /\
  (exists stamp,
     Cache.next_save_time (Cache.cache w) = Some stamp /\
     stamp <= Cache.clock w (S (Cache.ticks w))) /\
  (exists rows,
     Cache.df (Cache.cache w) = Some rows /\
     is_nil rows = false /\
     Cache.faults w (Cache.calls w) = false /\
     dmem (dupdate (Cache.averages_of rows) (Cache.last_values_of rows))
       "ups_realpower" = true) /\
  Cache.faults w (S (Cache.calls w)) = false /\
  summable (stored_between (boundary - Cache.HOUR) boundary (Cache.table w)).

(** ** The buffer behind the data frame *)

(** The value each buffered entry has for a field, [None] where the entry
    lacks it. *)
Definition field_values (b : Cache.buffer) (field : string)
  : list (option (value F)) :=
  map (fun e => dget (snd e) field) b.

(** The value the most recently buffered entry has for a field, NaN when
    it lacks the field. *)
Definition last_entry_value (b : Cache.buffer) (field : string) : value F :=
  match dget (snd (List.last b (0, []))) field with
  | Some v => v
  | None => VFloat fnan
  end.

(** A number the reduction averages: a float, or an int of the signed
    64-bit range. *)
Definition numeric_value (v : value F) : Prop :=
  match v with
  | VFloat _ => True
  | VInt z => - 2 ^ 63 <= z < 2 ^ 63
  | _ => False
  end.

(** The values the reduction is stated for: no datetime, and no int
    outside the signed 64-bit range. *)
Definition plain_value (v : value F) : Prop :=
  match v with
  | VTime _ => False
  | VInt z => - 2 ^ 63 <= z < 2 ^ 63
  | _ => True
  end.

(** The field is averaged: every value buffered for it is a number or
    [None], and some entry holds a number for it or lacks it. *)
Definition averaged (b : Cache.buffer) (field : string) : Prop :=
  Forall (fun v => v = VNone \/ numeric_value v) (buffered_values b field) /\
  (Exists numeric_value (buffered_values b field) \/
   exists e, In e b /\ dget (snd e) field = None).

(** The numbers averaged: the ints and the floats buffered for the field,
    NaN left out. *)
Definition averaged_numbers (b : Cache.buffer) (field : string) : list F :=
  flat_map
    (fun v =>
       match v with
       | VInt z => [of_Z z]
       | VFloat x => if fisnan x then [] else [x]
       | _ => []
       end) (buffered_values b field).

(** The data frame is the one built from the buffer, whose entries are
    dictionaries. *)
Definition buffer_consistent (c : Cache.cache_state (F:=F)) : Prop :=
  Forall (fun e => NoDup (Dict.keys (snd e))) (Cache.data c) /\
  ((Cache.data c = [] /\ Cache.df c = None) \/
   (Cache.data c <> [] /\ Cache.df c = Some (Cache.rows_of (Cache.data c)))).

(** ** Further notions: statuses, counts, published views *)

(** A text made of the characters [str.strip] removes. *)
Fixpoint blank (s : string) : bool :=
  match s with
  | EmptyString => true
  | String c r => Str.is_space c && blank r
  end.

(** The device is one the aggregator counts as online. *)
Definition counted_online (d : reading) : bool :=
  match status_of d with
  | VStr s => Str.contains "OL" (Str.upper s) || Str.contains "CHRG" (Str.upper s)
  | _ => false
  end.

(** The real powers listed in the device summaries. *)
Definition summary_powers (devices : list reading) : list F :=
  flat_map
    (fun s => match dget s "realpower" with
              | Some (VFloat x) => [x]
              | _ => []
              end) devices.

(** The payload of the most recent single-device notification, the empty
    dictionary when none was sent. *)
Definition latest_cache_update (events : list Cache.event) : reading :=
  fold_left
    (fun latest e =>
       match e with
       | Cache.cache_update payload => payload
       | Cache.multi_ups_update _ _ _ => latest
       end) events [].

(** The states a run goes through from a given one. *)
Inductive run_from (w0 : Cache.world (F:=F)) : Cache.world (F:=F) -> Prop :=
| run_start : run_from w0 w0
| run_step w w' : run_from w0 w -> step w w' -> run_from w0 w'.

(** The computation keeps a property of the world, whether it returns or
    raises. *)
Definition keeps {A} (P : Cache.world (F:=F) -> Prop) (m : Cache.Py (F:=F) A)
  : Prop :=
  forall w, P w -> P (snd (m w)).

(** The day boundary, when set, is at 04:00 UTC. *)
Definition at_four (boundary : option Z) : Prop :=
  forall t, boundary = Some t -> t mod Cache.DAY = 4 * Cache.HOUR.

(** A buffer that holds an entry has its minute boundary set. *)
Definition scheduled (c : Cache.cache_state (F:=F)) : Prop :=
  (Cache.data c <> [] \/ Cache.per_ups_data c <> [] \/
   Cache.aggregated_data c <> []) ->
  Cache.next_save_time c <> None.

End WithFloat.
End Spec.

(* ===================================================================== *)
(** * Concrete devices, readings and runs *)
(* ===================================================================== *)

Module Runs.
Import Cache.

Abbreviation Fq := FloatQ.t.

Definition device (status : string) (realpower : Fq) (load runtime : Z)
  : dict (value Fq) :=
  [ ("ups_status", VStr status); ("ups_realpower", VFloat realpower);
    ("ups_load", VInt load); ("battery_runtime", VInt runtime) ].

Definition three_devices : list (Z * dict (value Fq)) :=
  [ (1, device "OL" (FloatQ.dec 1000 1) 40 300);
    (2, device "OL CHRG" (FloatQ.dec 505 1) 0 0);
    (3, device "OB" (FloatQ.dec 0 0) 60 120) ].


(** A reading as [upsc] spells it, with dots. *)
Definition sample (status : string) (load realpower : Fq) : dict (value Fq) :=
  [ ("ups.status", VStr status); ("ups.load", VFloat load);
    ("ups.realpower", VFloat realpower) ].

(** A clock that reads 00:00:10 twice, 00:01:01 five times, and [late]
    from then on. *)
Definition clock_of (late : Z) (n : nat) : Z :=
  if (n <? 2)%nat then 10 * SECOND
  else if (n <? 7)%nat then 61 * SECOND
  else late.

(** A fresh cache; the library call number [failing], if any, raises. *)
Definition fresh (late : Z) (failing : option nat) : world (F:=Fq) := {|
  cache := init 60;
  clock := clock_of late;
  ticks := 0;
  faults := fun n => match failing with Some k => Nat.eqb n k | None => false end;
  calls := 0;
  model_attrs := ["ups_status"; "ups_load"; "ups_realpower"; "ups_realpower_hrs"];
  table := [];
  isoformat := fun _ => "now";
  emitted := []
|}.

(** One reading ingested at 00:00:10. *)
Definition first_reading (late : Z) (failing : option nat) : world (F:=Fq) :=
  snd (add 0 (sample "OL" (FloatQ.dec 400 1) (FloatQ.dec 1000 1))
         (fresh late failing)).

(** The rollup check at 00:01:01, which is due. *)
Definition first_check (late : Z) (failing : option nat) : world (F:=Fq) :=
  snd (calculate_and_save_averages 0 (first_reading late failing)).

(** A second reading, ingested at [late]. *)
Definition second_reading (late : Z) (failing : option nat) : world (F:=Fq) :=
  snd (add 0 (sample "OL" (FloatQ.dec 420 1) (FloatQ.dec 1050 1))
         (first_check late failing)).

(** A stall of two and a half hours, and a resumption five seconds past
    the hour. *)
Definition after_stall : Z := 2 * HOUR + 30 * MINUTE.
Definition just_past_the_hour : Z := HOUR + 5 * SECOND.

(** Rows stored by an earlier run: one at 00:00:00 with a real power of
    40.25, one at 00:30:00 without a real power, one at 01:00:00 with a
    real power of 1000. *)
Definition earlier_rows : list (dict (value Fq)) :=
  [ [("timestamp_utc", VTime 0); ("ups_realpower", VFloat (FloatQ.dec 4025 2))];
    [("timestamp_utc", VTime (30 * MINUTE)); ("ups_realpower", VNone)];
    [("timestamp_utc", VTime HOUR); ("ups_realpower", VFloat (FloatQ.dec 10000 1))] ].

(** A fresh cache beside these rows. *)
Definition restarted (late : Z) : world (F:=Fq) :=
  fold_left (fun w row => stored row w) earlier_rows (fresh late None).

(** A reading at 00:00:10, the rollup check at 00:01:01, which stores a
    row with the real power 100, and a second reading five seconds past
    the hour. *)
Definition resumed : world (F:=Fq) :=
  snd (add 0 (sample "OL" (FloatQ.dec 420 1) (FloatQ.dec 1050 1))
    (snd (calculate_and_save_averages 0
      (snd (add 0 (sample "OL" (FloatQ.dec 400 1) (FloatQ.dec 1000 1))
         (restarted just_past_the_hour)))))).

(** Rows with hourly averages: one the day before at midnight (100), one
    at 05:00 (50.25), one at 06:00 without an hourly average; one a
    microsecond before that day and one at the midnight that ends it. *)
Definition hourly_rows : list (dict (value Fq)) :=
  [ [("timestamp_utc", VTime (DAY - 1));
     ("ups_realpower_hrs", VFloat (FloatQ.dec 10000 1))];
    [("timestamp_utc", VTime DAY);
     ("ups_realpower_hrs", VFloat (FloatQ.dec 1000 1))];
    [("timestamp_utc", VTime (DAY + 5 * HOUR));
     ("ups_realpower_hrs", VFloat (FloatQ.dec 5025 2))];
    [("timestamp_utc", VTime (DAY + 6 * HOUR)); ("ups_realpower_hrs", VNone)];
    [("timestamp_utc", VTime (2 * DAY));
     ("ups_realpower_hrs", VFloat (FloatQ.dec 10000 1))] ].

(** The cache beside these rows at 04:00:05 of the day after. *)
Definition next_day : world (F:=Fq) := {|
  cache := init 60;
  clock := fun _ => 2 * DAY + 4 * HOUR + 5 * SECOND;
  ticks := 0;
  faults := fun _ => false;
  calls := 0;
  model_attrs := ["ups_realpower_hrs"; "ups_realpower_days"];
  table := hourly_rows;
  isoformat := fun _ => "now";
  emitted := []
|}.

(** Two entries with different fields: a status, then a load. *)
Definition ragged : world (F:=Fq) :=
  snd (add 0 [("ups.load", VInt 5)]
         (snd (add 0 [("ups.status", VStr "OL")] (fresh after_stall None)))).

(** Three entries with loads 10, 20, 30 and statuses OL, OL, OB. *)
Definition three_entries : world (F:=Fq) :=
  snd (add 0 [("ups.load", VInt 30); ("ups.status", VStr "OB")]
    (snd (add 0 [("ups.load", VInt 20); ("ups.status", VStr "OL")]
      (snd (add 0 [("ups.load", VInt 10); ("ups.status", VStr "OL")]
         (fresh after_stall None)))))).

(** Three entries: a load of 10; no load and a charge of [None]; a load of
    30.5 and a charge of 80. *)
Definition mixed_entries : world (F:=Fq) :=
  snd (add 0 [("ups.load", VFloat (FloatQ.dec 305 1)); ("ups.status", VStr "OB");
              ("battery.charge", VFloat (FloatQ.dec 800 1))]
    (snd (add 0 [("ups.status", VStr "OL"); ("battery.charge", VNone)]
      (snd (add 0 [("ups.load", VInt 10); ("ups.status", VStr "OL")]
         (fresh after_stall None)))))).

(** A view with a load of 50 published, then views to compare with it. *)
Definition view_with_load (load : Fq) (status : string) : dict (value Fq) :=
  [ ("ups_status", VStr status); ("ups_load", VFloat load) ].

Definition published : world (F:=Fq) :=
  snd (add 0 (view_with_load (FloatQ.dec 500 1) "OL") (fresh after_stall None)).

Definition view_without_load : dict (value Fq) := [ ("ups_status", VStr "OL") ].

(** Two devices, the status of the second being a number. *)
Definition odd_devices : list (Z * dict (value Fq)) :=
  [ (1, device "OL" (FloatQ.dec 1000 1) 40 300);
    (2, [("ups_status", VInt 1)]) ].

(** An empty reading ingested into a fresh cache. *)
Definition empty_entry : world (F:=Fq) :=
  snd (add 0 [] (fresh after_stall None)).

(** The three devices ingested into a fresh cache. *)
Definition three_ingested : world (F:=Fq) :=
  snd (add_multi_ups 0 three_devices (fresh after_stall None)).

(** One reading in a cache whose capacity is 1. *)
Definition full_cache : world (F:=Fq) :=
  with_cache (set_size 1) (first_reading after_stall None).

(** What a poll finds: [enabled] devices, a polling interval of
    [interval] seconds, the three devices, and the single device answering
    or not. *)
Definition a_poll (enabled : nat) (interval : Z) (connected : bool)
  : poll (F:=Fq) := {|
  enabled_devices := enabled;
  polling_query := Ok interval;
  all_ups_data := three_devices;
  is_ups_connected := connected;
  data_dict := sample "OL" (FloatQ.dec 400 1) (FloatQ.dec 1000 1)
|}.

End Runs.

(* ===================================================================== *)
(** * Basic facts *)
(* ===================================================================== *)

Section DictFacts.
Context {V : Type}.

Lemma dget_set_eq (d : dict V) k v : dget (dset d k v) k = Some v.
Proof.
  induction d as [|[k' v'] d IH]; simpl.
  - now rewrite String.eqb_refl.
  - destruct (String.eqb k k') eqn:E; simpl; rewrite E; auto.
Qed.

Lemma dget_set_neq (d : dict V) k k' v :
  k' <> k -> dget (dset d k v) k' = dget d k'.
Proof.
  intros N. induction d as [|[k0 v0] d IH]; simpl.
  - destruct (String.eqb_spec k' k); congruence.
  - destruct (String.eqb_spec k k0); simpl.
    + subst k0. destruct (String.eqb_spec k' k); congruence.
    + destruct (String.eqb k' k0); auto.
Qed.

Lemma dget_set (d : dict V) k k' v :
  dget (dset d k v) k' = if String.eqb k' k then Some v else dget d k'.
Proof.
  destruct (String.eqb_spec k' k).
  - subst. apply dget_set_eq.
  - now apply dget_set_neq.
Qed.

Lemma dget_snoc (l : dict V) a b k :
  dget (l ++ [(a, b)]) k =
  match dget l k with
  | Some v => Some v
  | None => if String.eqb k a then Some b else None
  end.
Proof.
  induction l as [|[a' b'] l IHl]; simpl.
  - destruct (String.eqb k a); reflexivity.
  - destruct (String.eqb k a'); auto.
Qed.

Lemma dget_some_in (d : dict V) k v : dget d k = Some v -> In k (map fst d).
Proof.
  induction d as [|[a b] d IH]; simpl; [discriminate|].
  destruct (String.eqb_spec k a); auto.
Qed.

Lemma dget_in_some (d : dict V) k : In k (map fst d) -> exists v, dget d k = Some v.
Proof.
  induction d as [|[a b] d IH]; simpl; [tauto|].
  intros [E|I].
  - subst. rewrite String.eqb_refl. eauto.
  - destruct (String.eqb k a); eauto.
Qed.

(** Reading a key after a run of assignments: the last assignment to the
    key wins, and the dictionary one started from shows through. *)
Lemma dget_assignments (items : list (string * V)) (d : dict V) k :
  dget (fold_left (fun acc kv => dset acc (fst kv) (snd kv)) items d) k =
  match dget (rev items) k with
  | Some v => Some v
  | None => dget d k
  end.
Proof.
  revert d. induction items as [|[k0 v0] items IH]; intros d; simpl.
  - reflexivity.
  - rewrite IH, dget_snoc, dget_set. simpl.
    destruct (dget (rev items) k); auto.
    destruct (String.eqb k k0); reflexivity.
Qed.

Lemma dget_update (d e : dict V) k :
  dget (dupdate d e) k =
  match dget (rev e) k with Some v => Some v | None => dget d k end.
Proof. apply dget_assignments. Qed.

Lemma dget_rev_nodup (d : dict V) k :
  NoDup (map fst d) -> dget (rev d) k = dget d k.
Proof.
  induction d as [|[k0 v0] d IH]; intros ND; simpl; auto.
  inversion ND as [|? ? NI ND']; subst.
  rewrite dget_snoc, IH by assumption.
  destruct (String.eqb_spec k k0).
  - subst k0. destruct (dget d k) eqn:E; auto.
    exfalso. apply NI. eapply dget_some_in; eauto.
  - destruct (dget d k); reflexivity.
Qed.

End DictFacts.

Section StatusFacts.
Context {F : Type} {FO : FloatOps F}.
Import Aggregator Spec.

Lemma maximum_nonneg (l : list Z) : 0 <= maximum l.
Proof. induction l; simpl; lia. Qed.

Lemma scan_fold (tbl : dict Z) (s : string) (m : Z) :
  0 <= m ->
  fold_left
    (fun max_priority kv =>
       if Str.contains (fst kv) s
       then Z.max max_priority (snd kv) else max_priority) tbl m =
  Z.max m (maximum (map snd (filter (fun kv => Str.contains (fst kv) s) tbl))).
Proof.
  revert m. induction tbl as [|[k p] tbl IH]; intros m Hm; simpl.
  - lia.
  - destruct (Str.contains k s); simpl; rewrite IH by lia; lia.
Qed.

Lemma scan_keys_maximum (s : string) :
  scan_keys s = maximum (matching_severities s).
Proof.
  unfold scan_keys, matching_severities. rewrite scan_fold by lia.
  pose proof (maximum_nonneg
    (map snd (filter (fun kv => Str.contains (fst kv) s) STATUS_PRIORITY))).
  lia.
Qed.

Lemma priority_of_text_exact (s : string) (p : Z) :
  dget STATUS_PRIORITY (normalized s) = Some p -> priority_of_text s = p.
Proof.
  unfold priority_of_text, normalized. intros ->. reflexivity.
Qed.

Lemma priority_of_text_scan (s : string) :
  dget STATUS_PRIORITY (normalized s) = None ->
  priority_of_text s = maximum (matching_severities (normalized s)).
Proof.
  unfold priority_of_text, normalized. intros ->.
  rewrite scan_keys_maximum.
  pose proof (maximum_nonneg (matching_severities (Str.strip (Str.upper s)))) as H.
  destruct (Z.ltb_spec 0 (maximum (matching_severities (Str.strip (Str.upper s)))));
    [reflexivity|].
  change UNKNOWN_PRIORITY with 0. lia.
Qed.

Lemma get_status_priority_text (s : string) :
  get_status_priority (F:=F) (VStr s) = Ok (priority_of_text s).
Proof.
  unfold get_status_priority. simpl.
  destruct s as [|c r]; reflexivity.
Qed.

(** [k in s] finds exactly the substrings. *)
Lemma prefix_occurs (k s : string) :
  String.prefix k s = true <-> exists after, s = (k ++ after)%string.
Proof.
  revert s. induction k as [|c k IH]; intros s.
  - split; [intros _; exists s; reflexivity|]. intros _. destruct s; reflexivity.
  - destruct s as [|c' s]; simpl.
    + split; [discriminate|]. intros (after & E). discriminate E.
    + destruct (ascii_dec c c') as [<-|N].
      * rewrite IH. split.
        -- intros (after & ->). exists after. reflexivity.
        -- intros (after & E). injection E as ->. exists after. reflexivity.
      * split; [discriminate|]. intros (after & E). injection E as X _.
        congruence.
Qed.

Lemma contains_occurs (k s : string) :
  Str.contains k s = true <-> occurs k s.
Proof.
  unfold occurs. induction s as [|c s IH].
  - cbn [Str.contains]. rewrite orb_false_r, prefix_occurs. split.
    + intros (after & E). exists "", after. exact E.
    + intros ([|x before] & after & E); [|discriminate E].
      exists after. exact E.
  - change (Str.contains k (String c s))
      with (String.prefix k (String c s) || Str.contains k s).
    rewrite orb_true_iff, prefix_occurs, IH. split.
    + intros [(after & E)|(before & after & E)].
      * exists "", after. exact E.
      * exists (String c before), after. rewrite E. reflexivity.
    + intros ([|x before] & after & E).
      * left. exists after. exact E.
      * right. injection E as _ E. exists before, after. exact E.
Qed.

(** The table has one entry for a key. *)
Lemma table_entry (k : string) (p : Z) :
  In (k, p) STATUS_PRIORITY <-> dget STATUS_PRIORITY k = Some p.
Proof.
  split.
  - intros I. simpl in I.
    repeat (destruct I as [I|I]; [injection I as <- <-; reflexivity|]).
    contradiction.
  - generalize STATUS_PRIORITY as tbl.
    induction tbl as [|[a b] tbl IH]; simpl; [discriminate|].
    destruct (String.eqb_spec k a) as [->|N]; [|auto].
    intros E. injection E as ->. auto.
Qed.

(** The scan of the table gives the greatest severity among the keys that
    occur in the text, and 0 when none occurs. *)
Lemma maximum_matching_greatest (tbl : dict Z) (s : string) :
  (forall k p, In (k, p) tbl -> 0 <= p) ->
  let m := maximum (map snd (filter (fun kv => Str.contains (fst kv) s) tbl)) in
  (forall k p, In (k, p) tbl -> occurs k s -> p <= m) /\
  ((exists k, In (k, m) tbl /\ occurs k s) \/
   ((forall k p, In (k, p) tbl -> ~ occurs k s) /\ m = 0)).
Proof.
  cbv zeta. unfold maximum.
  induction tbl as [|[a q] tbl IH]; intros POS.
  - simpl. split; [intros k p []|]. right. split; [intros k p []|reflexivity].
  - destruct IH as [UB IH]; [intros k p I; apply (POS k p); right; exact I|].
    assert (Q : 0 <= q) by (apply (POS a q); left; reflexivity).
    cbn [filter fst]. destruct (Str.contains a s) eqn:C.
    + apply contains_occurs in C. cbn [map snd fold_right].
      set (m := fold_right Z.max 0
                  (map snd (filter (fun kv => Str.contains (fst kv) s) tbl))) in *.
      split.
      * intros k p [E|I] O.
        -- injection E as <- <-. lia.
        -- specialize (UB k p I O). lia.
      * left. destruct (Z.max_spec q m) as [[L ->]|[L ->]].
        -- destruct IH as [(k & I & O)|(NO & Z0)].
           ++ exists k. split; [right; exact I|exact O].
           ++ exfalso. lia.
        -- exists a. split; [left; reflexivity|exact C].
    + assert (NO : ~ occurs a s).
      { intros O. apply contains_occurs in O. congruence. }
      split.
      * intros k p [E|I] O; [injection E as <- <-; contradiction|eauto].
      * destruct IH as [(k & I & O)|(NONE & Z0)].
        -- left. exists k. split; [right; exact I|exact O].
        -- right. split; [|exact Z0].
           intros k p [E|I]; [injection E as <- <-; exact NO|eauto].
Qed.

Lemma scan_keys_greatest (s : string) :
  (forall k p, In (k, p) STATUS_PRIORITY -> occurs k s -> p <= scan_keys s) /\
  ((exists k, In (k, scan_keys s) STATUS_PRIORITY /\ occurs k s) \/
   ((forall k p, In (k, p) STATUS_PRIORITY -> ~ occurs k s) /\ scan_keys s = 0)).
Proof.
  rewrite scan_keys_maximum. unfold matching_severities.
  apply maximum_matching_greatest.
  intros k p I. simpl in I.
  repeat (destruct I as [I|I]; [injection I as _ <-; lia|]).
  contradiction.
Qed.

(** The loop of [get_worst_status] keeps the first of the worst. *)
Lemma worst_loop_first_max (rest before mid : list string) (ws : string) :
  (forall x, In x before -> priority_of_text x < priority_of_text ws) ->
  (forall x, In x mid -> priority_of_text x <= priority_of_text ws) ->
  exists b w a,
    (before ++ ws :: mid ++ rest)%list = (b ++ w :: a)%list /\
    worst_loop (F:=F) (map VStr rest) (VStr ws) (priority_of_text ws) = Ok (VStr w) /\
    (forall x, In x b -> priority_of_text x < priority_of_text w) /\
    (forall x, In x a -> priority_of_text x <= priority_of_text w).
Proof.
  revert before mid ws.
  induction rest as [|s rest IH]; intros before mid ws Hb Hm.
  - exists before, ws, mid. rewrite app_nil_r. auto.
  - cbn [map worst_loop]. rewrite get_status_priority_text. cbn [obind].
    destruct (Z.ltb_spec (priority_of_text ws) (priority_of_text s)) as [L|L].
    + destruct (IH (before ++ ws :: mid)%list [] s) as (b & w & a & E & R & P1 & P2).
      * intros x I. apply in_app_or in I as [I|[I|I]].
        -- specialize (Hb _ I). lia.
        -- subst x. lia.
        -- specialize (Hm _ I). lia.
      * intros x [].
      * exists b, w, a. split; [|auto].
        rewrite <- E. simpl. rewrite <- app_assoc. reflexivity.
    + destruct (IH before (mid ++ [s])%list ws) as (b & w & a & E & R & P1 & P2).
      * assumption.
      * intros x I. apply in_app_or in I as [I|[I|[]]]; [auto|subst; lia].
      * exists b, w, a. split; [|auto].
        rewrite <- E. rewrite <- app_assoc. reflexivity.
Qed.

End StatusFacts.

Section AggregatorFacts.
Context {F : Type} {FO : FloatOps F}.
Import Aggregator Spec.
Local Open Scope outcome_scope.

Abbreviation reading := (dict (value F)).

Lemma is_online_readable (v : value F) :
  readable v -> exists b, is_online v = Ok b.
Proof.
  unfold is_online. intros [E|[s ->]].
  - rewrite E. eauto.
  - destruct (truthy (VStr s)); eauto.
Qed.

Lemma get_status_priority_readable (v : value F) :
  readable v -> exists p, get_status_priority v = Ok p.
Proof.
  unfold get_status_priority. intros [E|[s ->]].
  - rewrite E. simpl. eauto.
  - destruct (negb (truthy (VStr s))); eauto.
Qed.

Lemma worst_loop_readable (rest : list (value F)) :
  Forall (fun v => readable v) rest ->
  forall ws wp, exists w, worst_loop rest ws wp = Ok w.
Proof.
  induction 1 as [|v rest Hv _ IH]; intros ws wp; simpl; eauto.
  destruct (get_status_priority_readable Hv) as [p ->]. simpl.
  destruct (wp <? p); apply IH.
Qed.

Lemma get_worst_status_readable (vs : list (value F)) :
  Forall (fun v => readable v) vs -> exists w, get_worst_status vs = Ok w.
Proof.
  intros H. destruct H as [|v rest Hv Hrest]; simpl; eauto.
  destruct (get_status_priority_readable Hv) as [p ->]. simpl.
  now apply worst_loop_readable.
Qed.


(** What the loop over the devices leaves in its variables. *)
Lemma accumulate_all_totals (devices : list reading) :
  Forall status_ok devices ->
  forall t, exists t',
    accumulate_all devices t = Ok t' /\
    statuses t' = (statuses t ++ map status_of devices)%list /\
    total_realpower t' =
      fold_left fadd (reported "ups_realpower" "ups.realpower" devices)
        (total_realpower t) /\
    total_load t' =
      fold_left fadd (above_zero (reported "ups_load" "ups.load" devices))
        (total_load t) /\
    load_count t' =
      load_count t +
      Z.of_nat (List.length (above_zero (reported "ups_load" "ups.load" devices))) /\
    total_battery_charge t' =
      fold_left fadd
        (above_zero (reported "battery_charge" "battery.charge" devices))
        (total_battery_charge t) /\
    battery_count t' =
      battery_count t +
      Z.of_nat (List.length
        (above_zero (reported "battery_charge" "battery.charge" devices))) /\
    total_input_voltage t' =
      fold_left fadd
        (above_zero (reported "input_voltage" "input.voltage" devices))
        (total_input_voltage t) /\
    input_voltage_count t' =
      input_voltage_count t +
      Z.of_nat (List.length
        (above_zero (reported "input_voltage" "input.voltage" devices))) /\
    total_output_voltage t' =
      fold_left fadd
        (above_zero (reported "output_voltage" "output.voltage" devices))
        (total_output_voltage t) /\
    output_voltage_count t' =
      output_voltage_count t +
      Z.of_nat (List.length
        (above_zero (reported "output_voltage" "output.voltage" devices))) /\
    min_runtime t' =
      running_min (min_runtime t)
        (above_zero (reported "battery_runtime" "battery.runtime" devices)).
Proof.
  induction 1 as [|d devices Hd _ IH]; intros t.
  - exists t. simpl. rewrite app_nil_r, !Z.add_0_r. repeat split; reflexivity.
  - cbn [accumulate_all]. unfold accumulate.
    destruct (is_online_readable Hd) as [b ->]. cbn [obind].
    match goal with
    | |- context [accumulate_all devices ?t1] => destruct (IH t1) as (t' & R & H)
    end.
    exists t'. split; [exact R|]. clear R IH.
    cbn [statuses total_realpower total_load load_count total_battery_charge
         battery_count total_input_voltage input_voltage_count
         total_output_voltage output_voltage_count min_runtime] in H.
    destruct H as (H1 & H2 & H3 & H4 & H5 & H6 & H7 & H8 & H9 & H10 & H11).
    unfold reported, above_zero, running_min, positive in *. cbn [map filter].
    repeat split.
    + rewrite H1, <- app_assoc. reflexivity.
    + rewrite H2. reflexivity.
    + rewrite H3. destruct (fltb (of_Z 0) (metric d "ups_load" "ups.load")); reflexivity.
    + rewrite H4. destruct (fltb (of_Z 0) (metric d "ups_load" "ups.load"));
        cbn [List.length]; lia.
    + rewrite H5.
      destruct (fltb (of_Z 0) (metric d "battery_charge" "battery.charge")); reflexivity.
    + rewrite H6.
      destruct (fltb (of_Z 0) (metric d "battery_charge" "battery.charge"));
        cbn [List.length]; lia.
    + rewrite H7.
      destruct (fltb (of_Z 0) (metric d "input_voltage" "input.voltage")); reflexivity.
    + rewrite H8.
      destruct (fltb (of_Z 0) (metric d "input_voltage" "input.voltage"));
        cbn [List.length]; lia.
    + rewrite H9.
      destruct (fltb (of_Z 0) (metric d "output_voltage" "output.voltage")); reflexivity.
    + rewrite H10.
      destruct (fltb (of_Z 0) (metric d "output_voltage" "output.voltage"));
        cbn [List.length]; lia.
    + rewrite H11.
      destruct (fltb (of_Z 0) (metric d "battery_runtime" "battery.runtime"));
        [|reflexivity].
      cbn [fold_left]. destruct (min_runtime t); reflexivity.
Qed.




End AggregatorFacts.

Section AggregateTheorems.
Context {F : Type} {FO : FloatOps F}.
Import Aggregator Spec.
Local Open Scope outcome_scope.

Abbreviation reading := (dict (value F)).

(** On a non-empty input whose statuses are readable, the aggregator
    returns the dictionary built from the totals of its loop. *)
Lemma aggregate_nonempty (all_ups_data : list (Z * reading)) :
  all_ups_data <> [] ->
  Forall status_ok (Dict.values all_ups_data) ->
  exists t worst,
    accumulate_all (Dict.values all_ups_data) totals0 = Ok t /\
    get_worst_status (statuses t) = Ok worst /\
    aggregate_ups_data all_ups_data =
      Ok (aggregated t worst (Z.of_nat (List.length (Dict.values all_ups_data)))).
Proof.
  intros NE OK.
  destruct (accumulate_all_totals OK totals0) as (t & R & S & _).
  assert (W : exists worst, get_worst_status (statuses t) = Ok worst).
  { apply get_worst_status_readable. rewrite S. simpl.
    clear - OK. induction OK; simpl; constructor; auto. }
  destruct W as [worst W]. exists t, worst. repeat split; auto.
  unfold aggregate_ups_data.
  destruct all_ups_data as [|e rest]; [congruence|].
  cbn [Dict.values map is_nil] in *. rewrite R. cbn [obind]. rewrite W.
  reflexivity.
Qed.


(** C10: for every non-empty input (with readable statuses) the aggregate
    holds each merged metric under its underscore key and under its dot
    key with the same value, the flag [is_aggregated] set to true, and
    the source marker of the multi-device aggregation. *)
Theorem composite_aggregate_both_spellings (all_ups_data : list (Z * reading)) :
  all_ups_data <> [] ->
  Forall status_ok (Dict.values all_ups_data) ->
  exists r,
    aggregate_ups_data all_ups_data = Ok r /\
    (forall us dot, In (us, dot) merged_metrics ->
       exists v, dget r us = Some v /\ dget r dot = Some v) /\
    dget r "is_aggregated" = Some (VBool true) /\
    dget r "source" = Some (VStr "multi_ups_aggregation").
Proof.
  intros NE OK.
  destruct (aggregate_nonempty NE OK) as (t & worst & _ & _ & A).
  eexists. split; [exact A|]. split; [|split; reflexivity].
  intros us dot I. unfold merged_metrics in I. simpl in I.
  repeat (destruct I as [I|I];
          [injection I as <- <-; eexists; split; reflexivity|]).
  contradiction.
Qed.

(** C8 (the code at the empty input): the aggregate of no device has the
    status UNKNOWN, zero metrics and zero total and online counts, and it
    has neither an offline count nor the flag [is_aggregated]. *)
Theorem empty_aggregate_record :
  exists r,
    aggregate_ups_data (F:=F) [] = Ok r /\
    dget r "ups_status" = Some (VStr "UNKNOWN") /\
    dget r "ups_realpower" = Some (VFloat (of_Z 0)) /\
    dget r "ups_load" = Some (VFloat (of_Z 0)) /\
    dget r "battery_charge" = Some (VFloat (of_Z 0)) /\
    dget r "battery_runtime" = Some (VFloat (of_Z 0)) /\
    dget r "input_voltage" = Some (VFloat (of_Z 0)) /\
    dget r "output_voltage" = Some (VFloat (of_Z 0)) /\
    dget r "ups_count" = Some (VInt 0) /\
    dget r "ups_online_count" = Some (VInt 0) /\
    dget r "ups_offline_count" = None /\
    dget r "is_aggregated" = None /\
    dget r "source" = None.
Proof.
  exists no_data. split; [reflexivity|]. repeat split; reflexivity.
Qed.

(** C5: the severity of a status is the table entry of its upper-cased,
    trimmed text when there is one; otherwise it is the greatest severity
    among the table keys occurring in that text as substrings, the severity
    of UNKNOWN when none occurs.  The worst of no status is "UNKNOWN"; the
    worst of a non-empty sequence is the input string itself that comes
    first among those of greatest severity. *)
Theorem status_resolver_contract :
  (forall s, get_status_priority (F:=F) (VStr s) = Ok (priority_of_text s)) /\
  (forall s p,
     In (normalized s, p) STATUS_PRIORITY -> priority_of_text s = p) /\
  (forall s,
     (forall p, ~ In (normalized s, p) STATUS_PRIORITY) ->
     (forall k p, In (k, p) STATUS_PRIORITY -> occurs k (normalized s) ->
                  p <= priority_of_text s) /\
     ((exists k, In (k, priority_of_text s) STATUS_PRIORITY /\
                 occurs k (normalized s)) \/
      ((forall k p, In (k, p) STATUS_PRIORITY -> ~ occurs k (normalized s)) /\
       In ("UNKNOWN", priority_of_text s) STATUS_PRIORITY))) /\
  get_worst_status (F:=F) [] = Ok (VStr "UNKNOWN") /\
  (forall first rest,
     exists before worst after,
       first :: rest = (before ++ worst :: after)%list /\
       get_worst_status (F:=F) (map VStr (first :: rest)) = Ok (VStr worst) /\
       (forall x, In x before -> priority_of_text x < priority_of_text worst) /\
       (forall x, In x after -> priority_of_text x <= priority_of_text worst)).
Proof.
  split; [exact get_status_priority_text|].
  split.
  { intros s p I. apply priority_of_text_exact. now apply table_entry. }
  split.
  { intros s NONE.
    assert (E : dget STATUS_PRIORITY (normalized s) = None).
    { destruct (dget STATUS_PRIORITY (normalized s)) as [p|] eqn:G; [|reflexivity].
      apply table_entry in G. now apply NONE in G. }
    rewrite (priority_of_text_scan _ E), <- scan_keys_maximum.
    destruct (scan_keys_greatest (normalized s)) as [UB [FOUND|[NO Z0]]].
    - split; [exact UB|]. left. exact FOUND.
    - split; [exact UB|]. right. split; [exact NO|].
      rewrite Z0. simpl. tauto. }
  split; [reflexivity|].
  intros first rest.
  destruct (worst_loop_first_max (F:=F) rest [] [] first)
    as (b & w & a & E & R & P1 & P2); try (intros x []).
  exists b, w, a. split; [exact E|]. split; [|auto].
  cbn [map get_worst_status]. rewrite get_status_priority_text. exact R.
Qed.

End AggregateTheorems.

(** ** Concrete runs of the aggregator *)

Section AggregateRuns.
Import Aggregator Spec Runs.

Abbreviation Fq := FloatQ.t.

Lemma three_devices_readable : Forall status_ok (Dict.values three_devices).
Proof.
  repeat (apply Forall_cons; [right; eexists; reflexivity|]).
  apply Forall_nil.
Qed.




Lemma composite_aggregate_both_spellings_witness :
  three_devices <> [] /\
  Forall status_ok (Dict.values three_devices) /\
  exists r,
    aggregate_ups_data three_devices = Ok r /\
    (exists v, dget r "ups_load" = Some v /\ dget r "ups.load" = Some v) /\
    dget r "is_aggregated" = Some (VBool true).
Proof.
  assert (NE : three_devices <> []) by discriminate.
  split; [exact NE|]. split; [exact three_devices_readable|].
  destruct (composite_aggregate_both_spellings NE three_devices_readable)
    as (r & A & B & C & _).
  exists r. split; [exact A|]. split; [|exact C].
  apply B. simpl. auto.
Defined.

(** The keys of the table that do not occur in a given text. *)
Ltac absent O :=
  apply contains_occurs in O; vm_compute in O; discriminate O.

Lemma status_resolver_contract_witness :
  priority_of_text "ol" = 1 /\
  priority_of_text " ol chrg " = 2 /\
  priority_of_text "on fire" = 0 /\
  get_worst_status (F:=Fq) (map VStr ["OL"; "ob"; "OB"; "LB"]) = Ok (VStr "ob").
Proof.
  destruct (status_resolver_contract (F:=Fq)) as (_ & EXACT & SCAN & _ & WORST).
  split; [apply EXACT; simpl; tauto|].
  split; [|split].
  - destruct (SCAN " ol chrg ") as [UB FOUND].
    { intros p I. simpl in I.
      repeat (destruct I as [I|I]; [discriminate I|]). contradiction. }
    change (normalized " ol chrg ") with "OL CHRG" in UB, FOUND.
    assert (L : 2 <= priority_of_text " ol chrg ").
    { apply (UB "CHRG"); [simpl; tauto|]. exists "OL ", "". reflexivity. }
    destruct FOUND as [(k & I & O)|(NO & _)].
    + unfold STATUS_PRIORITY in I. cbn [In] in I.
      repeat (destruct I as [I|I];
              [apply pair_equal_spec in I as [<- P];
               try (exfalso; absent O); lia|]).
      contradiction.
    + exfalso. apply (NO "CHRG" 2); [simpl; tauto|].
      exists "OL ", "". reflexivity.
  - destruct (SCAN "on fire") as [_ FOUND].
    { intros p I. simpl in I.
      repeat (destruct I as [I|I]; [discriminate I|]). contradiction. }
    change (normalized "on fire") with "ON FIRE" in FOUND.
    destruct FOUND as [(k & I & O)|(_ & U)].
    + exfalso. unfold STATUS_PRIORITY in I. cbn [In] in I.
      repeat (destruct I as [I|I];
              [apply pair_equal_spec in I as [<- _]; absent O|]).
      contradiction.
    + unfold STATUS_PRIORITY in U. cbn [In] in U.
      repeat (destruct U as [U|U];
              [apply pair_equal_spec in U as [U P];
               (discriminate U || (symmetry; exact P))|]).
      contradiction.
  - destruct (WORST "OL" ["ob"; "OB"; "LB"]) as (b & w & a & E & R & P1 & P2).
    rewrite R. do 2 f_equal.
    assert (V : forall x n, priority_of_text x = n ->
                            priority_of_text x < priority_of_text w ->
                            n < priority_of_text w) by (intros; lia).
    assert (V' : forall x n, priority_of_text x = n ->
                             priority_of_text x <= priority_of_text w ->
                             n <= priority_of_text w) by (intros; lia).
    destruct b as [|x1 [|x2 [|x3 [|x4 b]]]]; simpl in E.
    + injection E as <- <-.
      pose proof (V' "ob" 6 eq_refl (P2 _ (or_introl eq_refl))) as C.
      vm_compute in C. contradiction C. reflexivity.
    + injection E as <- <- <-. reflexivity.
    + injection E as <- <- <- <-.
      pose proof (V "ob" 6 eq_refl (P1 _ (or_intror (or_introl eq_refl)))) as C.
      vm_compute in C. discriminate C.
    + injection E as <- <- <- <- <-.
      pose proof (V "ob" 6 eq_refl (P1 _ (or_intror (or_introl eq_refl)))) as C.
      vm_compute in C. discriminate C.
    + injection E as _ _ _ _ E. destruct b; discriminate E.
Defined.

Example worst_of_three :
  get_worst_status (F:=Fq) [VStr "OL"; VStr "OB DISCHRG"; VStr "LB"]
  = Ok (VStr "OB DISCHRG").
Proof. reflexivity. Qed.

Example severity_ol_chrg :
  get_status_priority (F:=Fq) (VStr "ol chrg") = Ok 2.
Proof. reflexivity. Qed.

End AggregateRuns.

(** ** Ingestion: key normalisation *)

Section IngestionFacts.
Context {F : Type} {FO : FloatOps F}.
Import Cache Spec.

Abbreviation reading := (dict (value F)).

Ltac py_unfold :=
  unfold bind, ret, try_except, raise, lift, get_cache, modify, now,
    library_call, ask, emit, with_cache, tick, called, stored, sent in *.

Lemma replace_app a b s1 s2 :
  Str.replace a b (s1 ++ s2) = (Str.replace a b s1 ++ Str.replace a b s2)%string.
Proof. induction s1 as [|c s1 IH]; simpl; [reflexivity|]. now rewrite IH. Qed.

Lemma replace_absent a b s : Str.mem a s = false -> Str.replace a b s = s.
Proof.
  induction s as [|c s IH]; simpl; [reflexivity|].
  intros H. apply orb_false_iff in H as [H1 H2].
  rewrite H1, IH by assumption. reflexivity.
Qed.

Lemma replace_join (sep : string) (parts : list string) :
  Forall no_dot parts ->
  Str.replace "." "_" (Str.join sep parts) =
  Str.join (Str.replace "." "_" sep) parts.
Proof.
  induction 1 as [|p parts Hp _ IH]; [reflexivity|].
  destruct parts as [|q parts].
  - simpl. now apply replace_absent.
  - change (Str.join sep (p :: q :: parts))
      with (p ++ sep ++ Str.join sep (q :: parts))%string.
    change (Str.join (Str.replace "." "_" sep) (p :: q :: parts))
      with (p ++ Str.replace "." "_" sep
              ++ Str.join (Str.replace "." "_" sep) (q :: parts))%string.
    rewrite !replace_app, IH. rewrite replace_absent by exact Hp. reflexivity.
Qed.

Lemma dget_all_same (l : dict (value F)) K v :
  (forall k' v', In (k', v') l -> k' = K -> v' = v) ->
  (exists v', In (K, v') l) ->
  dget l K = Some v.
Proof.
  induction l as [|[a b] l IH]; intros Hall [v' Hin]; simpl in *; [tauto|].
  destruct (String.eqb_spec K a) as [->|N].
  - f_equal. apply (Hall a b); auto.
  - apply IH.
    + intros k' v0 I. apply Hall. auto.
    + destruct Hin as [E|I]; [congruence|eauto].
Qed.

Lemma dget_nodup_in (d : dict (value F)) k v :
  NoDup (Dict.keys d) -> In (k, v) d -> dget d k = Some v.
Proof.
  unfold Dict.keys.
  induction d as [|[a b] d IH]; simpl; intros ND I; [tauto|].
  inversion ND as [|? ? NI ND']; subst.
  destruct I as [E|I].
  - injection E as -> ->. now rewrite String.eqb_refl.
  - destruct (String.eqb_spec k a) as [->|N]; [|auto].
    exfalso. apply NI. apply in_map_iff. exists (a, v). auto.
Qed.

Lemma dget_in (d : dict (value F)) k v : dget d k = Some v -> In (k, v) d.
Proof.
  induction d as [|[a b] d IH]; simpl; [discriminate|].
  destruct (String.eqb_spec k a) as [->|N]; [|auto].
  intros E. injection E as ->. auto.
Qed.

Lemma format_keys_assignments (d acc : reading) :
  fold_left
    (fun formatted_data kv =>
       dset formatted_data (Str.replace "." "_" (fst kv)) (snd kv)) d acc =
  fold_left (fun acc kv => dset acc (fst kv) (snd kv))
    (map (fun kv => (canonical_key (fst kv), snd kv)) d) acc.
Proof.
  revert acc. induction d as [|kv d IH]; intros acc; simpl; [reflexivity|].
  apply IH.
Qed.

(** A field carried under one spelling is found under its canonical key. *)
Lemma format_keys_carries (d : reading) k v :
  carries d k v -> dget (format_keys d) (canonical_key k) = Some v.
Proof.
  intros (ND & G & U). unfold format_keys.
  rewrite format_keys_assignments, dget_assignments.
  match goal with
  | |- match dget ?l ?K with _ => _ end = _ =>
      assert (X : dget l K = Some v); [|now rewrite X]
  end.
  apply dget_all_same.
  - intros k' v' I E. apply In_rev, in_map_iff in I as ([a b] & E' & I).
    injection E' as <- <-. simpl in E.
    assert (a = k).
    { apply U; [|exact E]. apply in_map_iff. exists (a, b). auto. }
    subst a. apply dget_nodup_in in I; [congruence|exact ND].
  - exists v. apply In_rev. rewrite rev_involutive.
    apply in_map_iff. exists (k, v). split; [reflexivity|].
    now apply dget_in.
Qed.

Lemma zget_set_eq {V} (d : list (Z * V)) k v :
  Dict.get Z.eqb (Dict.set Z.eqb d k v) k = Some v.
Proof.
  induction d as [|[k' v'] d IH]; simpl.
  - now rewrite Z.eqb_refl.
  - destruct (Z.eqb k k') eqn:E; simpl; rewrite E; auto.
Qed.

Lemma zget_set_neq {V} (d : list (Z * V)) k k' v :
  k' <> k -> Dict.get Z.eqb (Dict.set Z.eqb d k v) k' = Dict.get Z.eqb d k'.
Proof.
  intros N. induction d as [|[k0 v0] d IH]; simpl.
  - destruct (Z.eqb_spec k' k); congruence.
  - destruct (Z.eqb_spec k k0); simpl.
    + subst k0. destruct (Z.eqb_spec k' k); congruence.
    + destruct (Z.eqb k' k0); auto.
Qed.

Lemma add_one_ups_same ts id (d : reading) (c : cache_state) :
  exists earlier,
    Dict.get Z.eqb (per_ups_data (add_one_ups ts id d c)) id =
    Some (earlier ++ [(ts, format_keys d)])%list.
Proof.
  unfold add_one_ups. cbn [per_ups_data set_per_ups].
  rewrite zget_set_eq. eauto.
Qed.

Lemma add_one_ups_other ts id id' (d : reading) (c : cache_state) :
  id' <> id ->
  Dict.get Z.eqb (per_ups_data (add_one_ups ts id d c)) id' =
  Dict.get Z.eqb (per_ups_data c) id'.
Proof.
  intros N. unfold add_one_ups. cbn [per_ups_data set_per_ups].
  rewrite zget_set_neq by assumption.
  destruct (Dict.mem Z.eqb (per_ups_data c) id); [reflexivity|].
  now apply zget_set_neq.
Qed.

Lemma add_all_ups_other ts (all : list (Z * reading)) id :
  ~ In id (Dict.keys all) ->
  forall c,
    Dict.get Z.eqb
      (per_ups_data
         (fold_left (fun c kv => add_one_ups ts (fst kv) (snd kv) c) all c)) id =
    Dict.get Z.eqb (per_ups_data c) id.
Proof.
  induction all as [|[a d] all IH]; intros NI c; simpl in *; [reflexivity|].
  rewrite IH by tauto. apply add_one_ups_other. intros ->. tauto.
Qed.

Lemma add_all_ups_same ts (all : list (Z * reading)) id d :
  NoDup (Dict.keys all) ->
  Dict.get Z.eqb all id = Some d ->
  forall c, exists earlier,
    Dict.get Z.eqb
      (per_ups_data
         (fold_left (fun c kv => add_one_ups ts (fst kv) (snd kv) c) all c)) id =
    Some (earlier ++ [(ts, format_keys d)])%list.
Proof.
  induction all as [|[a d'] all IH]; intros ND G c; simpl in *; [discriminate|].
  inversion ND as [|? ? NI ND']; subst.
  destruct (Z.eqb_spec id a) as [->|N].
  - injection G as ->.
    rewrite add_all_ups_other by assumption. apply add_one_ups_same.
  - now apply IH.
Qed.

Lemma set_last_broadcast_same (c : cache_state (F:=F)) :
  set_last_broadcast (last_broadcast c) c = c.
Proof. destruct c; reflexivity. Qed.

Lemma set_last_broadcast_multi_same (c : cache_state (F:=F)) :
  set_last_broadcast_multi (last_broadcast_aggregated c)
    (last_broadcast_per_ups c) c = c.
Proof. destruct c; reflexivity. Qed.

(** A broadcast touches the stored view, the clock position and the
    events sent, and nothing else; it never raises. *)
Lemma broadcast_cache_update_frame (d : reading) (w : world) :
  exists lb n e,
    broadcast_cache_update d w =
    (Ok tt,
     Build_world (set_last_broadcast lb (cache w)) (clock w) n (faults w)
       (calls w) (model_attrs w) (table w) (isoformat w) e).
Proof.
  unfold broadcast_cache_update. py_unfold.
  destruct (is_nil d).
  - exists (last_broadcast (cache w)), (ticks w), (emitted w).
    rewrite set_last_broadcast_same. destruct w; reflexivity.
  - cbn.
    match goal with
    | |- context [if ?b then _ else _] => destruct b
    end; cbn.
    + exists (last_broadcast (cache w)), (S (ticks w)), (emitted w).
      rewrite set_last_broadcast_same. reflexivity.
    + eexists _, _, _. reflexivity.
Qed.

Lemma broadcast_multi_ups_update_frame (a : reading) (per : list (Z * reading))
  (w : world) :
  exists la lp n e,
    broadcast_multi_ups_update a per w =
    (Ok tt,
     Build_world (set_last_broadcast_multi la lp (cache w)) (clock w) n
       (faults w) (calls w) (model_attrs w) (table w) (isoformat w) e).
Proof.
  unfold broadcast_multi_ups_update. py_unfold.
  destruct (is_nil a).
  - exists (last_broadcast_aggregated (cache w)), (last_broadcast_per_ups (cache w)),
      (ticks w), (emitted w).
    rewrite set_last_broadcast_multi_same. destruct w; reflexivity.
  - cbn.
    match goal with
    | |- context [if negb ?b then _ else _] => destruct b
    end; cbn.
    + eexists _, _, _, _. reflexivity.
    + exists (last_broadcast_aggregated (cache w)), (last_broadcast_per_ups (cache w)),
        (S (ticks w)), (emitted w).
      rewrite set_last_broadcast_multi_same. reflexivity.
Qed.

(** The first ingestion fixes the minute boundary; later ones leave it. *)
Lemma init_next_save_time_run ts (w : @world F) :
  init_next_save_time ts w =
  match next_save_time (cache w) with
  | None =>
      (Ok tt,
       Build_world
         (set_next_save_time
            (Some (floor_to MINUTE (clock w (ticks w)) + MINUTE)) (cache w))
         (clock w) (S (ticks w)) (faults w) (calls w) (model_attrs w)
         (table w) (isoformat w) (emitted w))
  | Some _ => (Ok tt, w)
  end.
Proof.
  unfold init_next_save_time, get_next_minute. py_unfold.
  destruct (next_save_time (cache w)); reflexivity.
Qed.

Lemma add_buffer ts (d : reading) (w : world) :
  data (cache (snd (add ts d w))) = (data (cache w) ++ [(ts, format_keys d)])%list.
Proof.
  unfold add. unfold bind at 1. rewrite init_next_save_time_run.
  destruct (next_save_time (cache w)); py_unfold; cbn;
    match goal with
    | |- context [broadcast_cache_update ?x ?y] =>
        destruct (broadcast_cache_update_frame x y) as (lb & n & e & ->)
    end; reflexivity.
Qed.

Lemma add_multi_ups_buffers ts (all : list (Z * reading)) (w : world) :
  exists c,
    per_ups_data (cache (snd (add_multi_ups ts all w))) =
    per_ups_data
      (fold_left (fun c kv => add_one_ups ts (fst kv) (snd kv) c) all c).
Proof.
  unfold add_multi_ups. unfold bind at 1. rewrite init_next_save_time_run.
  destruct (next_save_time (cache w)); py_unfold; cbn;
    (destruct (Aggregator.aggregate_ups_data all); cbn;
     [ match goal with
       | |- context [broadcast_multi_ups_update ?x ?y ?z] =>
           destruct (broadcast_multi_ups_update_frame x y z)
             as (la & lp & n & e & ->)
       end; cbn; eexists; reflexivity
     | eexists; reflexivity ]).
Qed.

(** C9: the dot spelling and the underscore spelling of a field name have
    the same canonical key, the underscore spelling; a reading that
    carries the field under either spelling is buffered with the value
    unchanged under that canonical key, by [add] and by [add_multi_ups]
    alike. *)
Theorem key_normalisation (parts : list string) (v : value F) :
  Forall no_dot parts ->
  let dotted := Str.join "." parts in
  let canonical := Str.join "_" parts in
  canonical_key dotted = canonical /\
  canonical_key canonical = canonical /\
  forall spelling (d : reading) (ts : Z) (w : world),
    spelling = dotted \/ spelling = canonical ->
    carries d spelling v ->
    dget (format_keys d) canonical = Some v /\
    (exists earlier,
       data (cache (snd (add ts d w))) = (earlier ++ [(ts, format_keys d)])%list) /\
    (forall ups_id all_ups_data,
       NoDup (Dict.keys all_ups_data) ->
       Dict.get Z.eqb all_ups_data ups_id = Some d ->
       exists earlier,
         Dict.get Z.eqb
           (per_ups_data (cache (snd (add_multi_ups ts all_ups_data w)))) ups_id =
         Some (earlier ++ [(ts, format_keys d)])%list).
Proof.
  intros ND dotted canonical.
  assert (E1 : canonical_key dotted = canonical)
    by (apply (replace_join "." ND)).
  assert (E2 : canonical_key canonical = canonical)
    by (apply (replace_join "_" ND)).
  split; [exact E1|]. split; [exact E2|].
  intros spelling d ts w S C. split; [|split].
  - replace canonical with (canonical_key spelling)
      by (destruct S; subst spelling; assumption).
    now apply format_keys_carries.
  - exists (data (cache w)). apply add_buffer.
  - intros ups_id all NDall G.
    destruct (add_multi_ups_buffers ts all w) as [c ->].
    now apply add_all_ups_same.
Qed.

End IngestionFacts.

(** ** Numeric reduction *)

Section ReductionFacts.
Context {F : Type} {FO : FloatOps F}.
Import Cache Spec.

Abbreviation reading := (dict (value F)).

Lemma existsb_eqb_in (c : string) (l : list string) :
  existsb (String.eqb c) l = true <-> In c l.
Proof.
  rewrite existsb_exists. split.
  - intros (x & I & E). apply String.eqb_eq in E. now subst.
  - intros I. exists c. split; [assumption|apply String.eqb_refl].
Qed.

Lemma dget_tabulate {V} (f : string -> V) (l : list string) (c : string) :
  dget (map (fun col => (col, f col)) l) c =
  if existsb (String.eqb c) l then Some (f c) else None.
Proof.
  induction l as [|a l IH]; simpl; [reflexivity|].
  destruct (String.eqb_spec c a) as [->|N]; simpl; [reflexivity|exact IH].
Qed.

Lemma dget_tabulate_in {V} (f : string -> V) (l : list string) (c : string) :
  In c l -> dget (map (fun col => (col, f col)) l) c = Some (f c).
Proof.
  intros I. rewrite dget_tabulate.
  apply existsb_eqb_in in I. now rewrite I.
Qed.

Lemma dget_tabulate_out {V} (f : string -> V) (l : list string) (c : string) :
  ~ In c l -> dget (map (fun col => (col, f col)) l) c = None.
Proof.
  intros NI. rewrite dget_tabulate.
  destruct (existsb (String.eqb c) l) eqn:E; [|reflexivity].
  apply existsb_eqb_in in E. contradiction.
Qed.

(** A numeric column is averaged. *)
Lemma reduction_numeric (rows : dataframe) (col : string) :
  In col (columns_of rows) ->
  numeric_column (cells rows col) = true ->
  dget (dupdate (averages_of rows) (last_values_of rows)) col =
  Some (VFloat (np_round (mean (numbers (cells rows col))) 2)).
Proof.
  intros I N. rewrite dget_update.
  unfold last_values_of, averages_of. rewrite <- map_rev.
  rewrite dget_tabulate_out.
  - apply dget_tabulate_in with
      (f := fun col => VFloat (np_round (mean (numbers (cells rows col))) 2)).
    unfold numeric_cols. apply filter_In. auto.
  - rewrite <- in_rev. unfold non_numeric_cols.
    rewrite !filter_In. intros (( _ & H) & _). rewrite N in H. discriminate.
Qed.

(** Any other column, the row timestamp apart, gives the cell of the last
    row. *)
Lemma reduction_last (rows : dataframe) (col : string) :
  In col (columns_of rows) ->
  numeric_column (cells rows col) = false ->
  col <> "timestamp" ->
  dget (dupdate (averages_of rows) (last_values_of rows)) col =
  Some (last_value rows col).
Proof.
  intros I N T. rewrite dget_update.
  unfold last_values_of. rewrite <- map_rev.
  rewrite dget_tabulate_in with (f := fun col => last_value rows col);
    [reflexivity|].
  rewrite <- in_rev. unfold non_numeric_cols. rewrite !filter_In, N.
  repeat split; auto.
  destruct (String.eqb_spec col "timestamp"); [contradiction|reflexivity].
Qed.

(** Rows without the field add nothing to the numbers averaged. *)
Lemma numbers_skip_missing (rows : dataframe) (col : string) :
  numbers (cells rows col) =
  numbers (cells (filter (fun row => dmem row col) rows) col).
Proof.
  unfold numbers, cells, Dict.mem.
  induction rows as [|r rows IH]; simpl; [reflexivity|].
  destruct (dget r col) as [v|] eqn:E; simpl.
  - rewrite E, IH. reflexivity.
  - exact IH.
Qed.

Lemma calculate_averages_run (w : @world F) :
  calculate_averages w =
  match df (cache w) with
  | None => (Ok None, w)
  | Some rows =>
      if is_nil rows then (Ok None, w)
      else
        if faults w (calls w) then (Ok None, called w)
        else (Ok (Some (dupdate (averages_of rows) (last_values_of rows))),
              called w)
  end.
Proof.
  unfold calculate_averages, bind, get_cache, try_except, library_call, ret.
  destruct (df (cache w)) as [rows|]; [|reflexivity].
  destruct (is_nil rows); [reflexivity|].
  destruct (faults w (calls w)); reflexivity.
Qed.

End ReductionFacts.

(** ** Rollup scheduling *)

Section SchedulerFacts.
Context {F : Type} {FO : FloatOps F}.
Import Cache Spec.

Abbreviation reading := (dict (value F)).

Ltac py_unfold :=
  unfold bind, ret, try_except, raise, lift, get_cache, modify, now,
    library_call, ask, emit in *.

Lemma later_refl (w : @world F) : later w w.
Proof. unfold later. repeat split; auto. Qed.

Lemma later_trans (w1 w2 w3 : @world F) : later w1 w2 -> later w2 w3 -> later w1 w3.
Proof.
  unfold later. intros (A1 & A2 & A3 & A4 & A5 & A6) (B1 & B2 & B3 & B4 & B5 & B6).
  repeat split; try congruence; lia.
Qed.

Lemma is_save_time_run t (w : @world F) :
  is_save_time t w =
  match next_save_time (cache w) with
  | None => (Ok false, w)
  | Some save_time => (Ok (save_time <=? clock w (ticks w)), tick w)
  end.
Proof.
  unfold is_save_time. py_unfold.
  destruct (next_save_time (cache w)); reflexivity.
Qed.

Lemma hourly_step_run u stamp (av row : reading) (w : @world F) :
  hourly_step u stamp av row w =
  match dget av "ups_realpower" with
  | None => (Ok row, w)
  | Some p =>
      let w1 := with_cache (append_hourly stamp p) w in
      match next_hour (cache w) with
      | None => (Raise TypeError, w1)
      | Some hour =>
          if hour <=? u then
            if faults w (calls w) then (Raise LibraryError, called w1)
            else
              match attach_hourly_average
                      (hour_powers (filter (in_range (hour - HOUR) hour) (table w)))
                      row with
              | Ok row' =>
                  (Ok row',
                   with_cache
                     (fun c =>
                        set_next_hour
                          (Some (floor_to HOUR (clock w (ticks w)) + HOUR))
                          (set_hourly_data [] c))
                     (tick (called w1)))
              | Raise e => (Raise e, called w1)
              end
          else (Ok row, w1)
      end
  end.
Proof.
  unfold hourly_step, query_between, get_next_hour. py_unfold.
  destruct (dget av "ups_realpower"); [|reflexivity]. simpl.
  destruct (next_hour (cache w)) as [hour|]; [|reflexivity].
  destruct (hour <=? u); [|reflexivity]. simpl.
  destruct (faults w (calls w)); [reflexivity|]. simpl.
  destruct (attach_hourly_average _ row); reflexivity.
Qed.

(** After the commit the flush cannot fail: the buffer is emptied and the
    minute boundary is taken from the clock. *)
Lemma finish_save_run t (w : @world F) :
  exists w',
    finish_save t w = (Ok true, w') /\
    data (cache w') = [] /\
    df (cache w') = None /\
    next_save_time (cache w') =
      Some (floor_to MINUTE (clock w (ticks w)) + MINUTE) /\
    next_hour (cache w') = next_hour (cache w) /\
    hourly_data (cache w') = hourly_data (cache w) /\
    later w w' /\
    (ticks w < ticks w')%nat /\
    exists extra, table w' = (table w ++ extra)%list.
Proof.
  unfold finish_save, get_next_minute, should_aggregate_daily,
    aggregate_daily_data, query_between, session_add_commit, later.
  py_unfold. cbn.
  destruct (last_daily_aggregation (cache w)) as [due|]; cbn.
  2: { eexists. split; [reflexivity|]. cbn.
       repeat split; auto. exists []. now rewrite app_nil_r. }
  destruct (due <=? clock w (S (ticks w))); cbn.
  2: { eexists. split; [reflexivity|]. cbn.
       repeat split; auto. exists []. now rewrite app_nil_r. }
  destruct (faults w (calls w)); cbn.
  { eexists. split; [reflexivity|]. cbn.
    repeat split; auto. exists []. now rewrite app_nil_r. }
  destruct (avg_hrs _) as [daily|]; cbn.
  2: { eexists. split; [reflexivity|]. cbn.
       repeat split; auto. exists []. now rewrite app_nil_r. }
  destruct (negb (feqb daily (of_Z 0))); cbn.
  2: { eexists. split; [reflexivity|]. cbn.
       repeat split; auto. exists []. now rewrite app_nil_r. }
  destruct (faults w (S (calls w))); cbn.
  - eexists. split; [reflexivity|]. cbn.
    repeat split; auto. exists []. now rewrite app_nil_r.
  - eexists. split; [reflexivity|]. cbn.
    repeat split; auto. eexists. reflexivity.
Qed.


Ltac frame_facts :=
  unfold later, kept_or_reset, same_buffer in *; simpl in *;
  repeat match goal with
         | H : _ /\ _ |- _ => destruct H
         end;
  repeat match goal with
         | |- _ /\ _ => split
         end;
  auto; try lia; try congruence; try (intros; congruence).

(** The commit either fails, leaving the state as it is, or the flush
    completes. *)
Lemma commit_finish_cases u (row : reading) (w : @world F) :
  exists r w',
    bind (session_add_commit row) (fun _ => finish_save u) w = (r, w') /\
    ((r = Raise LibraryError /\ w' = called w) \/
     (r = Ok true /\
      later w w' /\
      data (cache w') = [] /\
      df (cache w') = None /\
      next_save_time (cache w') =
        Some (floor_to MINUTE (clock w (ticks w)) + MINUTE) /\
      next_hour (cache w') = next_hour (cache w) /\
      hourly_data (cache w') = hourly_data (cache w) /\
      (ticks w < ticks w')%nat /\
      exists extra, table w' = (table w ++ row :: extra)%list)).
Proof.
  unfold session_add_commit. py_unfold.
  destruct (faults w (calls w)); simpl.
  - eexists _, _. split; [reflexivity|]. left. auto.
  - destruct (finish_save_run u (stored row (called w)))
      as (w' & E & D & DF & NS & NH & HD & L & T & extra & TB).
    rewrite E. eexists _, _. split; [reflexivity|]. right.
    simpl in *. frame_facts.
    exists extra. rewrite TB, <- app_assoc. reflexivity.
Qed.

Ltac commit_leaf u :=
  match goal with
  | |- context [bind (session_add_commit ?r) _ ?w0] =>
      destruct (commit_finish_cases u r w0)
        as (r' & w' & -> &
            [(-> & ->)|(-> & L & D & DF & NS & NH' & HD & T & extra & TB)])
  end;
  (eexists _, _; split; [reflexivity|]).

Lemma persist_cases u stamp (av : reading) (w : @world F) :
  exists r w',
    persist u stamp av w = (r, w') /\
    later w w' /\
    kept_or_reset HOUR w w' next_hour /\
    (r <> Ok true -> same_buffer w w' /\ table w' = table w) /\
    (r = Ok true ->
       exists i,
         (ticks w <= i < ticks w')%nat /\
         next_save_time (cache w') =
           Some (floor_to MINUTE (clock w i) + MINUTE) /\
         data (cache w') = [] /\ df (cache w') = None /\
         exists row extra, table w' = (table w ++ row :: extra)%list).
Proof.
  unfold persist. unfold bind at 1 2. unfold ask.
  rewrite hourly_step_run.
  destruct (dget av "ups_realpower") as [p|]; simpl.
  - destruct (next_hour (cache w)) as [hour|] eqn:NH; simpl.
    + destruct (hour <=? u); simpl.
      * destruct (faults w (calls w)); simpl.
        -- eexists _, _. split; [reflexivity|]. frame_facts.
        -- destruct (attach_hourly_average _ _) as [row|e]; simpl.
           ++ commit_leaf u.
              ** frame_facts.
                 right. exists (ticks w). split; [lia|reflexivity].
              ** frame_facts.
                 --- right. exists (ticks w). split; [lia|]. congruence.
                 --- intros _. exists (S (ticks w)). repeat split; auto; try lia.
                     eauto.
           ++ eexists _, _. split; [reflexivity|]. frame_facts.
      * commit_leaf u.
        -- frame_facts.
        -- frame_facts.
           intros _. exists (ticks w). repeat split; auto; try lia. eauto.
    + eexists _, _. split; [reflexivity|]. frame_facts.
  - commit_leaf u.
    + frame_facts.
    + frame_facts.
      intros _. exists (ticks w). repeat split; auto; try lia. eauto.
Qed.


Ltac stop_leaf :=
  eexists _, _; split; [reflexivity|]; frame_facts.

Lemma save_body_cases t (w : @world F) :
  exists r w',
    save_body t w = (r, w') /\
    later w w' /\
    kept_or_reset HOUR w w' next_hour /\
    (r <> Ok true -> same_buffer w w' /\ table w' = table w) /\
    (r = Ok true ->
       exists stamp i j,
         next_save_time (cache w) = Some stamp /\
         (ticks w <= j <= i)%nat /\ (i < ticks w')%nat /\
         stamp <= clock w j /\
         faults w (calls w) = false /\
         (exists rows, df (cache w) = Some rows /\ is_nil rows = false) /\
         next_save_time (cache w') =
           Some (floor_to MINUTE (clock w i) + MINUTE) /\
         data (cache w') = [] /\ df (cache w') = None /\
         exists row extra, table w' = (table w ++ row :: extra)%list).
Proof.
  unfold save_body, get_next_hour. py_unfold. simpl.
  destruct (next_hour (cache w)) as [hour|] eqn:NH; simpl.
  - rewrite is_save_time_run. simpl.
    destruct (next_save_time (cache w)) as [stamp|] eqn:NS; simpl;
      [|stop_leaf].
    destruct (stamp <=? clock w (S (ticks w))) eqn:DUE; simpl; [|stop_leaf].
    rewrite calculate_averages_run. simpl.
    destruct (df (cache w)) as [rows|] eqn:DF; simpl; [|stop_leaf].
    destruct (is_nil rows) eqn:NE; simpl; [stop_leaf|].
    destruct (faults w (calls w)); simpl; [stop_leaf|].
    destruct (is_nil (dupdate _ _)); simpl; [stop_leaf|].
    rewrite NS.
    match goal with
    | |- context [persist ?u ?s ?a ?w0] =>
        destruct (persist_cases u s a w0) as (r & w' & E & L & K & FAIL & SUCC)
    end.
    exists r, w'. split; [exact E|]. simpl in *.
    split; [frame_facts|]. split; [|split].
    + unfold kept_or_reset in *. simpl in *.
      destruct K as [K|(i & Hi & K)]; [left; congruence|].
      right. exists i. split; [lia|exact K].
    + intros N. destruct (FAIL N) as ((A & B & C) & TB). frame_facts.
    + intros R. destruct (SUCC R) as (i & Hi & NS' & D & DF' & row & extra & TB).
      exists stamp, i, (S (ticks w)). repeat split; auto; try lia; eauto.
  - rewrite is_save_time_run. simpl.
    assert (KR : forall v : option Z,
               v = Some (floor_to HOUR (clock w (S (ticks w))) + HOUR) ->
               forall n, (S (ticks w) < n)%nat ->
               v = None \/
               exists i, (ticks w <= i < n)%nat /\
                         v = Some (floor_to HOUR (clock w i) + HOUR)).
    { intros v -> n Hn. right. exists (S (ticks w)). split; [lia|reflexivity]. }
    destruct (next_save_time (cache w)) as [stamp|] eqn:NS; simpl.
    2: { stop_leaf. rewrite NH. apply KR; [reflexivity|lia]. }
    destruct (stamp <=? clock w (S (S (ticks w)))) eqn:DUE; simpl.
    2: { stop_leaf. rewrite NH. apply KR; [reflexivity|lia]. }
    rewrite calculate_averages_run. simpl.
    destruct (df (cache w)) as [rows|] eqn:DF; simpl.
    2: { stop_leaf. rewrite NH. apply KR; [reflexivity|lia]. }
    destruct (is_nil rows) eqn:NE; simpl.
    { stop_leaf. rewrite NH. apply KR; [reflexivity|lia]. }
    destruct (faults w (calls w)); simpl.
    { stop_leaf. rewrite NH. apply KR; [reflexivity|lia]. }
    destruct (is_nil (dupdate _ _)); simpl.
    { stop_leaf. rewrite NH. apply KR; [reflexivity|lia]. }
    rewrite NS.
    match goal with
    | |- context [persist ?u ?s ?a ?w0] =>
        destruct (persist_cases u s a w0) as (r & w' & E & L & K & FAIL & SUCC)
    end.
    exists r, w'. split; [exact E|]. simpl in *.
    split; [frame_facts|]. split; [|split].
    + unfold later, kept_or_reset in *. simpl in *. rewrite NH.
      destruct K as [K|(i & Hi & K)].
      * rewrite K. apply KR; [reflexivity|lia].
      * right. exists i. split; [lia|exact K].
    + intros N. destruct (FAIL N) as ((A & B & C) & TB). frame_facts.
    + intros R. destruct (SUCC R) as (i & Hi & NS' & D & DF' & row & extra & TB).
      exists stamp, i, (S (S (ticks w))). repeat split; auto; try lia; eauto.
Qed.


(** Every flush returns; it returns [False] when its body raises, and
    then, as whenever it returns [False], the buffer, the minute boundary
    and the stored rows are as before. *)
Lemma flush_cases t (w : @world F) :
  exists b w',
    calculate_and_save_averages t w = (Ok b, w') /\
    later w w' /\
    kept_or_reset HOUR w w' next_hour /\
    (forall e w1, save_body t w = (Raise e, w1) -> b = false /\ w' = w1) /\
    (b = false -> same_buffer w w' /\ table w' = table w) /\
    (b = true ->
       exists stamp i j,
         next_save_time (cache w) = Some stamp /\
         (ticks w <= j <= i)%nat /\ (i < ticks w')%nat /\
         stamp <= clock w j /\
         faults w (calls w) = false /\
         (exists rows, df (cache w) = Some rows /\ is_nil rows = false) /\
         next_save_time (cache w') =
           Some (floor_to MINUTE (clock w i) + MINUTE) /\
         data (cache w') = [] /\ df (cache w') = None /\
         exists row extra, table w' = (table w ++ row :: extra)%list).
Proof.
  destruct (save_body_cases t w) as (r & w' & E & L & K & FAIL & SUCC).
  unfold calculate_and_save_averages, try_except, ret. rewrite E.
  destruct r as [b|e].
  - exists b, w'. split; [reflexivity|]. split; [exact L|]. split; [exact K|].
    split; [intros e w1 X; discriminate|].
    split.
    + intros ->. apply FAIL. discriminate.
    + intros ->. now apply SUCC.
  - exists false, w'. split; [reflexivity|]. split; [exact L|]. split; [exact K|].
    split; [intros e' w1 X; injection X as _ <-; auto|].
    split.
    + intros _. apply FAIL. discriminate.
    + discriminate.
Qed.


Lemma monotone_le (clock : nat -> Z) (n m : nat) :
  monotone clock -> (n <= m)%nat -> clock n <= clock m.
Proof.
  intros M. induction 1 as [|m _ IH]; [lia|].
  specialize (M m). lia.
Qed.

Lemma MINUTE_pos : 0 < MINUTE.
Proof. reflexivity. Qed.

Lemma HOUR_pos : 0 < HOUR.
Proof. reflexivity. Qed.

Lemma floor_to_next (unit t : Z) : 0 < unit -> t < floor_to unit t + unit.
Proof.
  intros U. unfold floor_to. pose proof (Z.mod_pos_bound t unit U). lia.
Qed.

Lemma floor_to_aligned (unit t : Z) :
  0 < unit -> (floor_to unit t + unit) mod unit = 0.
Proof.
  intros U. unfold floor_to.
  rewrite (Z.div_mod t unit) at 1 by lia.
  replace (unit * (t / unit) + t mod unit - t mod unit + unit)
    with ((t / unit + 1) * unit) by lia.
  apply Z.mod_mul. lia.
Qed.

Lemma floor_to_within (unit b t : Z) :
  0 < unit -> b mod unit = 0 -> b <= t < b + unit -> floor_to unit t = b.
Proof.
  intros U A R. unfold floor_to.
  assert (E : t mod unit = t - b).
  { symmetry. apply Z.mod_unique with (q := b / unit); [lia|].
    pose proof (Z.div_mod b unit ltac:(lia)). lia. }
  lia.
Qed.

(** A flush that is not due does nothing to the buffer, the boundary and
    the stored rows. *)
Lemma flush_not_due t (w : @world F) (stamp : Z) :
  next_save_time (cache w) = Some stamp ->
  (forall n, (ticks w <= n)%nat -> clock w n < stamp) ->
  exists w',
    calculate_and_save_averages t w = (Ok false, w') /\
    same_buffer w w' /\ table w' = table w.
Proof.
  intros NS EARLY.
  destruct (flush_cases t w) as (b & w' & E & _ & _ & _ & FAIL & SUCC).
  destruct b.
  - destruct (SUCC eq_refl) as (s & i & j & NS' & Hj & _ & LE & _).
    rewrite NS in NS'. injection NS' as <-.
    specialize (EARLY j ltac:(lia)). lia.
  - exists w'. split; [exact E|]. now apply FAIL.
Qed.

(** C2, as the code has it: a flush never propagates an error.  When its
    body raises (the hourly query, the sum of the hour or the commit fails)
    or the reduction fails, it returns [False]; and whenever it returns
    [False] the sample buffer, its data frame, the minute boundary and the
    stored rows are exactly as before the flush. *)
Theorem failed_flush_keeps_buffer t (w : @world F) :
  exists b w',
    calculate_and_save_averages t w = (Ok b, w') /\
    (forall e w1, save_body t w = (Raise e, w1) -> b = false) /\
    (faults w (calls w) = true -> b = false) /\
    (b = false -> same_buffer w w' /\ table w' = table w).
Proof.
  destruct (flush_cases t w) as (b & w' & E & _ & _ & RAISED & FAIL & SUCC).
  exists b, w'. split; [exact E|]. split; [|split].
  - intros e w1 X. now apply (RAISED e w1).
  - intros FA. destruct b; [|reflexivity].
    destruct (SUCC eq_refl) as (s & i & j & _ & _ & _ & _ & FA' & _).
    congruence.
  - exact FAIL.
Qed.


Ltac add_run :=
  unfold add, add_multi_ups; unfold bind at 1; rewrite init_next_save_time_run;
  destruct (next_save_time (cache _)); py_unfold; cbn.

Ltac broadcast_run :=
  match goal with
  | |- context [broadcast_cache_update ?x ?y] =>
      destruct (broadcast_cache_update_frame x y) as (lb & n & e & ->)
  | |- context [broadcast_multi_ups_update ?x ?y ?z] =>
      destruct (broadcast_multi_ups_update_frame x y z)
        as (la & lp & n & e & ->)
  end.

Lemma add_clock ts (d : reading) (w : @world F) :
  clock (snd (add ts d w)) = clock w.
Proof. add_run; broadcast_run; reflexivity. Qed.

Lemma add_next_hour ts (d : reading) (w : @world F) :
  next_hour (cache (snd (add ts d w))) = next_hour (cache w).
Proof. add_run; broadcast_run; reflexivity. Qed.

Lemma add_all_ups_next_hour ts (all : list (Z * reading)) (c : cache_state) :
  next_hour (fold_left (fun c kv => add_one_ups ts (fst kv) (snd kv) c) all c) =
  next_hour c.
Proof.
  revert c. induction all as [|kv all IH]; intros c; simpl; [reflexivity|].
  rewrite IH. reflexivity.
Qed.

Lemma add_multi_ups_clock ts (all : list (Z * reading)) (w : @world F) :
  clock (snd (add_multi_ups ts all w)) = clock w.
Proof.
  add_run; (destruct (Aggregator.aggregate_ups_data all); cbn;
            [broadcast_run|]; reflexivity).
Qed.

Lemma add_multi_ups_next_hour ts (all : list (Z * reading)) (w : @world F) :
  next_hour (cache (snd (add_multi_ups ts all w))) = next_hour (cache w).
Proof.
  add_run; (destruct (Aggregator.aggregate_ups_data all); cbn;
            [broadcast_run; cbn|]; rewrite add_all_ups_next_hour; reflexivity).
Qed.

(** In every state of a run the clock is monotone and the hour boundary,
    once set, is a whole hour. *)
Lemma reachable_invariant (w : @world F) :
  reachable w -> monotone (clock w) /\ aligned HOUR (next_hour (cache w)).
Proof.
  induction 1 as [w size C M | w w' R [IHm IHa] S].
  - split; [exact M|]. rewrite C. intros t X. discriminate.
  - destruct S as [ts d w | ts all w | t w].
    + rewrite add_clock, add_next_hour. auto.
    + rewrite add_multi_ups_clock, add_multi_ups_next_hour. auto.
    + destruct (flush_cases t w) as (b & w' & E & L & K & _).
      rewrite E. simpl. destruct L as (-> & _). split; [exact IHm|].
      destruct K as [->|(i & _ & ->)]; [exact IHa|].
      intros x X. injection X as <-. apply floor_to_aligned, HOUR_pos.
Qed.

(** C7: in every reachable state, a successful save moves the minute
    boundary to the next whole minute after a reading of the clock made
    during the save, which is past that reading and strictly past the old
    boundary; a second check at that same instant saves nothing. *)
Theorem minute_boundary_strictly_advances t (w w' : @world F) :
  reachable w ->
  calculate_and_save_averages t w = (Ok true, w') ->
  exists stamp i,
    next_save_time (cache w) = Some stamp /\
    (ticks w <= i < ticks w')%nat /\
    next_save_time (cache w') = Some (floor_to MINUTE (clock w i) + MINUTE) /\
    clock w i < floor_to MINUTE (clock w i) + MINUTE /\
    stamp < floor_to MINUTE (clock w i) + MINUTE /\
    forall t2,
      (forall n, (ticks w' <= n)%nat -> clock w n = clock w i) ->
      exists w'',
        calculate_and_save_averages t2 w' = (Ok false, w'') /\
        table w'' = table w' /\
        next_save_time (cache w'') = next_save_time (cache w').
Proof.
  intros R E.
  destruct (reachable_invariant R) as [M _].
  destruct (flush_cases t w) as (b & w0 & E' & L & _ & _ & _ & SUCC).
  rewrite E in E'. injection E' as <- <-.
  destruct (SUCC eq_refl) as (stamp & i & j & NS & Hj & Hi & LE & _ & _ & NS' & _).
  pose proof (floor_to_next (clock w i) MINUTE_pos) as NEXT.
  pose proof (monotone_le M (proj2 Hj)) as MJ.
  exists stamp, i. repeat split; auto; try lia.
  intros t2 FROZEN.
  destruct L as (CL & _).
  destruct (@flush_not_due t2 w' (floor_to MINUTE (clock w i) + MINUTE) NS')
    as (w'' & E2 & (_ & _ & NS2) & TB).
  - intros n Hn. rewrite CL, FROZEN by assumption. exact NEXT.
  - exists w''. auto.
Qed.


Lemma dmem_nonempty (d : reading) k : dmem d k = true -> is_nil d = false.
Proof. destruct d; [discriminate|reflexivity]. Qed.

(** The sum of the real powers of summable rows is the sum of their
    numbers, and there are as many. *)
Lemma py_sum_numbers (rows : list reading) :
  summable rows ->
  forall acc,
    py_sum (hour_powers rows) acc =
      Ok (fold_left fadd (field_numbers "ups_realpower" rows) acc) /\
    List.length (hour_powers rows) =
      List.length (field_numbers "ups_realpower" rows).
Proof.
  unfold hour_powers, field_numbers, get_or_none.
  induction 1 as [|row rows H _ IH]; intros acc; [split; reflexivity|].
  cbn [map filter flat_map]. unfold get_or_none in H.
  destruct (dget row "ups_realpower") as [[| | | | | |]|]; try contradiction;
    cbn [is_none negb py_sum py_float app List.length];
    try apply IH;
    (destruct (IH (fadd acc (of_Z (if b then 1 else 0)))) as [-> ->]
     || destruct (IH (fadd acc (of_Z z))) as [-> ->]
     || destruct (IH (fadd acc x)) as [-> ->]);
    split; reflexivity.
Qed.

(** What a flush does when its hour rollup fires, whether or not the
    commit that follows succeeds: the hour state it leaves, and the row it
    stores when it returns [True]. *)
Lemma hour_rollup_run t (w : @world F) (boundary : Z) :
  hour_rollup_fires w boundary ->
  exists b w' stamp rows row,
    calculate_and_save_averages t w = (Ok b, w') /\
    next_hour (cache w') =
      Some (floor_to HOUR (clock w (S (S (ticks w)))) + HOUR) /\
    hourly_data (cache w') = [] /\
    next_save_time (cache w) = Some stamp /\
    df (cache w) = Some rows /\
    attach_hourly_average
      (hour_powers (stored_between (boundary - HOUR) boundary (table w)))
      (new_record (model_attrs w) stamp
         (dupdate (averages_of rows) (last_values_of rows))) = Ok row /\
    (b = true -> exists extra, table w' = (table w ++ row :: extra)%list).
Proof.
  intros (NH & REACHED & (stamp & NS & DUE) & (rows & DF & NE & FA & RP)
          & FQ & SUMM).
  unfold calculate_and_save_averages, save_body, get_next_hour.
  py_unfold. simpl. rewrite NH. simpl.
  rewrite is_save_time_run. simpl. rewrite NS. simpl.
  apply Z.leb_le in DUE. rewrite DUE. simpl.
  rewrite calculate_averages_run. simpl.
  rewrite DF, NE, FA. simpl. rewrite (dmem_nonempty _ _ RP). simpl.
  rewrite NS.
  unfold persist. unfold Cache.bind at 1 2. unfold Cache.ask.
  rewrite hourly_step_run.
  unfold Dict.mem in RP.
  destruct (dget _ "ups_realpower") as [p|]; [|discriminate]. simpl.
  rewrite NH. apply Z.leb_le in REACHED. rewrite REACHED. simpl. rewrite FQ.
  change (filter (in_range (boundary - HOUR) boundary) (table w))
    with (stored_between (boundary - HOUR) boundary (table w)).
  assert (A : exists row,
             attach_hourly_average
               (hour_powers
                  (stored_between (boundary - HOUR) boundary (table w)))
               (new_record (model_attrs w) stamp
                  (dupdate (averages_of rows) (last_values_of rows))) = Ok row).
  { unfold attach_hourly_average. destruct (is_nil (hour_powers _)); [eauto|].
    rewrite (proj1 (py_sum_numbers SUMM (of_Z 0))). simpl. eauto. }
  destruct A as [row A]. rewrite A.
  match goal with
  | |- context [bind (session_add_commit ?r) _ ?w0] =>
      destruct (commit_finish_cases (clock w (ticks w)) r w0)
        as (r' & w' & -> &
            [(-> & ->)|(-> & L & D & DF' & NS' & NH' & HD & T & extra & TB)])
  end; simpl.
  - exists false. eexists _, stamp, rows, row. split; [reflexivity|].
    repeat split; auto. discriminate.
  - exists true. eexists _, stamp, rows, row. split; [reflexivity|].
    rewrite NH', HD. repeat split; auto.
    intros _. exists extra. exact TB.
Qed.

(** *** The data frame and the buffer *)

Lemma dset_keys {V} (d : dict V) k v :
  Dict.keys (dset d k v) =
  if dmem d k then Dict.keys d else (Dict.keys d ++ [k])%list.
Proof.
  unfold Dict.keys, Dict.mem.
  induction d as [|[a b] d IH]; simpl; [reflexivity|].
  destruct (String.eqb_spec k a) as [->|N]; simpl; [reflexivity|].
  rewrite IH. destruct (dget d k); reflexivity.
Qed.

Lemma dset_nodup {V} (d : dict V) k v :
  NoDup (Dict.keys d) -> NoDup (Dict.keys (dset d k v)).
Proof.
  intros ND. rewrite dset_keys. unfold Dict.mem.
  destruct (dget d k) eqn:E; [exact ND|].
  apply NoDup_app; [exact ND|repeat constructor; auto|].
  intros x I [X|[]]. subst x. unfold Dict.keys in I.
  apply dget_in_some in I. destruct I as [v' E']. congruence.
Qed.

Lemma format_keys_nodup (d : reading) : NoDup (Dict.keys (format_keys d)).
Proof.
  unfold format_keys.
  assert (G : forall acc : reading,
             NoDup (Dict.keys acc) ->
             NoDup (Dict.keys
                      (fold_left
                         (fun formatted_data kv =>
                            dset formatted_data (Str.replace "." "_" (fst kv))
                              (snd kv)) d acc))).
  { induction d as [|kv d IH]; intros acc ND; simpl; [exact ND|].
    apply IH. now apply dset_nodup. }
  apply G. constructor.
Qed.

Lemma with_timestamp_field ts (d : reading) col :
  NoDup (Dict.keys d) -> col <> "timestamp" ->
  dget (with_timestamp ts d) col = dget d col.
Proof.
  intros ND T. unfold with_timestamp. rewrite dget_update, dget_rev_nodup by exact ND.
  destruct (dget d col); [reflexivity|]. simpl.
  destruct (String.eqb_spec col "timestamp"); [contradiction|reflexivity].
Qed.

Lemma cells_field_values (b : @buffer F) col :
  Forall (fun e => NoDup (Dict.keys (snd e))) b -> col <> "timestamp" ->
  cells (rows_of b) col = field_values b col.
Proof.
  intros ND T. unfold cells, rows_of, field_values. rewrite map_map.
  induction ND as [|e b He _ IH]; simpl; [reflexivity|].
  rewrite IH, with_timestamp_field by assumption. reflexivity.
Qed.

Lemma add_column_in cols k c :
  In c (add_column cols k) <-> In c cols \/ c = k.
Proof.
  unfold add_column. destruct (existsb (String.eqb k) cols) eqn:E.
  - apply existsb_eqb_in in E. split; [auto|]. intros [I| ->]; auto.
  - rewrite in_app_iff. simpl. intuition.
Qed.

Lemma add_columns_in keys cols c :
  In c (fold_left add_column keys cols) <-> In c cols \/ In c keys.
Proof.
  revert cols. induction keys as [|k keys IH]; intros cols; simpl.
  - tauto.
  - rewrite IH, add_column_in. intuition.
Qed.

Lemma columns_of_in (rows : @dataframe F) (acc : list string) c :
  In c (fold_left (fun cols row => fold_left add_column (Dict.keys row) cols)
          rows acc) <->
  In c acc \/ exists row, In row rows /\ In c (Dict.keys row).
Proof.
  revert acc. induction rows as [|r rows IH]; intros acc; simpl.
  - split; [auto|]. intros [I|(row & [] & _)]. exact I.
  - rewrite IH, add_columns_in. split.
    + intros [[I|I]|(row & I & J)]; eauto.
    + intros [I|(row & [->|I] & J)]; eauto.
Qed.

Lemma field_is_column (b : @buffer F) col :
  Forall (fun e => NoDup (Dict.keys (snd e))) b -> col <> "timestamp" ->
  (exists e, In e b /\ dmem (snd e) col = true) ->
  In col (columns_of (rows_of b)).
Proof.
  intros ND T (e & I & M). unfold columns_of. apply columns_of_in. right.
  exists (with_timestamp (VTime (fst e)) (snd e)). split.
  - unfold rows_of. apply in_map_iff. exists e. auto.
  - rewrite Forall_forall in ND. specialize (ND e I).
    unfold Dict.mem in M. destruct (dget (snd e) col) as [v|] eqn:G; [|discriminate].
    apply dget_some_in with (v := v).
    now rewrite with_timestamp_field.
Qed.

Lemma last_value_entry (b : @buffer F) col :
  Forall (fun e => NoDup (Dict.keys (snd e))) b -> col <> "timestamp" ->
  b <> [] ->
  last_value (rows_of b) col = last_entry_value b col.
Proof.
  intros ND T NE. unfold last_value, last_entry_value, rows_of.
  assert (L : List.last (map (fun e => with_timestamp (VTime (fst e)) (snd e)) b) [] =
              with_timestamp (VTime (fst (List.last b (0, []))))
                (snd (List.last b (0, [])))).
  { clear ND. induction b as [|e b IH]; [congruence|].
    destruct b as [|e' b]; [reflexivity|].
    change (List.last (e :: e' :: b) (0, [])) with (List.last (e' :: b) (0, [])).
    rewrite <- IH by discriminate. reflexivity. }
  rewrite L, with_timestamp_field; [reflexivity| |exact T].
  rewrite Forall_forall in ND. apply ND.
  destruct b as [|e b]; [congruence|].
  apply exists_last in NE. destruct NE as (b' & x & ->).
  rewrite last_last. apply in_or_app. simpl. auto.
Qed.


Lemma add_df ts (d : reading) (w : @world F) :
  df (cache (snd (add ts d w))) =
  Some (rows_of (data (cache w) ++ [(ts, format_keys d)])%list).
Proof. add_run; broadcast_run; reflexivity. Qed.

Lemma add_all_ups_buffer ts (all : list (Z * reading)) (c : cache_state) :
  data (fold_left (fun c kv => add_one_ups ts (fst kv) (snd kv) c) all c) = data c /\
  df (fold_left (fun c kv => add_one_ups ts (fst kv) (snd kv) c) all c) = df c.
Proof.
  revert c. induction all as [|kv all IH]; intros c; simpl; [auto|].
  destruct (IH (add_one_ups ts (fst kv) (snd kv) c)) as [-> ->]. auto.
Qed.

Lemma add_multi_ups_data ts (all : list (Z * reading)) (w : @world F) :
  data (cache (snd (add_multi_ups ts all w))) = data (cache w).
Proof.
  add_run; (destruct (Aggregator.aggregate_ups_data all); cbn;
            [broadcast_run; cbn|];
            rewrite (proj1 (add_all_ups_buffer _ _ _)); reflexivity).
Qed.

Lemma add_multi_ups_df ts (all : list (Z * reading)) (w : @world F) :
  df (cache (snd (add_multi_ups ts all w))) = df (cache w).
Proof.
  add_run; (destruct (Aggregator.aggregate_ups_data all); cbn;
            [broadcast_run; cbn|];
            rewrite (proj2 (add_all_ups_buffer _ _ _)); reflexivity).
Qed.

(** In every state of a run the data frame is the one of the buffer. *)
Lemma reachable_buffer (w : @world F) :
  reachable w -> buffer_consistent (cache w).
Proof.
  unfold buffer_consistent.
  induction 1 as [w size C M | w w' R [IHn IHd] S].
  - rewrite C. simpl. split; [constructor|left; auto].
  - destruct S as [ts d w | ts all w | t w].
    + rewrite add_buffer, add_df. split.
      * apply Forall_app. split; [exact IHn|].
        constructor; [apply format_keys_nodup|constructor].
      * right. split; [|reflexivity].
        destruct (data (cache w)); discriminate.
    + rewrite add_multi_ups_data, add_multi_ups_df. auto.
    + destruct (flush_cases t w) as (b & w' & E & _ & _ & _ & FAIL & SUCC).
      rewrite E. simpl. destruct b.
      * destruct (SUCC eq_refl)
          as (s & i & j & _ & _ & _ & _ & _ & _ & _ & -> & -> & _).
        split; [constructor|left; auto].
      * destruct (FAIL eq_refl) as ((-> & -> & _) & _). auto.
Qed.

(** The cells of a field, and the values buffered for it. *)
Lemma numbers_averaged (b : @buffer F) (field : string) :
  numbers (field_values b field) = averaged_numbers b field.
Proof.
  unfold numbers, field_values, averaged_numbers, buffered_values.
  induction b as [|[ts d] b IH]; [reflexivity|].
  cbn [map flat_map snd]. rewrite flat_map_app. rewrite IH.
  destruct (dget d field) as [[| | |x| | |]|]; cbn [flat_map app];
    try destruct (fisnan x); reflexivity.
Qed.

Lemma is_number_numeric (v : value F) :
  is_number (Some v) = true <-> numeric_value v.
Proof.
  destruct v; simpl; try (split; [discriminate|contradiction]).
  - unfold int64. rewrite andb_true_iff, Z.leb_le, Z.ltb_lt. reflexivity.
  - split; auto.
Qed.

(** The dtype of the column of a field is numeric exactly when the field
    is averaged. *)
Lemma numeric_column_averaged (b : @buffer F) (field : string) :
  numeric_column (field_values b field) = true <-> averaged b field.
Proof.
  unfold numeric_column, averaged. rewrite andb_true_iff.
  assert (A : forallb (fun c => is_number c || is_null c) (field_values b field)
              = true <->
              Forall (fun v => v = VNone \/ numeric_value v)
                (buffered_values b field)).
  { unfold field_values, buffered_values.
    induction b as [|[ts d] b IH]; cbn [map flat_map forallb snd].
    - split; [constructor|reflexivity].
    - rewrite andb_true_iff, IH.
      destruct (dget d field) as [v|]; cbn [app].
      + split.
        * intros [H T]. constructor; [|exact T].
          apply orb_true_iff in H as [H|H].
          -- right. now apply is_number_numeric.
          -- left. destruct v; try discriminate H. reflexivity.
        * intros H. inversion H as [|x l [->|N] T]; subst.
          -- split; [reflexivity|exact T].
          -- split; [|exact T]. apply orb_true_iff. left.
             now apply is_number_numeric.
      + split; [intros [_ T]; exact T|]. intros T. split; [reflexivity|exact T]. }
  assert (B : existsb (fun c => is_number c || is_missing c) (field_values b field)
              = true <->
              (Exists numeric_value (buffered_values b field) \/
               exists e, In e b /\ dget (snd e) field = None)).
  { clear A. unfold field_values, buffered_values.
    induction b as [|[ts d] b IH]; cbn [map flat_map existsb snd].
    - split; [discriminate|]. intros [H|(e & [] & _)]. inversion H.
    - rewrite orb_true_iff, IH.
      destruct (dget d field) as [v|] eqn:G; cbn [app].
      + rewrite Exists_cons, orb_true_iff. split.
        * intros [[H|H]|[H|(e' & I & N)]].
          -- left. left. now apply is_number_numeric.
          -- discriminate H.
          -- left. right. exact H.
          -- right. exists e'. split; [right; exact I|exact N].
        * intros [[H|H]|(e' & [<-|I] & N)].
          -- left. left. now apply is_number_numeric.
          -- right. left. exact H.
          -- simpl in N. congruence.
          -- right. right. exists e'. auto.
      + split.
        * intros _. right. exists (ts, d). split; [left; reflexivity|exact G].
        * intros _. left. reflexivity. }
  rewrite A, B. reflexivity.
Qed.

(** C6, as the code has it: in every reachable state with a non-empty
    buffer the reduction, unless pandas raises, yields for each field of
    the entries (the row timestamp apart; the field holding no datetime and
    no int outside the signed 64-bit range): when every value buffered for
    the field is an int, a float or [None], and some entry holds a number
    for it or lacks it, the mean of the ints and floats (NaN left out)
    rounded to 2 decimals, the entries that lack the field or hold [None]
    adding nothing to its denominator; otherwise the value the most
    recently buffered entry has for the field, NaN when that entry lacks
    it.  With an empty buffer the reduction yields no record and the flush
    is skipped. *)
Theorem numeric_reduction (w : @world F) :
  reachable w ->
  let b := data (cache w) in
  (b <> [] -> faults w (calls w) = false ->
   exists result,
     fst (calculate_averages w) = Ok (Some result) /\
     forall field,
       field <> "timestamp" ->
       (exists e, In e b /\ dmem (snd e) field = true) ->
       Forall plain_value (buffered_values b field) ->
       (averaged b field ->
        dget result field =
          Some (VFloat (np_round (mean (averaged_numbers b field)) 2))) /\
       (~ averaged b field ->
        dget result field = Some (last_entry_value b field))) /\
  (b = [] ->
   calculate_averages w = (Ok None, w) /\
   forall t, exists w',
     calculate_and_save_averages t w = (Ok false, w') /\
     same_buffer w w' /\ table w' = table w).
Proof.
  intros R b. destruct (reachable_buffer R) as [ND CONS]. fold b in ND, CONS.
  split.
  - intros NE FA.
    destruct CONS as [[E _]|[_ DF]]; [contradiction|].
    rewrite calculate_averages_run, DF, FA.
    assert (NR : is_nil (rows_of b) = false).
    { destruct b; [contradiction|reflexivity]. }
    rewrite NR. eexists. split; [reflexivity|].
    intros field T HAS _.
    pose proof (field_is_column ND T HAS) as COL.
    rewrite <- numeric_column_averaged, <- numbers_averaged,
      <- (cells_field_values ND T).
    split.
    + intros NUM. now apply reduction_numeric.
    + intros NUM. rewrite <- (last_value_entry ND T NE).
      apply reduction_last; [exact COL| |exact T].
      destruct (numeric_column (cells (rows_of b) field)); congruence.
  - intros E.
    destruct CONS as [[_ DF]|[NE _]]; [|contradiction].
    split.
    + rewrite calculate_averages_run, DF. reflexivity.
    + intros t.
      destruct (flush_cases t w) as (r & w' & E' & _ & _ & _ & FAIL & SUCC).
      destruct r.
      * destruct (SUCC eq_refl)
          as (s & i & j & _ & _ & _ & _ & _ & (rows & DF' & _) & _).
        congruence.
      * exists w'. split; [exact E'|]. now apply FAIL.
Qed.


(** *** The change gate *)

Lemma number_at_get (view : reading) (m : string) :
  dmem view m = true ->
  py_float (or_zero (get_or_none view m)) = number_at view m.
Proof.
  unfold Dict.mem, get_or_none, number_at.
  destruct (dget view m); [reflexivity|discriminate].
Qed.

(** The loop over the watched fields finds a change exactly when one of
    them has changed in the sense of [watched_change]. *)
Lemma significant_change_iff (metrics : list string) (view last : reading) :
  significant_change metrics view last = true <->
  exists m, In m metrics /\ watched_change view last m.
Proof.
  unfold watched_change.
  induction metrics as [|m metrics IH]; simpl.
  - split; [discriminate|]. intros (m & [] & _).
  - destruct (dmem view m) eqn:MV; simpl.
    + destruct (dmem last m) eqn:ML; simpl.
      * rewrite !number_at_get by assumption.
        destruct (number_at view m) as [c|] eqn:NV.
        -- destruct (number_at last m) as [l|] eqn:NL.
           ++ destruct (fleb (of_Z 1) (fabs (fsub c l))) eqn:D.
              ** split; [intros _|reflexivity].
                 exists m. repeat split; auto. right. right. eauto.
              ** rewrite IH. split.
                 --- intros (m' & I & W). eauto.
                 --- intros (m' & [<-|I] & W); [|eauto].
                     destruct W as (_ & _ & [X|[X|(c' & l' & X1 & X2 & X3)]]);
                       congruence.
           ++ split; [intros _|reflexivity].
              exists m. repeat split; auto.
        -- split; [intros _|reflexivity].
           exists m. repeat split; auto.
      * rewrite IH. split.
        -- intros (m' & I & W). eauto.
        -- intros (m' & [<-|I] & W); [|eauto].
           destruct W as (_ & X & _). congruence.
    + rewrite IH. split.
      * intros (m' & I & W). eauto.
      * intros (m' & [<-|I] & W); [|eauto].
        destruct W as (X & _). congruence.
Qed.

Lemma with_timestamp_nonempty ts (d : reading) :
  is_nil (with_timestamp ts d) = false.
Proof.
  unfold with_timestamp, Dict.update.
  assert (G : forall acc : reading,
             is_nil acc = false ->
             is_nil (fold_left (fun acc kv => dset acc (fst kv) (snd kv)) d acc)
             = false).
  { induction d as [|kv d IH]; intros acc NE; simpl; [exact NE|].
    apply IH. destruct acc as [|[a b] acc]; [discriminate|].
    simpl. destruct (String.eqb (fst kv) a); reflexivity. }
  apply G. reflexivity.
Qed.

(** What the single-device broadcast does, by the rule of the gate. *)
Lemma broadcast_cache_update_run (d : reading) (w : @world F) :
  is_nil d = false ->
  (forall last, last_broadcast (cache w) = Some last -> is_nil last = false) ->
  let view := with_timestamp (VStr (isoformat w (clock w (ticks w)))) d in
  broadcast_cache_update d w =
  (Ok tt,
   match last_broadcast (cache w) with
   | Some last =>
       if status_changed view last || significant_change important_metrics view last
       then sent (cache_update view)
              (with_cache (set_last_broadcast (Some view)) (tick w))
       else tick w
   | None =>
       sent (cache_update view)
         (with_cache (set_last_broadcast (Some view)) (tick w))
   end).
Proof.
  intros NE PRIOR view. unfold broadcast_cache_update.
  remember important_metrics as metrics. py_unfold.
  rewrite NE. simpl. fold view.
  destruct (last_broadcast (cache w)) as [last|] eqn:LB; [|reflexivity].
  rewrite (PRIOR last eq_refl).
  destruct (status_changed view last); simpl; [reflexivity|].
  destruct (significant_change metrics view last); reflexivity.
Qed.

(** The comparison of the statuses tells exactly whether they differ. *)
Lemma status_changed_iff (view last : reading) :
  status_changed view last = true <-> status_differs view last.
Proof.
  unfold status_changed, status_differs. rewrite negb_true_iff.
  destruct (get_or_none view "ups_status") as [| | | |s| |];
    destruct (get_or_none last "ups_status") as [| | | |s'| |];
    try reflexivity.
  cbn [py_eq]. split.
  - intros E ->. rewrite String.eqb_refl in E. discriminate E.
  - intros N. destruct (String.eqb_spec s s'); [contradiction|reflexivity].
Qed.

Lemma notify_condition_decide (prior : option reading) (view : reading) :
  notify_condition prior view <->
  match prior with
  | Some last =>
      status_changed view last || significant_change important_metrics view last
      = true
  | None => True
  end.
Proof.
  unfold notify_condition. destruct prior as [last|].
  - rewrite orb_true_iff, significant_change_iff, status_changed_iff. split.
    + intros [X|(l & E & H)]; [discriminate|]. injection E as <-. exact H.
    + intros H. right. eauto.
  - split; auto.
Qed.


(** What the multi-device broadcast does, by the same rule. *)
Lemma broadcast_multi_ups_update_run (a : reading) (per : list (Z * reading))
  (w : @world F) :
  is_nil a = false ->
  let stamp := VStr (isoformat w (clock w (ticks w))) in
  let view := with_timestamp stamp a in
  let individual :=
    fold_left
      (fun acc kv => Dict.set Z.eqb acc (fst kv) (with_timestamp stamp (snd kv)))
      per [] in
  let notified :=
    sent (multi_ups_update view individual (Z.of_nat (List.length per)))
      (with_cache (set_last_broadcast_multi (Some view) individual) (tick w)) in
  broadcast_multi_ups_update a per w =
  (Ok tt,
   match last_broadcast_aggregated (cache w) with
   | Some last =>
       if status_changed view last || significant_change important_metrics view last
       then notified else tick w
   | None => notified
   end).
Proof.
  intros NE stamp view individual notified. unfold broadcast_multi_ups_update.
  remember important_metrics as metrics. py_unfold.
  rewrite NE. simpl. fold stamp. fold view. fold individual.
  destruct (last_broadcast_aggregated (cache w)) as [last|] eqn:LB;
    [|reflexivity].
  destruct (status_changed view last); simpl; [reflexivity|].
  destruct last as [|kv last]; simpl.
  - assert (S : significant_change metrics view [] = false).
    { clear. induction metrics as [|m metrics IH]; simpl; [reflexivity|].
      rewrite andb_false_r. exact IH. }
    rewrite S. reflexivity.
  - destruct (significant_change metrics view (kv :: last)); reflexivity.
Qed.

(** In every state of a run the view stored by the single-device path, if
    any, is not empty: it carries its timestamp. *)
Lemma reachable_prior (w : @world F) :
  reachable w ->
  forall last, last_broadcast (cache w) = Some last -> is_nil last = false.
Proof.
  induction 1 as [w size C M | w w' R IH S].
  - rewrite C. discriminate.
  - destruct S as [ts d w | ts all w | t w].
    + unfold add. unfold bind at 1. rewrite init_next_save_time_run.
      destruct (next_save_time (cache w)); py_unfold; cbn;
        unfold broadcast_cache_update; py_unfold;
        (destruct (is_nil (format_keys d)); cbn; [exact IH|]);
        match goal with
        | |- context [if ?b then _ else _] => destruct b
        end; cbn; try exact IH;
        intros last X; injection X as <-; apply with_timestamp_nonempty.
    + unfold add_multi_ups. unfold bind at 1. rewrite init_next_save_time_run.
      assert (G : forall c : cache_state,
                 last_broadcast
                   (fold_left (fun c kv => add_one_ups ts (fst kv) (snd kv) c)
                      all c) = last_broadcast c).
      { induction all as [|kv all IHa]; intros c; simpl; [reflexivity|].
        rewrite IHa. reflexivity. }
      destruct (next_save_time (cache w)); py_unfold; cbn;
        (destruct (Aggregator.aggregate_ups_data all); cbn;
         [broadcast_run; cbn|]; rewrite G; exact IH).
    + destruct (flush_cases t w) as (b & w' & E & L & _).
      rewrite E. simpl. destruct L as (_ & _ & _ & _ & _ & ->). exact IH.
Qed.

(** C3, as the code has it: in every reachable state, a non-empty view is
    notified exactly when there is no prior view, or its status differs
    from the prior one, or a watched field that both views have either
    moved by 1.0 or more or has a value in one of them that does not
    convert to a number; a watched field that either view lacks is
    skipped.  On notification the new view, with its timestamp, replaces
    the prior one; otherwise nothing is sent and the prior view stays.
    The multi-device path applies the same rule to the aggregate. *)
Theorem change_gate (w : @world F) :
  reachable w ->
  let stamp := VStr (isoformat w (clock w (ticks w))) in
  (forall d : reading,
     is_nil d = false ->
     let view := with_timestamp stamp d in
     let w' := snd (broadcast_cache_update d w) in
     (notify_condition (last_broadcast (cache w)) view ->
      emitted w' = (emitted w ++ [cache_update view])%list /\
      last_broadcast (cache w') = Some view) /\
     (~ notify_condition (last_broadcast (cache w)) view ->
      emitted w' = emitted w /\
      last_broadcast (cache w') = last_broadcast (cache w))) /\
  (forall (a : reading) (per : list (Z * reading)),
     is_nil a = false ->
     let view := with_timestamp stamp a in
     let w' := snd (broadcast_multi_ups_update a per w) in
     (notify_condition (last_broadcast_aggregated (cache w)) view ->
      (exists individual count,
         emitted w' =
         (emitted w ++ [multi_ups_update view individual count])%list) /\
      last_broadcast_aggregated (cache w') = Some view) /\
     (~ notify_condition (last_broadcast_aggregated (cache w)) view ->
      emitted w' = emitted w /\
      last_broadcast_aggregated (cache w') = last_broadcast_aggregated (cache w))).
Proof.
  intros R stamp. split.
  - intros d NE view w'. unfold w'.
    rewrite (broadcast_cache_update_run d w NE (reachable_prior R)).
    fold stamp. fold view. rewrite notify_condition_decide.
    destruct (last_broadcast (cache w)) as [last|] eqn:LB; cbn [snd].
    + destruct (status_changed view last
                || significant_change important_metrics view last).
      * split; [intros _; split; reflexivity|]. intros X. exfalso. auto.
      * split; [discriminate|]. intros _. split; [reflexivity|exact LB].
    + split; [intros _; split; reflexivity|]. intros X. exfalso. auto.
  - intros a per NE view w'. unfold w'.
    rewrite (broadcast_multi_ups_update_run a per w NE).
    fold stamp. fold view. rewrite notify_condition_decide.
    destruct (last_broadcast_aggregated (cache w)) as [last|] eqn:LB; cbn [snd].
    + destruct (status_changed view last
                || significant_change important_metrics view last).
      * split; [intros _; split; [eexists _, _; reflexivity|reflexivity]|].
        intros X. exfalso. auto.
      * split; [discriminate|]. intros _. split; [reflexivity|exact LB].
    + split; [intros _; split; [eexists _, _; reflexivity|reflexivity]|].
      intros X. exfalso. auto.
Qed.

End SchedulerFacts.

(* ===================================================================== *)
(** * Concrete runs of the cache *)
(* ===================================================================== *)

Section CacheRuns.
Import Cache Spec Runs.

Lemma clock_of_monotone (late : Z) :
  61 * SECOND <= late -> monotone (clock_of late).
Proof.
  intros L n. unfold clock_of.
  destruct (Nat.ltb_spec n 2), (Nat.ltb_spec (S n) 2),
    (Nat.ltb_spec n 7), (Nat.ltb_spec (S n) 7);
    try lia; unfold SECOND in *; lia.
Qed.

Lemma fresh_reachable late failing :
  61 * SECOND <= late -> reachable (fresh late failing).
Proof.
  intros L. apply reachable_init with (size := 60); [reflexivity|].
  now apply clock_of_monotone.
Qed.

Lemma first_reading_reachable late failing :
  61 * SECOND <= late -> reachable (first_reading late failing).
Proof.
  intros L. eapply reachable_step; [|apply step_add].
  now apply fresh_reachable.
Qed.

Lemma second_reading_reachable late failing :
  61 * SECOND <= late -> reachable (second_reading late failing).
Proof.
  intros L. eapply reachable_step; [|apply step_add].
  eapply reachable_step; [|apply step_save].
  now apply first_reading_reachable.
Qed.

Lemma after_stall_late : 61 * SECOND <= after_stall.
Proof. apply Z.leb_le. reflexivity. Qed.

Lemma ragged_reachable : reachable ragged.
Proof.
  eapply reachable_step; [|apply step_add].
  eapply reachable_step; [|apply step_add].
  apply fresh_reachable, after_stall_late.
Qed.

Lemma published_reachable : reachable published.
Proof.
  eapply reachable_step; [|apply step_add].
  apply fresh_reachable, after_stall_late.
Qed.

Ltac run := vm_compute; reflexivity.

Ltac fires :=
  unfold hour_rollup_fires;
  split; [run|];
  split; [apply Z.leb_le; run|];
  split; [eexists; split; [run|apply Z.leb_le; run]|];
  split; [eexists; split; [run|]; split; [run|]; split; run|];
  split; [run|];
  vm_compute; repeat constructor.

(** At the second check the hour boundary 01:00 is reached and the hour
    rollup fires. *)
Lemma second_check_fires_after_stall :
  hour_rollup_fires (second_reading after_stall None) HOUR.
Proof. fires. Qed.

(** C1, refuted as stated: after a stall of two and a half hours the hour
    rollup fires at the boundary 01:00 and the boundary moves to 03:00, not
    to 02:00. *)
Lemma hour_boundary_counterexample :
  let w := second_reading after_stall None in
  reachable w /\
  hour_rollup_fires w HOUR /\
  next_hour (cache (snd (calculate_and_save_averages 0 w))) = Some (3 * HOUR) /\
  3 * HOUR <> HOUR + HOUR.
Proof.
  split; [apply second_reading_reachable, after_stall_late|].
  split; [apply second_check_fires_after_stall|].
  split; [run|discriminate].
Qed.

(** C2, refuted as stated: the commit of the first rollup fails; the flush
    returns [False], and the hour boundary and the hour-accumulation list
    are not what they were. *)
Lemma failed_flush_counterexample :
  let w := first_reading after_stall (Some 1%nat) in
  reachable w /\
  (exists w1, save_body 0 w = (Raise LibraryError, w1)) /\
  exists w',
    calculate_and_save_averages 0 w = (Ok false, w') /\
    next_hour (cache w) = None /\
    next_hour (cache w') = Some HOUR /\
    hourly_data (cache w) = [] /\
    hourly_data (cache w') <> [] /\
    ~ same_schedule w w'.
Proof.
  split; [apply first_reading_reachable, after_stall_late|].
  split; [eexists; run|].
  eexists. split; [run|].
  split; [run|]. split; [run|]. split; [run|].
  split; [vm_compute; discriminate|].
  intros (_ & H & _). vm_compute in H. discriminate H.
Qed.

Lemma failed_flush_keeps_buffer_witness :
  let w := first_reading after_stall (Some 1%nat) in
  (exists e w1, save_body 0 w = (Raise e, w1)) /\
  exists w',
    calculate_and_save_averages 0 w = (Ok false, w') /\
    same_buffer w w' /\ table w' = table w.
Proof.
  intros w.
  assert (X : exists e w1, save_body 0 w = (Raise e, w1))
    by (eexists _, _; vm_compute; reflexivity).
  split; [exact X|].
  destruct (failed_flush_keeps_buffer 0 w) as (b & w' & E & RAISED & _ & KEEP).
  destruct X as (e & w1 & X).
  pose proof (RAISED e w1 X) as B. subst b.
  exists w'. split; [exact E|]. apply KEEP. reflexivity.
Defined.

(** With the commit failing at the second check, where the hour rollup
    fires, the hour boundary has moved and the list is cleared although
    nothing was saved. *)
Example failed_commit_after_hour_rollup :
  let w := second_reading after_stall (Some 4%nat) in
  exists w',
    calculate_and_save_averages 0 w = (Ok false, w') /\
    table w' = table w /\
    next_hour (cache w) = Some HOUR /\
    next_hour (cache w') = Some (3 * HOUR) /\
    hourly_data (cache w') = [].
Proof.
  eexists. split; [run|]. repeat split; run.
Qed.

(** C3, refuted as stated: the prior view has a load, the new view has
    none and the same status; the rule as claimed notifies, the code sends
    nothing. *)
Lemma change_gate_counterexample :
  let w := published in
  let view :=
    with_timestamp (VStr (isoformat w (clock w (ticks w)))) view_without_load in
  reachable w /\
  dmem view "ups_load" = false /\
  (exists last, last_broadcast (cache w) = Some last /\
                dmem last "ups_load" = true) /\
  claimed_gate (last_broadcast (cache w)) view = true /\
  emitted (snd (broadcast_cache_update view_without_load w)) = emitted w.
Proof.
  split; [apply published_reachable|].
  split; [run|].
  split; [eexists; split; run|].
  split; run.
Qed.

Lemma change_gate_witness :
  let w := published in
  let stamp := VStr (isoformat w (clock w (ticks w))) in
  let moved := view_with_load (FloatQ.dec 511 1) "OL" in
  let on_battery := view_with_load (FloatQ.dec 500 1) "OB" in
  let steady := view_with_load (FloatQ.dec 504 1) "OL" in
  reachable w /\
  last_broadcast (cache w) =
    Some (with_timestamp stamp (view_with_load (FloatQ.dec 500 1) "OL")) /\
  emitted (snd (broadcast_cache_update moved w)) =
    (emitted w ++ [cache_update (with_timestamp stamp moved)])%list /\
  emitted (snd (broadcast_cache_update on_battery w)) =
    (emitted w ++ [cache_update (with_timestamp stamp on_battery)])%list /\
  last_broadcast (cache (snd (broadcast_cache_update on_battery w))) =
    Some (with_timestamp stamp on_battery) /\
  emitted (snd (broadcast_cache_update steady w)) = emitted w /\
  last_broadcast (cache (snd (broadcast_cache_update steady w))) =
    last_broadcast (cache w).
Proof.
  intros w stamp moved on_battery steady.
  assert (LB : last_broadcast (cache w) =
               Some (with_timestamp stamp (view_with_load (FloatQ.dec 500 1) "OL")))
    by (vm_compute; reflexivity).
  pose proof (proj1 (change_gate published_reachable)) as GATE.
  cbv zeta in GATE. fold w in GATE. fold stamp in GATE.
  split; [apply published_reachable|]. split; [exact LB|].
  split; [|split; [|split; [|split]]].
  - apply (proj1 (GATE moved eq_refl)).
    right. eexists. split; [exact LB|]. right.
    exists "ups_load". split; [simpl; tauto|].
    split; [reflexivity|]. split; [reflexivity|]. right. right.
    eexists _, _. split; [reflexivity|]. split; reflexivity.
  - apply (proj1 (GATE on_battery eq_refl)).
    right. eexists. split; [exact LB|]. left.
    vm_compute. intros X. discriminate X.
  - apply (proj1 (GATE on_battery eq_refl)).
    right. eexists. split; [exact LB|]. left.
    vm_compute. intros X. discriminate X.
  - apply (proj2 (GATE steady eq_refl)).
    rewrite notify_condition_decide. vm_compute. discriminate.
  - apply (proj2 (GATE steady eq_refl)).
    rewrite notify_condition_decide. vm_compute. discriminate.
Defined.

(** The change gate on the views of the specification: a load of 50.4
    after 50 is suppressed, 51.1 is notified, and so is a change of status
    alone. *)
Example change_gate_small_move :
  emitted (snd (broadcast_cache_update (view_with_load (FloatQ.dec 504 1) "OL")
                  published)) = emitted published.
Proof. vm_compute. reflexivity. Qed.

Example change_gate_status :
  List.length
    (emitted (snd (broadcast_cache_update
                     (view_with_load (FloatQ.dec 500 1) "OB") published)))
  = S (List.length (emitted published)).
Proof. vm_compute. reflexivity. Qed.

(** C6, refuted as stated: the status was buffered as "OL", the most
    recent entry has no status, and the reduction gives NaN for it. *)
Lemma numeric_reduction_counterexample :
  reachable ragged /\
  claimed_reduction (data (cache ragged)) "ups_status" = Some (VStr "OL") /\
  exists result,
    fst (calculate_averages ragged) = Ok (Some result) /\
    dget result "ups_status" = Some (VFloat fnan).
Proof.
  split; [apply ragged_reachable|]. split; [run|].
  eexists. split; run.
Qed.

Lemma mixed_entries_reachable : reachable mixed_entries.
Proof.
  eapply reachable_step; [|apply step_add].
  eapply reachable_step; [|apply step_add].
  eapply reachable_step; [|apply step_add].
  apply fresh_reachable, after_stall_late.
Qed.

Ltac plain :=
  match goal with
  | |- Forall ?P ?l => let l' := eval vm_compute in l in change (Forall P l')
  end;
  repeat (apply Forall_cons;
          [first [exact I
                 |split; [apply Z.leb_le|apply Z.ltb_lt]; vm_compute; reflexivity]
          |]);
  apply Forall_nil.

Lemma numeric_reduction_witness :
  reachable mixed_entries /\
  exists result,
    fst (calculate_averages mixed_entries) = Ok (Some result) /\
    dget result "ups_load" = Some (VFloat (FloatQ.dec 2025 2)) /\
    dget result "battery_charge" = Some (VFloat (FloatQ.dec 800 1)) /\
    dget result "ups_status" = Some (VStr "OB").
Proof.
  split; [apply mixed_entries_reachable|].
  destruct (proj1 (numeric_reduction mixed_entries_reachable))
    as (result & E & P); [vm_compute; discriminate|run|].
  exists result. split; [exact E|]. split; [|split].
  - assert (HAS : exists e, In e (data (cache mixed_entries)) /\
                            dmem (snd e) "ups_load" = true).
    { eexists. split; [left; run|run]. }
    assert (PL : Forall plain_value
                   (buffered_values (data (cache mixed_entries)) "ups_load"))
      by plain.
    destruct (P "ups_load" ltac:(discriminate) HAS PL) as [NUM _].
    rewrite NUM; [run|]. apply numeric_column_averaged. run.
  - assert (HAS : exists e, In e (data (cache mixed_entries)) /\
                            dmem (snd e) "battery_charge" = true).
    { eexists. split; [right; left; run|run]. }
    assert (PL : Forall plain_value
                   (buffered_values (data (cache mixed_entries)) "battery_charge"))
      by plain.
    destruct (P "battery_charge" ltac:(discriminate) HAS PL) as [NUM _].
    rewrite NUM; [run|]. apply numeric_column_averaged. run.
  - assert (HAS : exists e, In e (data (cache mixed_entries)) /\
                            dmem (snd e) "ups_status" = true).
    { eexists. split; [left; run|run]. }
    assert (PL : Forall plain_value
                   (buffered_values (data (cache mixed_entries)) "ups_status"))
      by plain.
    destruct (P "ups_status" ltac:(discriminate) HAS PL) as [_ LAST].
    rewrite LAST; [run|]. rewrite <- numeric_column_averaged.
    vm_compute. discriminate.
Defined.

(** The reduction on the entries of the specification: the mean of the
    loads and the last of the statuses. *)
Example reduction_of_three_entries :
  exists result,
    fst (calculate_averages three_entries) = Ok (Some result) /\
    dget result "ups_load" = Some (VFloat (FloatQ.dec 200 1)) /\
    dget result "ups_status" = Some (VStr "OB").
Proof. eexists. split; [run|]. split; run. Qed.

Lemma minute_boundary_strictly_advances_witness :
  let w := first_reading after_stall None in
  let w' := snd (calculate_and_save_averages 0 w) in
  reachable w /\
  calculate_and_save_averages 0 w = (Ok true, w') /\
  next_save_time (cache w) = Some (1 * MINUTE) /\
  next_save_time (cache w') = Some (2 * MINUTE) /\
  exists stamp i,
    next_save_time (cache w) = Some stamp /\
    next_save_time (cache w') = Some (floor_to MINUTE (clock w i) + MINUTE) /\
    stamp < floor_to MINUTE (clock w i) + MINUTE.
Proof.
  intros w w'.
  assert (R : reachable w) by apply first_reading_reachable, after_stall_late.
  assert (E : calculate_and_save_averages 0 w = (Ok true, w'))
    by (vm_compute; reflexivity).
  split; [exact R|]. split; [exact E|].
  split; [run|]. split; [run|].
  destruct (minute_boundary_strictly_advances 0 R E)
    as (stamp & i & NS & _ & NS' & _ & LT & _).
  exists stamp, i. auto.
Defined.

Lemma key_normalisation_witness :
  let d : dict (value Fq) := [("ups.load", VInt 40); ("ups.status", VStr "OL")] in
  Forall no_dot ["ups"; "load"] /\
  carries d "ups.load" (VInt 40) /\
  canonical_key "ups.load" = "ups_load" /\
  dget (format_keys d) "ups_load" = Some (VInt 40).
Proof.
  intros d.
  assert (ND : Forall no_dot ["ups"; "load"])
    by (repeat constructor).
  assert (C : carries d "ups.load" (VInt 40)).
  { split; [|split; [reflexivity|]].
    - repeat constructor; simpl; intuition discriminate.
    - intros k' [<-|[<-|[]]] E; [reflexivity|discriminate E]. }
  split; [exact ND|]. split; [exact C|].
  destruct (key_normalisation (VInt 40) ND) as (E1 & _ & K).
  split; [exact E1|].
  exact (proj1 (K "ups.load" d 0 (fresh after_stall None) (or_introl eq_refl) C)).
Defined.

End CacheRuns.

(* ===================================================================== *)
(** * Further properties of the status resolver *)
(* ===================================================================== *)

Section StatusProperties.
Context {F : Type} {FO : FloatOps F}.
Import Aggregator Spec.

Lemma dget_In {V} (d : dict V) k v : dget d k = Some v -> In (k, v) d.
Proof.
  induction d as [|[a b] d IH]; simpl; [discriminate|].
  destruct (String.eqb_spec k a) as [->|N]; [|auto].
  intros E. injection E as ->. auto.
Qed.

Lemma maximum_upper (l : list Z) (b : Z) :
  0 <= b -> Forall (fun x => x <= b) l -> maximum l <= b.
Proof. intros B H. induction H; simpl; lia. Qed.

Lemma maximum_ge (l : list Z) (x : Z) : In x l -> x <= maximum l.
Proof.
  induction l as [|y l IH]; simpl; [tauto|].
  intros [->|I]; [lia|]. specialize (IH I). lia.
Qed.

Lemma table_bounds k p : In (k, p) STATUS_PRIORITY -> 0 <= p <= 8.
Proof.
  intros I. simpl in I.
  repeat (destruct I as [I|I]; [injection I as _ <-; lia|]).
  contradiction.
Qed.

Lemma priority_of_text_bounds (s : string) : 0 <= priority_of_text s <= 8.
Proof.
  destruct (dget STATUS_PRIORITY (normalized s)) as [p|] eqn:E.
  - rewrite (priority_of_text_exact _ E). apply dget_In in E.
    eapply table_bounds; eauto.
  - rewrite (priority_of_text_scan _ E). split; [apply maximum_nonneg|].
    apply maximum_upper; [lia|]. unfold matching_severities.
    apply Forall_forall. intros x I. apply in_map_iff in I as ([k p] & <- & I).
    apply filter_In in I as [I _]. apply table_bounds in I. simpl. lia.
Qed.

Lemma get_status_priority_bounds (v : value F) (p : Z) :
  get_status_priority v = Ok p -> 0 <= p <= 8.
Proof.
  unfold get_status_priority. destruct (negb (truthy v)).
  - intros E. injection E as <-. change UNKNOWN_PRIORITY with 0. lia.
  - destruct v; try discriminate. intros E. injection E as <-.
    apply priority_of_text_bounds.
Qed.

(** X1: every severity lies between 0 (UNKNOWN) and 8 (OFFLINE), whatever
    the text; a status that is false in a condition ([None], the empty
    string, 0) has the severity 0 without being read as text. *)
Theorem severity_bounds :
  (forall s, 0 <= priority_of_text s <= 8) /\
  (forall (v : value F) p, get_status_priority v = Ok p -> 0 <= p <= 8) /\
  (forall v : value F, truthy v = false -> get_status_priority v = Ok 0).
Proof.
  split; [exact priority_of_text_bounds|].
  split; [exact get_status_priority_bounds|].
  intros v T. unfold get_status_priority. rewrite T. reflexivity.
Qed.

(** *** Case and blanks *)

Lemma upper_char_idem (c : ascii) :
  Str.upper_char (Str.upper_char c) = Str.upper_char c.
Proof. destruct c as [[] [] [] [] [] [] [] []]; vm_compute; reflexivity. Qed.

Lemma upper_idem (s : string) : Str.upper (Str.upper s) = Str.upper s.
Proof.
  induction s as [|c s IH]; simpl; [reflexivity|].
  now rewrite upper_char_idem, IH.
Qed.

Lemma upper_app (a b : string) :
  Str.upper (a ++ b) = (Str.upper a ++ Str.upper b)%string.
Proof. induction a as [|c a IH]; simpl; [reflexivity|]. now rewrite IH. Qed.

Lemma space_upper_char (c : ascii) :
  Str.is_space c = true -> Str.upper_char c = c.
Proof.
  destruct c as [[] [] [] [] [] [] [] []]; vm_compute; intros H;
    try reflexivity; discriminate H.
Qed.

Lemma upper_blank (pad : string) : blank pad = true -> Str.upper pad = pad.
Proof.
  induction pad as [|c pad IH]; simpl; [reflexivity|].
  intros H. apply andb_true_iff in H as [H1 H2].
  now rewrite space_upper_char, IH.
Qed.

Lemma lstrip_blank_app (pad s : string) :
  blank pad = true -> Str.lstrip (pad ++ s) = Str.lstrip s.
Proof.
  induction pad as [|c pad IH]; simpl; [reflexivity|].
  intros H. apply andb_true_iff in H as [H1 H2]. rewrite H1. auto.
Qed.

Lemma rstrip_blank (pad : string) : blank pad = true -> Str.rstrip pad = "".
Proof.
  induction pad as [|c pad IH]; simpl; [reflexivity|].
  intros H. apply andb_true_iff in H as [H1 H2]. rewrite IH, H1 by assumption.
  reflexivity.
Qed.

Lemma rstrip_app_blank (s pad : string) :
  blank pad = true -> Str.rstrip (s ++ pad) = Str.rstrip s.
Proof.
  intros H. induction s as [|c s IH]; simpl.
  - now apply rstrip_blank.
  - rewrite IH. reflexivity.
Qed.

Lemma strip_app_blank (s pad : string) :
  blank pad = true -> Str.strip (s ++ pad) = Str.strip s.
Proof.
  intros H. unfold Str.strip. induction s as [|c s IH]; simpl.
  - rewrite rstrip_blank; [reflexivity|].
    clear - H. induction pad as [|c pad IH]; simpl; [reflexivity|].
    simpl in H. apply andb_true_iff in H as [H1 H2]. rewrite H1. auto.
  - destruct (Str.is_space c); [exact IH|].
    change (String c (s ++ pad)) with (String c s ++ pad)%string.
    now apply rstrip_app_blank.
Qed.

Lemma strip_padded (pad s pad' : string) :
  blank pad = true -> blank pad' = true ->
  Str.strip (pad ++ s ++ pad') = Str.strip s.
Proof.
  intros H H'. unfold Str.strip. rewrite lstrip_blank_app by exact H.
  now apply strip_app_blank.
Qed.

(** X2: the severity of a status text does not depend on its case nor on
    the blanks around it. *)
Theorem severity_ignores_case_and_padding (pad pad' s : string) :
  blank pad = true -> blank pad' = true ->
  priority_of_text (pad ++ s ++ pad') = priority_of_text s /\
  priority_of_text (Str.upper s) = priority_of_text s /\
  get_status_priority (F:=F) (VStr (pad ++ Str.upper s ++ pad')) =
    get_status_priority (VStr s).
Proof.
  intros H H'.
  assert (P : forall x, priority_of_text (pad ++ x ++ pad') = priority_of_text x).
  { intros x. unfold priority_of_text.
    rewrite !upper_app, (upper_blank _ H), (upper_blank _ H'), strip_padded
      by assumption.
    reflexivity. }
  assert (U : priority_of_text (Str.upper s) = priority_of_text s).
  { unfold priority_of_text. rewrite upper_idem. reflexivity. }
  split; [apply P|]. split; [exact U|].
  rewrite !get_status_priority_text, P, U. reflexivity.
Qed.

(** *** The worst status *)

Lemma worst_is_maximum (first : string) (rest : list string) :
  exists w,
    get_worst_status (F:=F) (map VStr (first :: rest)) = Ok (VStr w) /\
    In w (first :: rest) /\
    priority_of_text w = maximum (map priority_of_text (first :: rest)).
Proof.
  destruct (worst_loop_first_max (F:=F) rest [] [] first)
    as (b & w & a & E & R & P1 & P2); try (intros x []).
  exists w. split.
  { cbn [map get_worst_status]. rewrite get_status_priority_text. exact R. }
  simpl app in E. rewrite E. split; [apply in_or_app; simpl; auto|].
  apply Z.le_antisymm.
  - apply maximum_ge, in_map, in_or_app. simpl. auto.
  - apply maximum_upper; [apply priority_of_text_bounds|].
    apply Forall_forall. intros x I. apply in_map_iff in I as (y & <- & I).
    apply in_app_or in I as [I|[<-|I]]; [specialize (P1 _ I); lia|lia|auto].
Qed.

Lemma maximum_same_elements (l l' : list Z) :
  (forall x, In x l -> In x l') -> maximum l <= maximum l'.
Proof.
  intros S. apply maximum_upper; [apply maximum_nonneg|].
  apply Forall_forall. intros x I. apply maximum_ge. auto.
Qed.

(** X3: the worst of a non-empty sequence of status texts is one of them,
    no text of the sequence is more severe, and its severity depends only
    on which texts occur, not on their order or number. *)
Theorem worst_status_order_independent (l l' : list string) :
  l <> [] ->
  (forall x, In x l <-> In x l') ->
  exists w w',
    get_worst_status (F:=F) (map VStr l) = Ok (VStr w) /\
    get_worst_status (F:=F) (map VStr l') = Ok (VStr w') /\
    In w l /\ In w' l' /\
    priority_of_text w = priority_of_text w' /\
    forall x, In x l -> priority_of_text x <= priority_of_text w.
Proof.
  intros NE S.
  destruct l as [|a l]; [congruence|].
  destruct l' as [|a' l'].
  { exfalso. apply (proj1 (S a)). simpl. auto. }
  destruct (worst_is_maximum a l) as (w & R & I & M).
  destruct (worst_is_maximum a' l') as (w' & R' & I' & M').
  exists w, w'. repeat split; auto.
  - rewrite M, M'. apply Z.le_antisymm; apply maximum_same_elements;
      intros x X; apply in_map_iff in X as (y & <- & X);
      apply in_map; apply S; exact X.
  - intros x X. rewrite M. apply maximum_ge, in_map. exact X.
Qed.

(** *** Substrings *)

Lemma prefix_app (k p q : string) :
  String.prefix k p = true -> String.prefix k (p ++ q) = true.
Proof.
  revert k. induction p as [|c p IH]; intros k H; destruct k as [|a k];
    simpl in *; try discriminate H.
  - destruct q; reflexivity.
  - reflexivity.
  - destruct (ascii_dec a c); [now apply IH|discriminate H].
Qed.

Lemma contains_prefix (k s : string) :
  String.prefix k s = true -> Str.contains k s = true.
Proof. intros H. destruct s; cbn [Str.contains]; rewrite H; reflexivity. Qed.

Lemma contains_cons (k : string) (c : ascii) (s : string) :
  Str.contains k s = true -> Str.contains k (String c s) = true.
Proof.
  intros H. change (Str.contains k (String c s))
    with (String.prefix k (String c s) || Str.contains k s).
  rewrite H. apply orb_true_r.
Qed.

Lemma contains_app_r (k p q : string) :
  Str.contains k p = true -> Str.contains k (p ++ q) = true.
Proof.
  induction p as [|c p IH]; intros H.
  - apply contains_prefix. simpl in H. rewrite orb_false_r in H.
    destruct k; [destruct q; reflexivity|discriminate H].
  - change (Str.contains k (String c p))
      with (String.prefix k (String c p) || Str.contains k p) in H.
    apply orb_true_iff in H as [H|H].
    + apply contains_prefix. now apply (prefix_app k (String c p) q).
    + change (String c p ++ q)%string with (String c (p ++ q)).
      apply contains_cons. auto.
Qed.

Lemma contains_app_l (k p q : string) :
  Str.contains k q = true -> Str.contains k (p ++ q) = true.
Proof.
  intros H. induction p as [|c p IH]; [exact H|].
  change (String c p ++ q)%string with (String c (p ++ q)).
  now apply contains_cons.
Qed.

Lemma prefix_split (a b s : string) :
  String.prefix (a ++ b) s = true ->
  exists s', s = (a ++ s')%string /\ String.prefix b s' = true.
Proof.
  revert s. induction a as [|c a IH]; intros s H.
  - exists s. auto.
  - destruct s as [|c' s]; simpl in H; [discriminate|].
    destruct (ascii_dec c c') as [<-|]; [|discriminate].
    destruct (IH s H) as (s' & -> & P). exists s'. auto.
Qed.

Lemma contains_suffix_of_key (a b s : string) :
  Str.contains (a ++ b) s = true -> Str.contains b s = true.
Proof.
  induction s as [|c s IH]; intros H.
  - cbn [Str.contains] in H. rewrite orb_false_r in H.
    apply prefix_split in H as (s' & E & P).
    destruct a; [|discriminate]. simpl in E. subst s'.
    now apply contains_prefix.
  - change (Str.contains (a ++ b) (String c s))
      with (String.prefix (a ++ b) (String c s) || Str.contains (a ++ b) s) in H.
    apply orb_true_iff in H as [H|H].
    + apply prefix_split in H as (s' & -> & P).
      apply contains_app_l. now apply contains_prefix.
    + apply contains_cons. auto.
Qed.

Lemma contains_lstrip (k s : string) :
  Str.contains k (Str.lstrip s) = true -> Str.contains k s = true.
Proof.
  induction s as [|c s IH]; [auto|].
  cbn [Str.lstrip]. destruct (Str.is_space c); [|auto].
  intros H. apply contains_cons. auto.
Qed.

Lemma rstrip_prefix (s : string) :
  exists pad, (Str.rstrip s ++ pad)%string = s.
Proof.
  induction s as [|c s [pad IH]]; [exists ""; reflexivity|].
  cbn [Str.rstrip]. destruct (Str.rstrip s) as [|c' r'] eqn:E.
  - simpl in IH. subst pad. destruct (Str.is_space c).
    + exists (String c s). reflexivity.
    + exists s. reflexivity.
  - exists pad. simpl in *. now rewrite IH.
Qed.

Lemma contains_strip (k s : string) :
  Str.contains k (Str.strip s) = true -> Str.contains k s = true.
Proof.
  unfold Str.strip. intros H. apply contains_lstrip.
  destruct (rstrip_prefix (Str.lstrip s)) as [pad E].
  pose proof (contains_app_r _ _ pad H) as H'. rewrite E in H'. exact H'.
Qed.

(** X4: a device on battery and discharging has one of the two highest
    severities, and it is counted among the online devices all the same,
    because the text DISCHRG contains CHRG. *)
Theorem discharging_device_counts_online (s : string) :
  Str.contains "OB DISCHRG" (normalized s) = true ->
  7 <= priority_of_text s /\ is_online (F:=F) (VStr s) = Ok true.
Proof.
  intros H. split.
  - destruct (dget STATUS_PRIORITY (normalized s)) as [p|] eqn:E.
    + rewrite (priority_of_text_exact _ E). apply dget_In in E. simpl in E.
      repeat (destruct E as [E|E];
              [injection E as E1 <-; rewrite <- E1 in H; vm_compute in H;
               try discriminate H; lia|]).
      contradiction.
    + rewrite (priority_of_text_scan _ E). apply maximum_ge.
      unfold matching_severities. apply in_map_iff.
      exists ("OB DISCHRG", 7). split; [reflexivity|].
      apply filter_In. split; [simpl; auto|exact H].
  - unfold normalized in H.
    change "OB DISCHRG" with ("OB DIS" ++ "CHRG")%string in H.
    apply contains_suffix_of_key, contains_strip in H.
    unfold is_online. destruct s as [|c s]; [discriminate H|].
    cbn [truthy String.eqb negb]. rewrite H, orb_true_r. reflexivity.
Qed.

End StatusProperties.

Section StatusRuns.
Import Aggregator Spec.

Abbreviation Fq := FloatQ.t.

Lemma severity_bounds_witness :
  0 <= priority_of_text "on fire" <= 8 /\
  get_status_priority (F:=Fq) (VInt 0) = Ok 0.
Proof.
  destruct (severity_bounds (F:=Fq)) as (B & _ & Z0).
  split; [apply B|]. apply Z0. reflexivity.
Defined.

Lemma severity_ignores_case_and_padding_witness :
  blank "  " = true /\ blank " " = true /\
  priority_of_text ("  " ++ "ob" ++ " ") = priority_of_text "ob" /\
  priority_of_text "ob" = 6.
Proof.
  assert (H : blank "  " = true) by reflexivity.
  assert (H' : blank " " = true) by reflexivity.
  split; [exact H|]. split; [exact H'|].
  split; [|reflexivity].
  exact (proj1 (severity_ignores_case_and_padding (F:=Fq) "  " " " "ob" H H')).
Defined.

Lemma worst_status_order_independent_witness :
  exists w w',
    get_worst_status (F:=Fq) (map VStr ["OL"; "OB"; "ol chrg"]) = Ok (VStr w) /\
    get_worst_status (F:=Fq) (map VStr ["ol chrg"; "OB"; "OL"; "OB"]) = Ok (VStr w') /\
    priority_of_text w = priority_of_text w'.
Proof.
  destruct (@worst_status_order_independent Fq _
              ["OL"; "OB"; "ol chrg"] ["ol chrg"; "OB"; "OL"; "OB"])
    as (w & w' & R & R' & _ & _ & E & _).
  - discriminate.
  - intros x. simpl. intuition.
  - exists w, w'. auto.
Defined.

Lemma discharging_device_counts_online_witness :
  Str.contains "OB DISCHRG" (normalized " ob dischrg") = true /\
  priority_of_text " ob dischrg" = 7 /\
  is_online (F:=Fq) (VStr " ob dischrg") = Ok true.
Proof.
  assert (H : Str.contains "OB DISCHRG" (normalized " ob dischrg") = true)
    by reflexivity.
  split; [exact H|]. split; [reflexivity|].
  exact (proj2 (discharging_device_counts_online (F:=Fq) " ob dischrg" H)).
Defined.

End StatusRuns.

(* ===================================================================== *)
(** * Further properties of the composite aggregate *)
(* ===================================================================== *)

Section AggregateProperties.
Context {F : Type} {FO : FloatOps F}.
Import Aggregator Spec.
Local Open Scope outcome_scope.

Abbreviation reading := (dict (value F)).

Lemma is_online_counted (d : reading) :
  status_ok d -> is_online (status_of d) = Ok (counted_online d).
Proof.
  unfold status_ok, readable, is_online, counted_online. intros [E|[s E]].
  - rewrite E. destruct (status_of d); try reflexivity.
    simpl in E. apply negb_false_iff, String.eqb_eq in E. subst. reflexivity.
  - rewrite E. simpl. destruct (String.eqb_spec s ""); [subst|]; reflexivity.
Qed.

Lemma is_online_unreadable (v : value F) :
  ~ readable v -> is_online v = Raise AttributeError.
Proof.
  unfold readable, is_online. intros N.
  destruct (truthy v) eqn:T; [|exfalso; auto].
  destruct v; try reflexivity. exfalso. apply N. right. eauto.
Qed.

Lemma is_online_raises (v : value F) (e : exn) :
  is_online v = Raise e -> e = AttributeError.
Proof.
  unfold is_online. destruct (truthy v); [|discriminate].
  destruct v; try discriminate; intros E; injection E as <-; reflexivity.
Qed.

Lemma accumulate_status (t : totals) (d : reading) (b : bool) :
  is_online (status_of d) = Ok b ->
  exists t',
    accumulate t d = Ok t' /\
    statuses t' = (statuses t ++ [status_of d])%list /\
    online_count t' = if b then online_count t + 1 else online_count t.
Proof.
  intros O. unfold accumulate. rewrite O. cbn [obind].
  eexists. split; [reflexivity|]. split; reflexivity.
Qed.

Lemma accumulate_all_online (devices : list reading) :
  Forall status_ok devices ->
  forall t t',
    accumulate_all devices t = Ok t' ->
    online_count t' =
    online_count t + Z.of_nat (List.length (filter counted_online devices)).
Proof.
  induction 1 as [|d devices Hd _ IH]; intros t t' E.
  - simpl in E. injection E as <-. simpl. lia.
  - cbn [accumulate_all] in E.
    destruct (accumulate_status t d (is_online_counted Hd)) as (t1 & A & _ & O).
    rewrite A in E. cbn [obind] in E. apply IH in E. rewrite E, O.
    cbn [filter]. destruct (counted_online d); cbn [List.length]; lia.
Qed.

Lemma accumulate_all_unreadable (devices : list reading) :
  Exists (fun d => ~ status_ok d) devices ->
  forall t, accumulate_all devices t = Raise AttributeError.
Proof.
  induction 1 as [d devices Hd|d devices _ IH]; intros t; cbn [accumulate_all].
  - unfold accumulate. rewrite (is_online_unreadable Hd). reflexivity.
  - destruct (is_online (status_of d)) as [b|e] eqn:O.
    + destruct (accumulate_status t d O) as (t1 & -> & _). cbn [obind]. apply IH.
    + unfold accumulate. rewrite O. apply is_online_raises in O. subst e.
      reflexivity.
Qed.

Lemma filter_complement {A} (f : A -> bool) (l : list A) :
  (List.length (filter f l) + List.length (filter (fun x => negb (f x)) l)
   = List.length l)%nat.
Proof.
  induction l as [|x l IH]; simpl; [reflexivity|].
  destruct (f x); simpl; lia.
Qed.

(** X5: for a non-empty input with readable statuses the aggregate counts
    every device, counts as online the devices whose status, in upper
    case, contains OL or CHRG, and counts the others as offline; the three
    counts add up. *)
Theorem device_counts (all_ups_data : list (Z * reading)) :
  all_ups_data <> [] ->
  Forall status_ok (Dict.values all_ups_data) ->
  let devices := Dict.values all_ups_data in
  let online := Z.of_nat (List.length (filter counted_online devices)) in
  let offline :=
    Z.of_nat (List.length (filter (fun d => negb (counted_online d)) devices)) in
  exists r,
    aggregate_ups_data all_ups_data = Ok r /\
    dget r "ups_count" = Some (VInt (Z.of_nat (List.length all_ups_data))) /\
    dget r "ups_online_count" = Some (VInt online) /\
    dget r "ups_offline_count" = Some (VInt offline) /\
    online + offline = Z.of_nat (List.length all_ups_data).
Proof.
  intros NE OK devices online offline.
  destruct (aggregate_nonempty NE OK) as (t & worst & R & _ & A).
  pose proof (accumulate_all_online OK _ R) as O. fold devices in O.
  cbn [totals0 online_count] in O.
  pose proof (filter_complement counted_online devices) as C.
  assert (L : List.length devices = List.length all_ups_data)
    by apply length_map.
  eexists. split; [exact A|].
  unfold aggregated. cbn [Dict.get String.eqb Ascii.eqb Bool.eqb].
  fold devices. rewrite O, L.
  repeat split; try (f_equal; f_equal); unfold online, offline; lia.
Qed.

Lemma aggregate_unreadable (all_ups_data : list (Z * reading)) :
  Exists (fun d => ~ status_ok d) (Dict.values all_ups_data) ->
  aggregate_ups_data all_ups_data = Raise AttributeError.
Proof.
  intros X. unfold aggregate_ups_data.
  destruct (Dict.values all_ups_data) as [|d devices] eqn:V.
  - inversion X.
  - cbn [is_nil]. rewrite (accumulate_all_unreadable X). reflexivity.
Qed.

(** What the aggregator returns is never the empty dictionary. *)
Lemma aggregate_result_nonempty (all_ups_data : list (Z * reading)) r :
  aggregate_ups_data all_ups_data = Ok r -> is_nil r = false.
Proof.
  unfold aggregate_ups_data. destruct (is_nil (Dict.values all_ups_data)).
  - intros E. injection E as <-. reflexivity.
  - destruct (accumulate_all _ _) as [t|e]; cbn [obind]; [|discriminate].
    destruct (get_worst_status _) as [worst|e]; cbn [obind]; [|discriminate].
    intros E. injection E as <-. reflexivity.
Qed.

(** X6: when the status of some device is neither a string nor a false
    value, the aggregation raises AttributeError (the value has no
    [upper]), whatever the other devices report. *)
Theorem unreadable_status_raises (all_ups_data : list (Z * reading)) :
  Exists (fun d => ~ status_ok d) (Dict.values all_ups_data) ->
  aggregate_ups_data all_ups_data = Raise AttributeError.
Proof. exact (@aggregate_unreadable all_ups_data). Qed.

(** *** A device that could not be read *)

Lemma failure_status_facts (s : string) :
  In s Data.failure_statuses ->
  priority_of_text s = 0 /\ is_online (F:=F) (VStr s) = Ok false.
Proof.
  intros I. simpl in I.
  repeat (destruct I as [I|I]; [subst s; split; reflexivity|]).
  contradiction.
Qed.

Lemma worst_loop_snoc (s : string) (rest : list (value F)) :
  priority_of_text s = 0 ->
  forall ws wp, 0 <= wp ->
    worst_loop (rest ++ [VStr s]) ws wp = worst_loop rest ws wp.
Proof.
  intros Z0. induction rest as [|v rest IH]; intros ws wp Hwp;
    cbn [app worst_loop].
  - rewrite get_status_priority_text, Z0. cbn [obind].
    destruct (Z.ltb_spec wp 0); [lia|reflexivity].
  - destruct (get_status_priority v) as [p|e] eqn:G; cbn [obind]; [|reflexivity].
    apply get_status_priority_bounds in G.
    destruct (wp <? p); apply IH; lia.
Qed.

Lemma get_worst_status_snoc (s : string) (statuses : list (value F)) :
  priority_of_text s = 0 -> statuses <> [] ->
  get_worst_status (statuses ++ [VStr s]) = get_worst_status statuses.
Proof.
  intros Z0 NE. destruct statuses as [|v rest]; [congruence|].
  cbn [app get_worst_status].
  destruct (get_status_priority v) as [p|e] eqn:G; cbn [obind]; [|reflexivity].
  apply get_status_priority_bounds in G. apply worst_loop_snoc; [exact Z0|lia].
Qed.

(** X7: a device that could not be read (its reading is the one the
    collectors build on a failure, with one of the statuses NOCOMM, ERROR,
    NO_DATA, TIMEOUT) has the least severity and is not online: listed
    after devices that were read, it leaves the composite status and the
    online count as they are, and adds one to the device count. *)
Theorem failed_device_is_hidden (all_ups_data : list (Z * reading))
  (ups_id : Z) (ups_name friendly_name : value F) (status error_msg : string)
  (failed : reading) :
  In status Data.failure_statuses ->
  failed = Data.failure_reading status error_msg \/
  failed =
    Data.device_failure_reading ups_id ups_name friendly_name status error_msg ->
  all_ups_data <> [] ->
  Forall status_ok (Dict.values all_ups_data) ->
  exists r r',
    aggregate_ups_data all_ups_data = Ok r /\
    aggregate_ups_data (all_ups_data ++ [(ups_id, failed)])%list = Ok r' /\
    dget r' "ups_status" = dget r "ups_status" /\
    dget r' "ups_online_count" = dget r "ups_online_count" /\
    dget r "ups_count" = Some (VInt (Z.of_nat (List.length all_ups_data))) /\
    dget r' "ups_count" = Some (VInt (Z.of_nat (List.length all_ups_data) + 1)).
Proof.
  intros FS KIND NE OK.
  destruct (failure_status_facts FS) as [Z0 OFF].
  assert (ST : status_of failed = VStr status)
    by (destruct KIND; subst failed; reflexivity).
  clear KIND.
  assert (OKF : status_ok failed).
  { unfold status_ok. rewrite ST. right. eauto. }
  assert (NE' : (all_ups_data ++ [(ups_id, failed)])%list <> []).
  { destruct all_ups_data; discriminate. }
  assert (V : Dict.values (all_ups_data ++ [(ups_id, failed)])%list =
              (Dict.values all_ups_data ++ [failed])%list).
  { unfold Dict.values. rewrite map_app. reflexivity. }
  assert (OK' : Forall status_ok
                  (Dict.values (all_ups_data ++ [(ups_id, failed)])%list)).
  { rewrite V. apply Forall_app. split; [exact OK|]. constructor; auto. }
  destruct (aggregate_nonempty NE OK) as (t & worst & R & W & A).
  destruct (aggregate_nonempty NE' OK') as (t' & worst' & R' & W' & A').
  destruct (accumulate_all_totals OK totals0) as (t0 & R0 & S & _).
  rewrite R in R0. injection R0 as <-.
  destruct (accumulate_all_totals OK' totals0) as (t0 & R0 & S' & _).
  rewrite R' in R0. injection R0 as <-.
  pose proof (accumulate_all_online OK _ R) as O.
  pose proof (accumulate_all_online OK' _ R') as O'.
  rewrite V in S', O'. rewrite map_app in S'. cbn [map] in S'.
  rewrite ST in S'. cbn [totals0 statuses app] in S, S'.
  rewrite filter_app in O'. cbn [filter] in O'.
  assert (CO : counted_online failed = false).
  { pose proof (is_online_counted OKF) as X. rewrite ST, OFF in X.
    injection X as <-. reflexivity. }
  rewrite CO, app_nil_r in O'.
  assert (WW : worst' = worst).
  { rewrite S', get_worst_status_snoc in W'.
    - rewrite <- S in W'. congruence.
    - exact Z0.
    - destruct all_ups_data; [congruence|discriminate]. }
  subst worst'.
  exists (aggregated t worst
            (Z.of_nat (List.length (Dict.values all_ups_data)))),
         (aggregated t' worst
            (Z.of_nat (List.length
               (Dict.values (all_ups_data ++ [(ups_id, failed)])%list)))).
  split; [exact A|]. split; [exact A'|].
  unfold aggregated. cbn [Dict.get String.eqb Ascii.eqb Bool.eqb].
  rewrite O, O'. unfold Dict.values. rewrite !length_map, length_app.
  cbn [List.length]. repeat split. f_equal. f_equal. lia.
Qed.

(** *** The aggregate with its device summaries *)

Lemma summary_powers_reported (all_ups_data : list (Z * reading)) :
  summary_powers (map (fun kv => device_summary (fst kv) (snd kv)) all_ups_data) =
  reported "ups_realpower" "ups.realpower" (Dict.values all_ups_data).
Proof.
  unfold summary_powers, reported, Dict.values.
  induction all_ups_data as [|kv rest IH]; [reflexivity|].
  cbn [map flat_map]. rewrite IH. reflexivity.
Qed.

(** X8: for a non-empty input with readable statuses, the detailed
    aggregation returns the aggregate of [aggregate_ups_data] together with
    one summary per device, in the order of the input and under its
    identifier; the device count of the aggregate is the number of
    summaries, and its real power is the sum of the real powers of the
    summaries, rounded to 2 decimals.  Where the aggregation raises, the
    detailed one raises the same. *)
Theorem details_agree_with_aggregate (all_ups_data : list (Z * reading)) :
  (forall e, aggregate_ups_data all_ups_data = Raise e ->
             aggregate_ups_data_with_details all_ups_data = Raise e) /\
  (all_ups_data <> [] ->
   Forall status_ok (Dict.values all_ups_data) ->
   exists agg devices,
     aggregate_ups_data_with_details all_ups_data = Ok (agg, devices) /\
     aggregate_ups_data all_ups_data = Ok agg /\
     map (fun s => dget s "ups_id") devices =
       map (fun kv => Some (VInt (fst kv))) all_ups_data /\
     dget agg "ups_count" = Some (VInt (Z.of_nat (List.length devices))) /\
     dget agg "ups_realpower" =
       Some (VFloat (py_round (fsum (summary_powers devices)) 2))).
Proof.
  split.
  - intros e E. unfold aggregate_ups_data_with_details. rewrite E. reflexivity.
  - intros NE OK.
    destruct (aggregate_nonempty NE OK) as (t & worst & R & _ & A).
    destruct (accumulate_all_totals OK totals0) as (t0 & R0 & _ & P & _).
    rewrite R in R0. injection R0 as <-.
    unfold aggregate_ups_data_with_details. rewrite A. cbn [obind].
    eexists _, _. split; [reflexivity|]. split; [reflexivity|].
    split; [|split].
    + rewrite map_map. reflexivity.
    + unfold aggregated. cbn [Dict.get String.eqb Ascii.eqb Bool.eqb].
      unfold Dict.values. rewrite !length_map. reflexivity.
    + unfold aggregated. cbn [Dict.get String.eqb Ascii.eqb Bool.eqb].
      rewrite summary_powers_reported, P. reflexivity.
Qed.

End AggregateProperties.

Section AggregatePropertiesRuns.
Import Aggregator Spec Runs.

Lemma device_counts_witness :
  three_devices <> [] /\
  Forall status_ok (Dict.values three_devices) /\
  exists r,
    aggregate_ups_data three_devices = Ok r /\
    dget r "ups_count" = Some (VInt 3) /\
    dget r "ups_online_count" = Some (VInt 2) /\
    dget r "ups_offline_count" = Some (VInt 1).
Proof.
  assert (NE : three_devices <> []) by discriminate.
  split; [exact NE|]. split; [exact three_devices_readable|].
  destruct (device_counts NE three_devices_readable)
    as (r & A & C & O & O' & _).
  exists r. split; [exact A|]. rewrite C, O, O'. repeat split.
Defined.

Lemma unreadable_status_raises_witness :
  let all := [(1, device "OL" (FloatQ.dec 1000 1) 40 300);
              (2, [("ups_status", VInt 1)])] in
  Exists (fun d => ~ status_ok d) (Dict.values all) /\
  aggregate_ups_data all = Raise AttributeError.
Proof.
  intros all.
  assert (X : Exists (fun d => ~ status_ok d) (Dict.values all)).
  { apply Exists_cons_tl, Exists_cons_hd.
    intros [T|[s E]]; [discriminate T|discriminate E]. }
  split; [exact X|]. exact (unreadable_status_raises all X).
Defined.

Lemma failed_device_is_hidden_witness :
  let failed :=
    Data.device_failure_reading 4 (VStr "rack") (VStr "Rack") "TIMEOUT" "timed out" in
  In "TIMEOUT" Data.failure_statuses /\
  exists r r',
    aggregate_ups_data three_devices = Ok r /\
    aggregate_ups_data (three_devices ++ [(4, failed)])%list = Ok r' /\
    dget r' "ups_status" = Some (VStr "OB") /\
    dget r' "ups_online_count" = Some (VInt 2) /\
    dget r' "ups_count" = Some (VInt 4).
Proof.
  intros failed.
  assert (I : In "TIMEOUT" Data.failure_statuses) by (simpl; auto).
  assert (NE : three_devices <> []) by discriminate.
  split; [exact I|].
  destruct (@failed_device_is_hidden _ _ three_devices 4 (VStr "rack")
              (VStr "Rack") "TIMEOUT" "timed out" failed I
              (or_intror eq_refl) NE three_devices_readable)
    as (r & r' & A & A' & S & O & _ & C).
  exists r, r'. split; [exact A|]. split; [exact A'|].
  rewrite S, O, C. vm_compute in A. injection A as <-. repeat split.
Defined.

Lemma details_agree_with_aggregate_witness :
  exists agg devices,
    aggregate_ups_data_with_details three_devices = Ok (agg, devices) /\
    List.length devices = 3%nat /\
    dget agg "ups_realpower" = Some (VFloat (FloatQ.dec 1505 1)).
Proof.
  assert (NE : three_devices <> []) by discriminate.
  destruct (proj2 (details_agree_with_aggregate three_devices) NE
              three_devices_readable)
    as (agg & devices & D & _ & I & _ & P).
  exists agg, devices. split; [exact D|]. split.
  - apply (f_equal (@List.length _)) in I. rewrite !length_map in I. exact I.
  - rewrite P. vm_compute in D. injection D as _ <-. vm_compute. reflexivity.
Defined.

End AggregatePropertiesRuns.

(* ===================================================================== *)
(** * The collector and the normalisation of keys *)
(* ===================================================================== *)

Section CollectorProperties.
Context {F : Type} {FO : FloatOps F}.
Import Cache Spec Data.

Abbreviation reading := (dict (value F)).

Lemma split_colon_at (key rest : string) :
  Str.mem ":" key = false ->
  split_colon (key ++ String ":" rest) = Some (key, rest).
Proof.
  induction key as [|c key IH]; simpl; intros H; [reflexivity|].
  apply orb_false_iff in H as [H1 H2]. rewrite H1, IH by assumption.
  reflexivity.
Qed.

Lemma split_colon_none (line : string) :
  Str.mem ":" line = false -> split_colon line = None.
Proof.
  induction line as [|c line IH]; simpl; intros H; [reflexivity|].
  apply orb_false_iff in H as [H1 H2]. rewrite H1, IH by assumption.
  reflexivity.
Qed.

Lemma parse_output_snoc (lines : list string) (line : string) :
  parse_output (lines ++ [line]) =
  match split_colon line with
  | Some (key, value) =>
      dset (parse_output lines) (Str.strip key) (Str.strip value)
  | None => parse_output lines
  end.
Proof. unfold parse_output. rewrite fold_left_app. reflexivity. Qed.

(** X9: a line [key: value] of the output of [upsc] binds the key to the
    value, in place of an earlier binding of the key and leaving the other
    keys as they are; a line without a colon is skipped.  (The key holds
    no colon, and neither text starts or ends with a blank.) *)
Theorem parse_output_binds (lines : list string) (key value : string) :
  Str.mem ":" key = false ->
  Str.strip key = key ->
  Str.strip value = value ->
  let raw := parse_output (lines ++ [key ++ ": " ++ value]) in
  dget raw key = Some value /\
  (forall k, k <> key -> dget raw k = dget (parse_output lines) k) /\
  (forall line, Str.mem ":" line = false ->
                parse_output (lines ++ [line]) = parse_output lines).
Proof.
  intros C SK SV raw.
  assert (E : raw = dset (parse_output lines) key value).
  { unfold raw. rewrite parse_output_snoc.
    change (": " ++ value)%string with (String ":" (String " " value)).
    rewrite split_colon_at by exact C. rewrite SK.
    replace (Str.strip (String " " value)) with (Str.strip value) by reflexivity.
    rewrite SV. reflexivity. }
  rewrite E. split; [apply dget_set_eq|]. split.
  - intros k N. now apply dget_set_neq.
  - intros line N. rewrite parse_output_snoc, split_colon_none by exact N.
    reflexivity.
Qed.

(** *** Canonical keys *)

Lemma mem_replace (s : string) : Str.mem "." (Str.replace "." "_" s) = false.
Proof.
  induction s as [|c s IH]; [reflexivity|].
  cbn [Str.replace Str.mem]. rewrite IH.
  destruct (Ascii.eqb c ".") eqn:E; [reflexivity|]. rewrite E. reflexivity.
Qed.

Lemma dset_no_dot (d : reading) k v :
  Forall no_dot (Dict.keys d) -> no_dot k -> Forall no_dot (Dict.keys (dset d k v)).
Proof.
  intros H K. rewrite dset_keys. destruct (dmem d k); [exact H|].
  apply Forall_app. split; [exact H|]. constructor; [exact K|constructor].
Qed.

Lemma dset_fresh (d : reading) k v :
  ~ In k (Dict.keys d) -> dset d k v = (d ++ [(k, v)])%list.
Proof.
  unfold Dict.keys. induction d as [|[a b] d IH]; simpl; intros N; [reflexivity|].
  destruct (String.eqb_spec k a) as [->|_]; [tauto|].
  rewrite IH by tauto. reflexivity.
Qed.

Lemma dset_length (d : reading) k v :
  (List.length (dset d k v) <= S (List.length d))%nat.
Proof.
  induction d as [|[a b] d IH]; simpl; [lia|].
  destruct (String.eqb k a); simpl; lia.
Qed.

(** On a dictionary whose keys hold no dot, the normalisation changes
    nothing. *)
Lemma format_keys_fixed (d : reading) :
  NoDup (Dict.keys d) -> Forall no_dot (Dict.keys d) -> format_keys d = d.
Proof.
  unfold format_keys.
  assert (G : forall acc : reading,
             NoDup (Dict.keys (acc ++ d)%list) -> Forall no_dot (Dict.keys d) ->
             fold_left
               (fun formatted_data kv =>
                  dset formatted_data (Str.replace "." "_" (fst kv)) (snd kv))
               d acc = (acc ++ d)%list).
  { induction d as [|[k v] d IH]; intros acc ND H; simpl.
    - now rewrite app_nil_r.
    - inversion H as [|? ? K H']; subst. simpl in K.
      rewrite replace_absent by exact K.
      unfold Dict.keys in ND. rewrite map_app in ND. simpl in ND.
      rewrite dset_fresh.
      + rewrite IH; [now rewrite <- app_assoc| |exact H'].
        unfold Dict.keys. rewrite <- app_assoc, map_app. exact ND.
      + apply NoDup_remove_2 in ND. intros I. apply ND.
        apply in_or_app. auto. }
  intros ND H. apply (G []); assumption.
Qed.

Lemma format_keys_no_dot (d : reading) :
  Forall no_dot (Dict.keys (format_keys d)).
Proof.
  unfold format_keys.
  assert (G : forall acc : reading,
             Forall no_dot (Dict.keys acc) ->
             Forall no_dot
               (Dict.keys
                  (fold_left
                     (fun formatted_data kv =>
                        dset formatted_data (Str.replace "." "_" (fst kv))
                          (snd kv)) d acc))).
  { induction d as [|kv d IH]; intros acc H; simpl; [exact H|].
    apply IH. apply dset_no_dot; [exact H|apply mem_replace]. }
  apply G. constructor.
Qed.

Lemma format_keys_length (d : reading) :
  (List.length (format_keys d) <= List.length d)%nat.
Proof.
  unfold format_keys.
  assert (G : forall acc : reading,
             (List.length
                (fold_left
                   (fun formatted_data kv =>
                      dset formatted_data (Str.replace "." "_" (fst kv))
                        (snd kv)) d acc)
              <= List.length acc + List.length d)%nat).
  { induction d as [|kv d IH]; intros acc; simpl; [lia|].
    specialize (IH (dset acc (Str.replace "." "_" (fst kv)) (snd kv))).
    pose proof (dset_length acc (Str.replace "." "_" (fst kv)) (snd kv)).
    lia. }
  apply (G []).
Qed.

Lemma transform_canonical (raw_data : dict string) :
  NoDup (Dict.keys (transform raw_data)) /\
  Forall no_dot (Dict.keys (transform raw_data)).
Proof.
  unfold transform.
  assert (G : forall acc : reading,
             NoDup (Dict.keys acc) /\ Forall no_dot (Dict.keys acc) ->
             let r :=
               fold_left
                 (fun transformed_data kv =>
                    let db_key := Str.replace "." "_" (fst kv) in
                    match parse_float (snd kv) with
                    | Some float_value =>
                        dset transformed_data db_key (VFloat float_value)
                    | None => dset transformed_data db_key (VStr (snd kv))
                    end) raw_data acc in
             NoDup (Dict.keys r) /\ Forall no_dot (Dict.keys r)).
  { induction raw_data as [|kv raw IH]; intros acc [ND H]; simpl; [auto|].
    apply IH. destruct (parse_float (snd kv)); split;
      try (now apply dset_nodup); apply dset_no_dot; auto; apply mem_replace. }
  apply G. split; constructor.
Qed.

(** X10: the reading the collector builds from the output of [upsc] has
    distinct keys without dots, so the normalisation of the cache leaves
    it as it is, and [add] buffers exactly that reading. *)
Theorem collector_keys_canonical (raw_data : dict string) :
  let d := transform raw_data in
  NoDup (Dict.keys d) /\
  Forall no_dot (Dict.keys d) /\
  format_keys d = d /\
  forall ts (w : @world F),
    data (cache (snd (add ts d w))) = (data (cache w) ++ [(ts, d)])%list.
Proof.
  intros d. destruct (transform_canonical raw_data) as [ND H]. fold d in ND, H.
  split; [exact ND|]. split; [exact H|].
  assert (E : format_keys d = d) by now apply format_keys_fixed.
  split; [exact E|].
  intros ts w. rewrite add_buffer, E. reflexivity.
Qed.

(** X11: normalising the keys of a reading twice is the same as doing it
    once; the normalised reading has distinct keys without dots and no
    more fields than the reading. *)
Theorem format_keys_idempotent (d : reading) :
  format_keys (format_keys d) = format_keys d /\
  NoDup (Dict.keys (format_keys d)) /\
  Forall no_dot (Dict.keys (format_keys d)) /\
  (List.length (format_keys d) <= List.length d)%nat.
Proof.
  split; [|split; [|split]].
  - apply format_keys_fixed; [apply format_keys_nodup|apply format_keys_no_dot].
  - apply format_keys_nodup.
  - apply format_keys_no_dot.
  - apply format_keys_length.
Qed.

Lemma dget_app (a b : reading) k :
  dget (a ++ b) k = match dget a k with Some v => Some v | None => dget b k end.
Proof.
  induction a as [|[x y] a IH]; simpl; [reflexivity|].
  destruct (String.eqb k x); auto.
Qed.

Lemma dget_absent (d : reading) k : ~ In k (Dict.keys d) -> dget d k = None.
Proof.
  intros N. destruct (dget d k) eqn:E; [|reflexivity].
  exfalso. apply N. eapply dget_some_in. exact E.
Qed.

(** X12: when several keys of a reading have the same canonical key, the
    normalised reading holds the value of the last of them. *)
Theorem format_keys_last_wins (d1 d2 : reading) (k : string) (v : value F) :
  (forall k', In k' (Dict.keys d2) -> canonical_key k' <> canonical_key k) ->
  dget (format_keys (d1 ++ (k, v) :: d2)%list) (canonical_key k) = Some v.
Proof.
  intros LAST. unfold format_keys.
  rewrite format_keys_assignments, dget_assignments.
  rewrite map_app. cbn [map fst snd]. rewrite rev_app_distr. cbn [rev].
  rewrite <- app_assoc, dget_app, dget_absent.
  - cbn [app Dict.get]. now rewrite String.eqb_refl.
  - unfold Dict.keys. rewrite map_rev, map_map. cbn [fst].
    intros I. apply in_rev, in_map_iff in I as ([k' v'] & E & I).
    apply (LAST k'); [|exact E].
    unfold Dict.keys. apply in_map_iff. exists (k', v'). auto.
Qed.

End CollectorProperties.

Section CollectorRuns.
Import Cache Spec Data Runs.

Lemma parse_output_binds_witness :
  Str.mem ":" "ups.status" = false /\
  let raw := parse_output ["battery.charge: 100"; "ups.status: OL";
                           "ups.status: OB DISCHRG"] in
  dget raw "ups.status" = Some "OB DISCHRG" /\
  dget raw "battery.charge" = Some "100".
Proof.
  assert (C : Str.mem ":" "ups.status" = false) by reflexivity.
  split; [exact C|]. intros raw.
  destruct (@parse_output_binds ["battery.charge: 100"; "ups.status: OL"]
              "ups.status" "OB DISCHRG" C eq_refl eq_refl) as (B & O & _).
  split; [exact B|].
  change (dget raw "battery.charge")
    with (dget (parse_output
                  (["battery.charge: 100"; "ups.status: OL"]
                   ++ ["ups.status" ++ ": " ++ "OB DISCHRG"])) "battery.charge").
  rewrite O by discriminate. reflexivity.
Defined.

Lemma format_keys_last_wins_witness :
  let d1 : dict (value Fq) := [("ups.load", VInt 1)] in
  let d2 : dict (value Fq) := [("ups.status", VStr "OL")] in
  dget (format_keys (d1 ++ ("ups_load", VInt 2) :: d2)%list) "ups_load" =
    Some (VInt 2).
Proof.
  intros d1 d2.
  apply (format_keys_last_wins d1 d2 "ups_load" (VInt 2)).
  intros k' [<-|[]]. discriminate.
Defined.

Example collector_reading :
  transform (F:=Fq) [("ups.status", "OL"); ("battery.charge", "100")] =
  [("ups_status", VStr "OL"); ("battery_charge", VFloat (FloatQ.dec 100 0))].
Proof. vm_compute. reflexivity. Qed.

End CollectorRuns.

(* ===================================================================== *)
(** * What a computation of the cache leaves alone *)
(* ===================================================================== *)

Section Frames.
Context {F : Type} {FO : FloatOps F}.
Import Cache Spec.

Variable P : @world F -> Prop.

Lemma keeps_bind {A B} (m : Py A) (k : A -> Py B) :
  keeps P m -> (forall a, keeps P (k a)) -> keeps P (bind m k).
Proof.
  intros Hm Hk w H. unfold bind. specialize (Hm w H).
  destruct (m w) as [[a|e] w1]; simpl in *; [now apply Hk|exact Hm].
Qed.

Lemma keeps_try {A} (m : Py A) (handler : exn -> Py A) :
  keeps P m -> (forall e, keeps P (handler e)) -> keeps P (try_except m handler).
Proof.
  intros Hm Hh w H. unfold try_except. specialize (Hm w H).
  destruct (m w) as [[a|e] w1]; simpl in *; [exact Hm|now apply Hh].
Qed.

Lemma keeps_ret {A} (a : A) : keeps P (ret a).
Proof. intros w H. exact H. Qed.

Lemma keeps_raise {A} (e : exn) : keeps P (raise (A:=A) e).
Proof. intros w H. exact H. Qed.

Lemma keeps_lift {A} (o : outcome A) : keeps P (lift o).
Proof. intros w H. exact H. Qed.

Lemma keeps_get_cache : keeps P get_cache.
Proof. intros w H. exact H. Qed.

Lemma keeps_ask {A} (f : world -> A) : keeps P (ask f).
Proof. intros w H. exact H. Qed.

End Frames.

(** A primitive that does not touch what the property reads. *)
Ltac untouched :=
  let w := fresh "w" in
  let H := fresh "H" in
  match goal with
  | |- Spec.keeps _ (Cache.modify _) => intros w H; exact H
  | |- Spec.keeps _ Cache.now => intros w H; exact H
  | |- Spec.keeps _ (Cache.emit _) => intros w H; exact H
  | |- Spec.keeps _ Cache.library_call =>
      intros w H; unfold Cache.library_call;
      destruct (Cache.faults w (Cache.calls w)); exact H
  | |- Spec.keeps _ (fun _ => _) => intros w H; exact H
  end.

(** Going through a computation: the combinators by their lemmas, a
    branch by cases, a call by its definition, and what is left by
    [leaf]. *)
Ltac keeps_with leaf :=
  repeat first
    [ apply keeps_ret | apply keeps_raise | apply keeps_lift
    | apply keeps_get_cache | apply keeps_ask
    | match goal with
      | |- Spec.keeps _ (Cache.bind _ _) => apply keeps_bind; [|intros ?]
      | |- Spec.keeps _ (Cache.try_except _ _) => apply keeps_try; [|intros ?]
      | |- Spec.keeps _ (match ?x with _ => _ end) => destruct x; cbv beta iota
      | |- Spec.keeps _ (let _ := _ in _) => cbv zeta
      end
    | leaf tt
    | match goal with
      | |- Spec.keeps _ (Cache.add _ _) => unfold Cache.add
      | |- Spec.keeps _ (Cache.add_multi_ups _ _) => unfold Cache.add_multi_ups
      | |- Spec.keeps _ (Cache.init_next_save_time _) =>
          unfold Cache.init_next_save_time
      | |- Spec.keeps _ (Cache.broadcast_cache_update _) =>
          unfold Cache.broadcast_cache_update
      | |- Spec.keeps _ (Cache.broadcast_multi_ups_update _ _) =>
          unfold Cache.broadcast_multi_ups_update
      | |- Spec.keeps _ (Cache.get_next_minute _) => unfold Cache.get_next_minute
      | |- Spec.keeps _ (Cache.get_next_hour _) => unfold Cache.get_next_hour
      | |- Spec.keeps _ (Cache.is_save_time _) => unfold Cache.is_save_time
      | |- Spec.keeps _ Cache.calculate_averages => unfold Cache.calculate_averages
      | |- Spec.keeps _ (Cache.calculate_and_save_averages _) =>
          unfold Cache.calculate_and_save_averages
      | |- Spec.keeps _ (Cache.save_body _) => unfold Cache.save_body
      | |- Spec.keeps _ (Cache.persist _ _ _) => unfold Cache.persist
      | |- Spec.keeps _ (Cache.hourly_step _ _ _ _) => unfold Cache.hourly_step
      | |- Spec.keeps _ (Cache.query_between _ _) => unfold Cache.query_between
      | |- Spec.keeps _ (Cache.finish_save _) => unfold Cache.finish_save
      | |- Spec.keeps _ (Cache.should_aggregate_daily _) =>
          unfold Cache.should_aggregate_daily
      | |- Spec.keeps _ (Cache.aggregate_daily_data _) =>
          unfold Cache.aggregate_daily_data
      | |- Spec.keeps _ (Cache.session_add_commit _) =>
          unfold Cache.session_add_commit
      | |- Spec.keeps _ (Cache.save_ups_data _) => unfold Cache.save_ups_data
      end ].

(** Reading a field of a state that was built by assignments. *)
Ltac fields :=
  cbn [fst snd Cache.cache Cache.clock Cache.ticks Cache.faults Cache.calls
       Cache.model_attrs Cache.table Cache.isoformat Cache.emitted
       Cache.with_cache Cache.tick Cache.called Cache.stored Cache.sent
       Cache.size Cache.data Cache.df Cache.per_ups_data Cache.per_ups_df
       Cache.aggregated_data Cache.aggregated_df Cache.next_save_time
       Cache.next_hour Cache.hourly_data Cache.last_daily_aggregation
       Cache.last_broadcast Cache.last_broadcast_aggregated
       Cache.last_broadcast_per_ups
       Cache.set_size Cache.set_data Cache.set_df Cache.set_per_ups
       Cache.set_aggregated Cache.set_next_save_time Cache.set_next_hour
       Cache.set_hourly_data Cache.set_last_daily_aggregation
       Cache.set_last_broadcast Cache.set_last_broadcast_multi
       Cache.append_data Cache.rebuild_df Cache.append_hourly] in *.


(** The primitives of a computation, unfolded. *)
Ltac py_unfold :=
  unfold Cache.bind, Cache.ret, Cache.try_except, Cache.raise, Cache.lift,
    Cache.get_cache, Cache.modify, Cache.now, Cache.library_call, Cache.ask,
    Cache.emit in *.

Section FrameFacts.
Context {F : Type} {FO : FloatOps F}.
Import Cache Spec.

Abbreviation reading := (dict (value F)).

(** Ingestion writes nothing to the database. *)
Lemma add_keeps_table ts (d : reading) (x : list reading) :
  keeps (fun w => table w = x) (add ts d).
Proof. keeps_with ltac:(fun _ => untouched). Qed.

Lemma add_multi_ups_keeps_table ts (all : list (Z * reading)) (x : list reading) :
  keeps (fun w => table w = x) (add_multi_ups ts all).
Proof. keeps_with ltac:(fun _ => untouched). Qed.

(** A rollup check sends no event and leaves the buffers of the
    multi-device path alone. *)
Lemma flush_keeps_emitted t (x : list event) :
  keeps (fun w : @world F => emitted w = x) (calculate_and_save_averages t).
Proof. keeps_with ltac:(fun _ => untouched). Qed.

Lemma flush_keeps_multi t (x : list (Z * buffer) * buffer) :
  keeps (fun w : @world F =>
           (per_ups_data (cache w), aggregated_data (cache w)) = x)
    (calculate_and_save_averages t).
Proof. keeps_with ltac:(fun _ => untouched). Qed.

Lemma flush_keeps_size t (x : Z) :
  keeps (fun w : @world F => size (cache w) = x) (calculate_and_save_averages t).
Proof. keeps_with ltac:(fun _ => untouched). Qed.

Lemma set_per_ups_same (c : cache_state (F:=F)) :
  set_per_ups (per_ups_data c) (per_ups_df c) c = c.
Proof. destruct c; reflexivity. Qed.

(** The loop over the devices assigns the per-device buffers only. *)
Lemma add_all_ups_shape ts (all : list (Z * reading)) (c : cache_state) :
  exists d f,
    fold_left (fun c kv => add_one_ups ts (fst kv) (snd kv) c) all c =
    set_per_ups d f c.
Proof.
  revert c. induction all as [|kv all IH]; intros c; simpl.
  - exists (per_ups_data c), (per_ups_df c). now rewrite set_per_ups_same.
  - destruct (IH (add_one_ups ts (fst kv) (snd kv) c)) as (d & f & ->).
    exists d, f. reflexivity.
Qed.

Lemma init_next_save_time_shape ts (w : @world F) :
  exists v n,
    init_next_save_time ts w =
    (Ok tt,
     Build_world (set_next_save_time (Some v) (cache w)) (clock w) n (faults w)
       (calls w) (model_attrs w) (table w) (isoformat w) (emitted w)) /\
    v = match next_save_time (cache w) with
        | Some s => s
        | None => floor_to MINUTE (clock w (ticks w)) + MINUTE
        end.
Proof.
  rewrite init_next_save_time_run.
  destruct (next_save_time (cache w)) as [s|] eqn:E.
  - exists s, (ticks w). split; [|reflexivity].
    f_equal. destruct w as [c ? ? ? ? ? ? ? ?]. simpl in *.
    destruct c; simpl in *. subst. reflexivity.
  - eexists _, _. split; reflexivity.
Qed.

(** [add], step by step. *)
Lemma add_run ts (d : reading) (w : @world F) :
  add ts d w =
  broadcast_cache_update (format_keys d)
    (with_cache (fun c => rebuild_df (append_data (ts, format_keys d) c))
       (snd (init_next_save_time ts w))).
Proof.
  unfold add, bind. rewrite init_next_save_time_run.
  destruct (next_save_time (cache w)); reflexivity.
Qed.

(** [add_multi_ups], step by step. *)
Lemma add_multi_ups_run ts (all : list (Z * reading)) (w : @world F) :
  let w1 :=
    with_cache
      (fun c => fold_left (fun c kv => add_one_ups ts (fst kv) (snd kv) c) all c)
      (snd (init_next_save_time ts w)) in
  add_multi_ups ts all w =
  match Aggregator.aggregate_ups_data all with
  | Ok agg =>
      broadcast_multi_ups_update agg all
        (with_cache
           (fun c =>
              set_aggregated (aggregated_data c ++ [(ts, agg)])%list
                (Some (rows_of (aggregated_data c ++ [(ts, agg)])%list)) c) w1)
  | Raise e => (Raise e, w1)
  end.
Proof.
  intros w1. unfold w1, add_multi_ups, bind. rewrite init_next_save_time_run.
  destruct (next_save_time (cache w));
    destruct (Aggregator.aggregate_ups_data all); reflexivity.
Qed.

End FrameFacts.

(** What a broadcast leaves, and what the loop over the devices assigns. *)
Ltac broadcast_frames :=
  match goal with
  | |- context [Cache.broadcast_cache_update ?x ?y] =>
      destruct (broadcast_cache_update_frame x y) as (?lb & ?n & ?e & ->)
  | |- context [Cache.broadcast_multi_ups_update ?x ?y ?z] =>
      destruct (broadcast_multi_ups_update_frame x y z)
        as (?la & ?lp & ?n & ?e & ->)
  end.

Ltac loop_shape :=
  match goal with
  | |- context [fold_left
                  (fun st kv => Cache.add_one_ups ?ts (fst kv) (snd kv) st)
                  ?all ?c0] =>
      destruct (add_all_ups_shape ts all c0) as (?d & ?f & ->)
  end.

Ltac loop_leaf :=
  match goal with
  | |- Spec.keeps _ (Cache.modify (fun st => fold_left _ _ st)) =>
      let w := fresh "w" in
      let H := fresh "H" in
      intros w H; unfold Cache.modify; cbn [snd Cache.with_cache Cache.cache];
      loop_shape; exact H
  end.

(* ===================================================================== *)
(** * Further properties of ingestion and publication *)
(* ===================================================================== *)

Section IngestionProperties.
Context {F : Type} {FO : FloatOps F}.
Import Cache Spec.

Abbreviation reading := (dict (value F)).

(** X13: ingesting a reading never raises; it appends exactly one entry,
    the reading with its keys normalised, to the sample buffer, whatever
    the capacity (a full buffer takes the entry as well), rebuilds the data
    frame from the buffer, and leaves the capacity, the buffers of the
    multi-device path and the stored rows as they are. *)
Theorem add_effect ts (d : reading) (w : @world F) :
  exists w',
    add ts d w = (Ok tt, w') /\
    get (cache w') = (get (cache w) ++ [(ts, format_keys d)])%list /\
    df (cache w') = Some (rows_of (get (cache w'))) /\
    size (cache w') = size (cache w) /\
    (is_full (cache w) = true -> is_full (cache w') = true) /\
    per_ups_data (cache w') = per_ups_data (cache w) /\
    aggregated_data (cache w') = aggregated_data (cache w) /\
    table w' = table w.
Proof.
  rewrite add_run.
  destruct (init_next_save_time_shape ts w) as (v & n & -> & _). cbn [snd].
  match goal with
  | |- context [broadcast_cache_update ?x ?y] =>
      destruct (broadcast_cache_update_frame x y) as (lb & n' & e & ->)
  end.
  eexists. split; [reflexivity|]. unfold get, is_full. cbn.
  repeat split.
  intros H. apply Z.leb_le in H. apply Z.leb_le.
  rewrite length_app. cbn [List.length]. lia.
Qed.


(** *** Empty readings *)

Lemma filter_nil {A} (f : A -> bool) (l : list A) :
  (forall x, In x l -> f x = false) -> filter f l = [].
Proof.
  induction l as [|x l IH]; intros H; simpl; [reflexivity|].
  rewrite (H x) by (simpl; auto). apply IH. intros y I. apply H. simpl. auto.
Qed.

Lemma rows_of_empty (b : @buffer F) :
  Forall (fun e => snd e = []) b ->
  rows_of b = map (fun e => [("timestamp", VTime (fst e))]) b.
Proof.
  unfold rows_of. induction 1 as [|e b He _ IH]; cbn [map]; [reflexivity|].
  f_equal; [|exact IH]. destruct e as [t0 d0]. simpl in He. subst d0.
  reflexivity.
Qed.

Lemma empty_rows_no_averages (b : @buffer F) :
  Forall (fun e => snd e = []) b ->
  dupdate (averages_of (rows_of b)) (last_values_of (rows_of b)) = [].
Proof.
  intros E. rewrite rows_of_empty by exact E. clear E.
  set (rows := map (fun e : Z * reading => [("timestamp", VTime (fst e))]) b).
  assert (C : forall c, In c (columns_of rows) -> c = "timestamp").
  { intros c I. unfold columns_of in I. apply columns_of_in in I as [[]|(row & I & J)].
    unfold rows in I. apply in_map_iff in I as (e & <- & _).
    simpl in J. destruct J as [<-|[]]. reflexivity. }
  assert (N : numeric_cols rows = []).
  { unfold numeric_cols. apply filter_nil. intros c I. rewrite (C c I).
    unfold rows in *. destruct b as [|e b]; [destruct I|reflexivity]. }
  assert (L : non_numeric_cols rows = []).
  { unfold non_numeric_cols. apply filter_nil. intros c I.
    apply filter_In in I as [I _]. rewrite (C c I). reflexivity. }
  unfold averages_of, last_values_of. rewrite N, L. reflexivity.
Qed.

Lemma save_body_no_averages t (w : @world F) (rows : dataframe) :
  df (cache w) = Some rows ->
  dupdate (averages_of rows) (last_values_of rows) = [] ->
  exists w', save_body t w = (Ok false, w').
Proof.
  intros DF EMPTY. unfold save_body, get_next_hour. py_unfold. simpl.
  destruct (next_hour (cache w)); simpl; rewrite is_save_time_run; simpl;
    (destruct (next_save_time (cache w)); simpl; [|eauto]);
    (destruct (_ <=? clock w _); simpl; [|eauto]);
    rewrite calculate_averages_run; simpl; rewrite DF;
    (destruct (is_nil rows); simpl; [eauto|]);
    (destruct (faults w (calls w)); simpl; [eauto|]);
    rewrite EMPTY; simpl; eauto.
Qed.

(** X14: an empty reading is buffered like any other, but nothing is
    published for it; and in a run, a rollup check that finds only empty
    readings in the buffer saves nothing and keeps the buffer. *)
Theorem empty_readings_are_kept ts t (w : @world F) :
  (let w' := snd (add ts [] w) in
   get (cache w') = (get (cache w) ++ [(ts, [])])%list /\
   emitted w' = emitted w /\
   get_latest_cache_data (cache w') = get_latest_cache_data (cache w)) /\
  (reachable w ->
   Forall (fun e => snd e = []) (get (cache w)) ->
   exists w',
     calculate_and_save_averages t w = (Ok false, w') /\
     same_buffer w w' /\ table w' = table w).
Proof.
  split.
  - rewrite add_run.
    destruct (init_next_save_time_shape ts w) as (v & n & -> & _).
    repeat split.
  - intros R E.
    destruct (flush_cases t w) as (b & w' & X & _ & _ & _ & FAIL & _).
    assert (B : b = false).
    { destruct (reachable_buffer R) as [_ [[D DF]|[D DF]]].
      - destruct (flush_cases t w) as (b0 & w0 & X0 & _ & _ & _ & _ & SUCC).
        rewrite X in X0. injection X0 as <- <-.
        destruct b; [|reflexivity].
        destruct (SUCC eq_refl)
          as (s & i & j & _ & _ & _ & _ & _ & (rows & DF' & _) & _).
        congruence.
      - pose proof (@empty_rows_no_averages (get (cache w)) E) as NA.
        destruct (@save_body_no_averages t w _ DF NA) as (w1 & S).
        unfold calculate_and_save_averages, try_except in X. rewrite S in X.
        injection X as <- _. reflexivity. }
    subst b. exists w'. split; [exact X|]. now apply FAIL.
Qed.


(** *** The multi-device path *)

(** X15: when the status of some device cannot be read as text, the
    multi-device ingestion raises AttributeError after it has appended the
    reading of every device to the buffer of that device: the aggregate
    buffer is as before, nothing is sent, nothing is stored, and the minute
    boundary is set. *)
Theorem add_multi_ups_partial_update ts (all : list (Z * reading))
  (w : @world F) :
  Exists (fun d => ~ status_ok d) (Dict.values all) ->
  exists w',
    add_multi_ups ts all w = (Raise AttributeError, w') /\
    (forall ups_id d,
       NoDup (Dict.keys all) ->
       Dict.get Z.eqb all ups_id = Some d ->
       exists earlier,
         Dict.get Z.eqb (per_ups_data (cache w')) ups_id =
         Some (earlier ++ [(ts, format_keys d)])%list) /\
    aggregated_data (cache w') = aggregated_data (cache w) /\
    aggregated_df (cache w') = aggregated_df (cache w) /\
    emitted w' = emitted w /\
    table w' = table w /\
    next_save_time (cache w') <> None.
Proof.
  intros X. rewrite add_multi_ups_run, aggregate_unreadable by exact X.
  eexists. split; [reflexivity|].
  destruct (init_next_save_time_shape ts w) as (v & n & -> & _). cbn.
  split.
  { intros ups_id d ND G. now apply add_all_ups_same. }
  destruct (add_all_ups_shape ts all (set_next_save_time (Some v) (cache w)))
    as (d & f & ->).
  cbn. repeat split. discriminate.
Qed.

(** X16: for a non-empty input with readable statuses, the multi-device
    ingestion returns, and appends the aggregate of the readings to the
    aggregate buffer, whose data frame it rebuilds; the sample buffer of the
    single-device path, its data frame and the stored rows are as before. *)
Theorem add_multi_ups_effect ts (all : list (Z * reading)) (w : @world F) :
  all <> [] ->
  Forall status_ok (Dict.values all) ->
  exists agg w',
    Aggregator.aggregate_ups_data all = Ok agg /\
    add_multi_ups ts all w = (Ok tt, w') /\
    aggregated_data (cache w') = (aggregated_data (cache w) ++ [(ts, agg)])%list /\
    aggregated_df (cache w') = Some (rows_of (aggregated_data (cache w'))) /\
    get (cache w') = get (cache w) /\
    df (cache w') = df (cache w) /\
    table w' = table w.
Proof.
  intros NE OK.
  destruct (aggregate_nonempty NE OK) as (t & worst & _ & _ & A).
  rewrite add_multi_ups_run, A.
  destruct (init_next_save_time_shape ts w) as (v & n & -> & _). cbn [snd].
  match goal with
  | |- context [broadcast_multi_ups_update ?x ?y ?z] =>
      destruct (broadcast_multi_ups_update_frame x y z)
        as (la & lp & n' & e & ->)
  end.
  eexists _, _. split; [reflexivity|]. split; [reflexivity|].
  unfold get. cbn.
  destruct (add_all_ups_shape ts all (set_next_save_time (Some v) (cache w)))
    as (d & f & ->).
  cbn. repeat split.
Qed.

(** *** The latest view *)

Lemma latest_snoc_single (events : list (@event F)) (v : reading) :
  latest_cache_update (events ++ [cache_update v]) = v.
Proof. unfold latest_cache_update. rewrite fold_left_app. reflexivity. Qed.

Lemma latest_snoc_multi (events : list (@event F)) a p n :
  latest_cache_update (events ++ [multi_ups_update a p n]) =
  latest_cache_update events.
Proof. unfold latest_cache_update. rewrite fold_left_app. reflexivity. Qed.

(** The view kept for new connections is the payload of the last
    single-device notification. *)
Lemma view_kept_step (w w' : @world F) :
  step w w' ->
  match last_broadcast (cache w) with
  | None => latest_cache_update (emitted w) = []
  | Some v => is_nil v = false /\ latest_cache_update (emitted w) = v
  end ->
  match last_broadcast (cache w') with
  | None => latest_cache_update (emitted w') = []
  | Some v => is_nil v = false /\ latest_cache_update (emitted w') = v
  end.
Proof.
  intros S J. destruct S as [ts d w | ts all w | t w].
  - rewrite add_run.
    destruct (init_next_save_time_shape ts w) as (v & n & -> & _). cbn [snd].
    match goal with
    | |- context [broadcast_cache_update ?x ?y] => set (w1 := y)
    end.
    assert (J1 : match last_broadcast (cache w1) with
                 | None => latest_cache_update (emitted w1) = []
                 | Some v => is_nil v = false /\ latest_cache_update (emitted w1) = v
                 end) by exact J.
    clearbody w1. clear J.
    destruct (is_nil (format_keys d)) eqn:NE.
    + unfold broadcast_cache_update, try_except. rewrite NE. exact J1.
    + rewrite broadcast_cache_update_run.
      * destruct (last_broadcast (cache w1)) as [last|] eqn:LB.
        -- destruct (_ || _); fields.
           ++ rewrite latest_snoc_single. split; [|reflexivity].
              apply with_timestamp_nonempty.
           ++ rewrite LB. exact J1.
        -- fields. rewrite latest_snoc_single. split; [|reflexivity].
           apply with_timestamp_nonempty.
      * exact NE.
      * intros last LB. rewrite LB in J1. apply J1.
  - rewrite add_multi_ups_run.
    destruct (init_next_save_time_shape ts w) as (v & n & -> & _). cbn [snd].
    destruct (Aggregator.aggregate_ups_data all) as [agg|e] eqn:A.
    + match goal with
      | |- context [broadcast_multi_ups_update ?x ?y ?z] => set (w2 := z)
      end.
      assert (J2 : match last_broadcast (cache w2) with
                   | None => latest_cache_update (emitted w2) = []
                   | Some v =>
                       is_nil v = false /\ latest_cache_update (emitted w2) = v
                   end).
      { unfold w2. fields.
        destruct (add_all_ups_shape ts all
                    (set_next_save_time (Some v) (cache w))) as (d & f & ->).
        exact J. }
      clearbody w2. clear J.
      rewrite broadcast_multi_ups_update_run
        by (eapply aggregate_result_nonempty; exact A).
      destruct (last_broadcast_aggregated (cache w2)) as [last|].
      * destruct (_ || _); fields; [rewrite latest_snoc_multi|]; exact J2.
      * fields. rewrite latest_snoc_multi. exact J2.
    + fields.
      destruct (add_all_ups_shape ts all
                  (set_next_save_time (Some v) (cache w))) as (d & f & ->).
      exact J.
  - destruct (flush_cases t w) as (b & w' & E & L & _).
    pose proof (@flush_keeps_emitted _ _ t (emitted w) w eq_refl) as EM.
    rewrite E in *. cbn [snd] in *.
    destruct L as (_ & _ & _ & _ & _ & ->). rewrite EM. exact J.
Qed.

(** X17: in a run that starts with a fresh cache and no event sent, the
    view handed to a new connection is at every moment the payload of the
    most recent single-device notification, the empty dictionary as long as
    none was sent. *)
Theorem latest_view_is_last_notification (w0 w : @world F) (size : Z) :
  cache w0 = init size ->
  emitted w0 = [] ->
  run_from w0 w ->
  get_latest_cache_data (cache w) = latest_cache_update (emitted w).
Proof.
  intros C E R.
  assert (J : match last_broadcast (cache w) with
              | None => latest_cache_update (emitted w) = []
              | Some v => is_nil v = false /\ latest_cache_update (emitted w) = v
              end).
  { induction R as [|w w' R IH S].
    - rewrite C, E. reflexivity.
    - exact (@view_kept_step w w' S IH). }
  unfold get_latest_cache_data.
  destruct (last_broadcast (cache w)) as [v|]; [|now rewrite J].
  destruct J as [-> ->]. reflexivity.
Qed.


Lemma zset_fresh {V} (d : list (Z * V)) k v :
  ~ In k (Dict.keys d) -> Dict.set Z.eqb d k v = (d ++ [(k, v)])%list.
Proof.
  unfold Dict.keys. induction d as [|[a b] d IH]; simpl; intros N; [reflexivity|].
  destruct (Z.eqb_spec k a) as [->|_]; [tauto|].
  rewrite IH by tauto. reflexivity.
Qed.

(** The per-device views of a notification, for an input dictionary. *)
Lemma individual_views (g : reading -> reading) (per acc : list (Z * reading)) :
  NoDup (Dict.keys acc ++ Dict.keys per) ->
  fold_left (fun acc kv => Dict.set Z.eqb acc (fst kv) (g (snd kv))) per acc =
  (acc ++ map (fun kv => (fst kv, g (snd kv))) per)%list.
Proof.
  revert acc. induction per as [|[k v] per IH]; intros acc ND; simpl.
  - now rewrite app_nil_r.
  - simpl in ND. rewrite zset_fresh.
    + rewrite IH; [now rewrite <- app_assoc|].
      unfold Dict.keys in *. rewrite map_app, <- app_assoc. exact ND.
    + apply NoDup_remove_2 in ND. intros I. apply ND. apply in_or_app. auto.
Qed.

Lemma not_longer {A} (l : list A) (x : A) : l <> (l ++ [x])%list.
Proof.
  intros E. apply (f_equal (@List.length A)) in E.
  rewrite length_app in E. simpl in E. lia.
Qed.

(** X18: when the ingestion of a dictionary of readings sends a
    multi-device notification, what a new connection is handed afterwards
    is the content of that notification: the aggregate view, one view per
    device of the input, and their number. *)
Theorem latest_multi_view_is_notification ts (all : list (Z * reading))
  (w : @world F) a p n :
  NoDup (Dict.keys all) ->
  let w' := snd (add_multi_ups ts all w) in
  emitted w' = (emitted w ++ [multi_ups_update a p n])%list ->
  get_latest_multi_ups_data (cache w') = Some (a, p, n) /\
  n = Z.of_nat (List.length all) /\
  Dict.keys p = Dict.keys all.
Proof.
  intros ND w' EM. unfold w' in *. clear w'.
  rewrite add_multi_ups_run in *.
  destruct (init_next_save_time_shape ts w) as (v & k & X & _).
  rewrite X in *. clear X. cbn [snd] in *.
  destruct (Aggregator.aggregate_ups_data all) as [agg|e] eqn:A.
  - match goal with
    | |- context [broadcast_multi_ups_update ?x ?y ?z] => set (w2 := z) in *
    end.
    assert (E2 : emitted w2 = emitted w) by reflexivity.
    clearbody w2.
    rewrite broadcast_multi_ups_update_run in *
      by (eapply aggregate_result_nonempty; exact A).
    rewrite individual_views in * by exact ND. cbn [app] in *.
    assert (K : forall view individual count,
               emitted (sent (multi_ups_update view individual count)
                          (with_cache
                             (set_last_broadcast_multi (Some view) individual)
                             (tick w2))) =
               (emitted w ++ [multi_ups_update a p n])%list ->
               is_nil view = false ->
               count = Z.of_nat (List.length all) ->
               Dict.keys individual = Dict.keys all ->
               get_latest_multi_ups_data
                 (cache (sent (multi_ups_update view individual count)
                           (with_cache
                              (set_last_broadcast_multi (Some view) individual)
                              (tick w2)))) = Some (a, p, n) /\
               n = Z.of_nat (List.length all) /\ Dict.keys p = Dict.keys all).
    { intros view individual count H NE CNT KEYS. fields.
      rewrite E2 in H. apply app_inj_tail in H as [_ H].
      injection H as <- <- <-.
      unfold get_latest_multi_ups_data. fields. rewrite NE.
      assert (L : List.length individual = List.length all).
      { rewrite <- (length_map fst individual), <- (length_map fst all).
        unfold Dict.keys in KEYS. now rewrite KEYS. }
      rewrite L, CNT. auto. }
    assert (KEYS : Dict.keys
                     (map (fun kv : Z * reading =>
                             (fst kv,
                              with_timestamp
                                (VStr (isoformat w2 (clock w2 (ticks w2))))
                                (snd kv))) all) = Dict.keys all).
    { unfold Dict.keys. rewrite map_map. reflexivity. }
    destruct (last_broadcast_aggregated (cache w2)) as [last|].
    + destruct (_ || _).
      * apply K; auto. apply with_timestamp_nonempty.
      * exfalso. cbn [snd] in EM. fields. rewrite E2 in EM.
        exact (@not_longer _ _ _ EM).
    + apply K; auto. apply with_timestamp_nonempty.
  - exfalso. cbn [snd] in EM. fields. exact (@not_longer _ _ _ EM).
Qed.

End IngestionProperties.

(* ===================================================================== *)
(** * Further properties of the scheduler *)
(* ===================================================================== *)

Section SchedulerProperties.
Context {F : Type} {FO : FloatOps F}.
Import Cache Spec.

Abbreviation reading := (dict (value F)).

(** After an ingestion the minute boundary is set: to what it was, or to
    the whole minute after the reading of the clock. *)
Lemma add_boundaries ts (d : reading) (w : @world F) :
  let w' := snd (add ts d w) in
  next_save_time (cache w') =
    Some (match next_save_time (cache w) with
          | Some s => s
          | None => floor_to MINUTE (clock w (ticks w)) + MINUTE
          end) /\
  last_daily_aggregation (cache w') = last_daily_aggregation (cache w).
Proof.
  intros w'. unfold w'. rewrite add_run.
  destruct (init_next_save_time_shape ts w) as (v & n & -> & ->). cbn [snd].
  broadcast_frames. fields. auto.
Qed.

Lemma add_multi_ups_boundaries ts (all : list (Z * reading)) (w : @world F) :
  let w' := snd (add_multi_ups ts all w) in
  next_save_time (cache w') =
    Some (match next_save_time (cache w) with
          | Some s => s
          | None => floor_to MINUTE (clock w (ticks w)) + MINUTE
          end) /\
  last_daily_aggregation (cache w') = last_daily_aggregation (cache w).
Proof.
  intros w'. unfold w'. rewrite add_multi_ups_run.
  destruct (init_next_save_time_shape ts w) as (v & n & -> & ->). cbn [snd].
  destruct (Aggregator.aggregate_ups_data all); [broadcast_frames|];
    fields; loop_shape; fields; auto.
Qed.

Lemma reachable_schedule (w : @world F) :
  reachable w ->
  aligned MINUTE (next_save_time (cache w)) /\ scheduled (cache w).
Proof.
  unfold scheduled.
  induction 1 as [w size C M | w w' R [IHa IHs] S].
  - rewrite C. split; [intros t X; discriminate|].
    intros [X|[X|X]]; exfalso; apply X; reflexivity.
  - assert (G : forall v : option Z,
               v = Some (match next_save_time (cache w) with
                         | Some s => s
                         | None => floor_to MINUTE (clock w (ticks w)) + MINUTE
                         end) ->
               aligned MINUTE v /\ v <> None).
    { intros v ->. split; [|discriminate].
      intros t X. injection X as <-.
      destruct (next_save_time (cache w)) as [s|] eqn:E.
      - now apply IHa.
      - apply floor_to_aligned, MINUTE_pos. }
    destruct S as [ts d w | ts all w | t w].
    + destruct (G _ (proj1 (add_boundaries ts d w))). auto.
    + destruct (G _ (proj1 (add_multi_ups_boundaries ts all w))). auto.
    + pose proof (@flush_keeps_multi _ _ t _ w eq_refl) as MU.
      destruct (flush_cases t w) as (b & w' & E & _ & _ & _ & FAIL & SUCC).
      rewrite E in *. cbn [snd] in *. injection MU as MU1 MU2.
      destruct b.
      * destruct (SUCC eq_refl)
          as (s & i & j & _ & _ & _ & _ & _ & _ & NS & _).
        rewrite NS. split; [|discriminate].
        intros x X. injection X as <-. apply floor_to_aligned, MINUTE_pos.
      * destruct (FAIL eq_refl) as ((D & _ & NS) & _).
        rewrite NS, D, MU1, MU2. auto.
Qed.

(** X19: in every state of a run the minute boundary, once set, is a whole
    minute, and it is set as soon as one of the buffers holds an entry. *)
Theorem minute_boundary_invariant (w : @world F) :
  reachable w ->
  aligned MINUTE (next_save_time (cache w)) /\ scheduled (cache w).
Proof. exact (@reachable_schedule w). Qed.

(** *** The day timer *)

Lemma DAY_pos : 0 < DAY.
Proof. reflexivity. Qed.

Lemma four_o_clock (now_utc : Z) :
  let day_start := floor_to DAY now_utc + 4 * HOUR in
  let boundary :=
    if 4 <=? (now_utc mod DAY) / HOUR then day_start + DAY else day_start in
  boundary mod DAY = 4 * HOUR /\ now_utc < boundary <= now_utc + DAY.
Proof.
  intros day_start boundary. unfold boundary, day_start, floor_to.
  pose proof HOUR_pos as HP.
  pose proof (Z.mod_pos_bound now_utc DAY DAY_pos) as B.
  pose proof (Z.div_mod now_utc DAY ltac:(discriminate)) as D.
  set (m := now_utc mod DAY) in *. set (q := now_utc / DAY) in *.
  assert (A : forall k, (DAY * k + 4 * HOUR) mod DAY = 4 * HOUR).
  { intros k. replace (DAY * k + 4 * HOUR) with (4 * HOUR + k * DAY) by lia.
    rewrite Z.mod_add by discriminate.
    apply Z.mod_small. split; [discriminate|reflexivity]. }
  destruct (Z.leb_spec 4 (m / HOUR)) as [L|L].
  - assert (4 * HOUR <= m).
    { pose proof (Z.mul_div_le m HOUR HOUR_pos) as X.
      pose proof HOUR_pos. nia. }
    split; [|lia].
    replace (now_utc - m + 4 * HOUR + DAY) with (DAY * (q + 1) + 4 * HOUR) by lia.
    apply A.
  - assert (m < 4 * HOUR).
    { destruct (Z.lt_ge_cases m (4 * HOUR)) as [X|X]; [exact X|].
      exfalso. pose proof (Z.div_le_lower_bound m HOUR 4 HOUR_pos) as Y.
      rewrite Z.mul_comm in Y. specialize (Y X). lia. }
    split; [|unfold DAY in *; lia].
    replace (now_utc - m + 4 * HOUR) with (DAY * q + 4 * HOUR) by lia.
    apply A.
Qed.

Lemma should_aggregate_daily_run t (w : @world F) :
  should_aggregate_daily t w =
  let now_utc := clock w (ticks w) in
  match last_daily_aggregation (cache w) with
  | None =>
      (Ok false,
       with_cache
         (set_last_daily_aggregation
            (Some (if 4 <=? (now_utc mod DAY) / HOUR
                   then floor_to DAY now_utc + 4 * HOUR + DAY
                   else floor_to DAY now_utc + 4 * HOUR))) (tick w))
  | Some due =>
      if due <=? now_utc
      then (Ok true,
            with_cache (set_last_daily_aggregation (Some (due + DAY))) (tick w))
      else (Ok false, tick w)
  end.
Proof.
  unfold should_aggregate_daily. py_unfold. cbn [snd fst cache tick].
  destruct (last_daily_aggregation (cache w)) as [due|]; [|reflexivity].
  destruct (due <=? clock w (ticks w)); reflexivity.
Qed.

(** X20: the first check of the day timer aggregates nothing and sets the
    day boundary to the next 04:00 UTC, strictly after the reading of the
    clock and at most a day after it; a later check fires exactly when the
    clock has reached the boundary, and then moves the boundary by exactly
    one day. *)
Theorem day_timer (t : Z) (w : @world F) :
  let now_utc := clock w (ticks w) in
  exists b w',
    should_aggregate_daily t w = (Ok b, w') /\
    match last_daily_aggregation (cache w) with
    | None =>
        b = false /\
        exists boundary,
          last_daily_aggregation (cache w') = Some boundary /\
          boundary mod DAY = 4 * HOUR /\
          now_utc < boundary <= now_utc + DAY
    | Some due =>
        b = (due <=? now_utc) /\
        last_daily_aggregation (cache w') =
          Some (if due <=? now_utc then due + DAY else due)
    end.
Proof.
  intros now_utc. rewrite should_aggregate_daily_run. cbv zeta. fold now_utc.
  destruct (last_daily_aggregation (cache w)) as [due|] eqn:E.
  - destruct (due <=? now_utc); eexists _, _; (split; [reflexivity|]);
      fields; auto.
  - eexists _, _. split; [reflexivity|]. split; [reflexivity|].
    eexists. split; [reflexivity|].
    destruct (four_o_clock now_utc) as [A B].
    destruct (4 <=? (now_utc mod DAY) / HOUR); auto.
Qed.

Lemma should_aggregate_daily_keeps t :
  keeps (fun w : @world F => at_four (last_daily_aggregation (cache w)))
    (should_aggregate_daily t).
Proof.
  intros w H. rewrite should_aggregate_daily_run. cbv zeta.
  destruct (last_daily_aggregation (cache w)) as [due|] eqn:E.
  - destruct (due <=? clock w (ticks w)); fields; [|now rewrite E].
    intros x X. injection X as <-. specialize (H due eq_refl).
    rewrite <- Z.add_mod_idemp_r, Z.mod_same, Z.add_0_r by discriminate.
    exact H.
  - fields. intros x X. injection X as <-.
    destruct (four_o_clock (clock w (ticks w))) as [A _].
    destruct (4 <=? (clock w (ticks w) mod DAY) / HOUR); exact A.
Qed.

Lemma flush_keeps_at_four t :
  keeps (fun w : @world F => at_four (last_daily_aggregation (cache w)))
    (calculate_and_save_averages t).
Proof.
  keeps_with ltac:(fun _ =>
    first [apply should_aggregate_daily_keeps | untouched]).
Qed.

(** X21: in every state of a run the day boundary, once set, is at 04:00
    UTC. *)
Theorem day_boundary_invariant (w : @world F) :
  reachable w -> at_four (last_daily_aggregation (cache w)).
Proof.
  induction 1 as [w size C M | w w' R IH S].
  - rewrite C. intros t X. discriminate.
  - destruct S as [ts d w | ts all w | t w].
    + now rewrite (proj2 (add_boundaries ts d w)).
    + now rewrite (proj2 (add_multi_ups_boundaries ts all w)).
    + now apply flush_keeps_at_four.
Qed.

(** *** The stored rows *)

(** X22: ingestion writes nothing to the database, a rollup check only
    appends rows (and none when it returns False), so in a run the stored
    rows only grow at their end. *)
Theorem table_append_only (w0 w : @world F) :
  run_from w0 w ->
  (exists rows, table w = (table w0 ++ rows)%list) /\
  (forall ts d, table (snd (add ts d w)) = table w) /\
  (forall ts all, table (snd (add_multi_ups ts all w)) = table w) /\
  (forall t, fst (calculate_and_save_averages t w) = Ok false ->
             table (snd (calculate_and_save_averages t w)) = table w).
Proof.
  intros R. split; [|split; [|split]].
  - induction R as [|w w' R [rows IH] S].
    + exists []. now rewrite app_nil_r.
    + destruct S as [ts d w | ts all w | t w].
      * exists rows. rewrite <- IH. now apply add_keeps_table.
      * exists rows. rewrite <- IH. now apply add_multi_ups_keeps_table.
      * destruct (flush_cases t w) as (b & w' & E & _ & _ & _ & FAIL & SUCC).
        rewrite E. cbn [snd]. destruct b.
        -- destruct (SUCC eq_refl)
             as (s & i & j & _ & _ & _ & _ & _ & _ & _ & _ & _ & row & extra & T).
           exists (rows ++ row :: extra)%list. rewrite T, IH, app_assoc.
           reflexivity.
        -- exists rows. rewrite (proj2 (FAIL eq_refl)). exact IH.
  - intros ts d. now apply add_keeps_table.
  - intros ts all. now apply add_multi_ups_keeps_table.
  - intros t B.
    destruct (flush_cases t w) as (b & w' & E & _ & _ & _ & FAIL & _).
    rewrite E in *. cbn [fst snd] in *. injection B as ->.
    apply FAIL. reflexivity.
Qed.

(** The average the query computes is the mean of the hourly averages the
    rows hold. *)
Lemma avg_hrs_mean (rows : list reading) :
  avg_hrs rows =
  match field_numbers "ups_realpower_hrs" rows with
  | [] => None
  | xs => Some (mean xs)
  end.
Proof.
  unfold avg_hrs.
  replace (flat_map _ rows) with (field_numbers "ups_realpower_hrs" rows).
  - destruct (field_numbers "ups_realpower_hrs" rows); reflexivity.
  - unfold field_numbers, get_or_none. apply flat_map_ext. intros d.
    destruct (dget d "ups_realpower_hrs"); reflexivity.
Qed.

(** What the daily aggregation does, case by case. *)
Lemma aggregate_daily_data_run (t : Z) (w : @world F) :
  let day := floor_to DAY (clock w (ticks w)) - DAY in
  aggregate_daily_data t w =
  (Ok tt,
   if faults w (calls w) then called (tick w)
   else
     match field_numbers "ups_realpower_hrs"
             (stored_between day (day + DAY) (table w)) with
     | [] => called (tick w)
     | averages =>
         if feqb (mean averages) (of_Z 0) then called (tick w)
         else if faults w (S (calls w)) then called (called (tick w))
         else stored [("timestamp_utc", VTime day);
                      ("ups_realpower_days",
                       VFloat (py_round (mean averages) 2))]
                (called (called (tick w)))
     end).
Proof.
  intros day.
  replace (day + DAY) with (floor_to DAY (clock w (ticks w)))
    by (unfold day; lia).
  unfold aggregate_daily_data, query_between, session_add_commit.
  py_unfold. cbn [fst snd cache clock ticks faults calls table tick called].
  destruct (faults w (calls w)); [reflexivity|].
  cbn [fst snd cache clock ticks faults calls table tick called].
  change (filter (in_range (floor_to DAY (clock w (ticks w)) - DAY)
                    (floor_to DAY (clock w (ticks w)))) (table w))
    with (stored_between day (floor_to DAY (clock w (ticks w))) (table w)).
  rewrite avg_hrs_mean.
  destruct (field_numbers "ups_realpower_hrs" _) as [|x xs]; [reflexivity|].
  cbn [truthy]. destruct (feqb (mean (x :: xs)) (of_Z 0)); [reflexivity|].
  cbn [negb fst snd cache clock ticks faults calls table tick called].
  destruct (faults w (S (calls w))); reflexivity.
Qed.

(** X23: the daily aggregation never raises and leaves the cache alone.
    It looks at the day before the one of its reading of the clock, from
    midnight on and before the next midnight, and stores exactly one row
    when the query and the commit go through, rows of that day hold hourly
    averages and the mean of these is not zero: the row is stamped with
    the midnight that began that day and holds the mean rounded to 2
    decimals.  In every other case it stores nothing; a mean of zero
    counts as no data. *)
Theorem daily_aggregation (t : Z) (w : @world F) :
  let now_utc := clock w (ticks w) in
  let w' := snd (aggregate_daily_data t w) in
  let day := floor_to DAY now_utc - DAY in
  let averages :=
    field_numbers "ups_realpower_hrs" (stored_between day (day + DAY) (table w)) in
  let saved :=
    faults w (calls w) = false /\ faults w (S (calls w)) = false /\
    averages <> [] /\ feqb (mean averages) (of_Z 0) = false in
  fst (aggregate_daily_data t w) = Ok tt /\
  cache w' = cache w /\
  day mod DAY = 0 /\
  day + DAY <= now_utc < day + 2 * DAY /\
  (saved ->
   table w' =
     (table w ++
      [[("timestamp_utc", VTime day);
        ("ups_realpower_days", VFloat (py_round (mean averages) 2))]])%list) /\
  (~ saved -> table w' = table w).
Proof.
  intros now_utc w' day averages saved.
  assert (P : 0 < DAY) by reflexivity.
  assert (A : day mod DAY = 0).
  { unfold day, floor_to.
    pose proof (Z.div_mod now_utc DAY ltac:(discriminate)) as D.
    replace (now_utc - now_utc mod DAY - DAY)
      with ((now_utc / DAY - 1) * DAY) by lia.
    apply Z.mod_mul. discriminate. }
  assert (B : day + DAY <= now_utc < day + 2 * DAY).
  { unfold day, floor_to. pose proof (Z.mod_pos_bound now_utc DAY P). lia. }
  pose proof (aggregate_daily_data_run t w) as RUN. cbv zeta in RUN.
  unfold saved, w', averages, day, now_utc in *. clear saved w' averages.
  rewrite RUN. cbn [fst snd].
  split; [reflexivity|].
  destruct (faults w (calls w)) eqn:F1.
  { split; [reflexivity|]. split; [exact A|]. split; [exact B|].
    split; [|reflexivity]. intros (X & _). discriminate X. }
  destruct (field_numbers "ups_realpower_hrs" _) as [|x xs] eqn:AV.
  { split; [reflexivity|]. split; [exact A|]. split; [exact B|].
    split; [|reflexivity]. intros (_ & _ & X & _). congruence. }
  destruct (feqb (mean (x :: xs)) (of_Z 0)) eqn:NZ.
  { split; [reflexivity|]. split; [exact A|]. split; [exact B|].
    split; [|reflexivity]. intros (_ & _ & _ & X). discriminate X. }
  destruct (faults w (S (calls w))) eqn:F2.
  { split; [reflexivity|]. split; [exact A|]. split; [exact B|].
    split; [|reflexivity]. intros (_ & X & _). discriminate X. }
  split; [reflexivity|]. split; [exact A|]. split; [exact B|].
  split; [reflexivity|].
  intros NS. exfalso. apply NS. repeat split; auto. discriminate.
Qed.

End SchedulerProperties.

Section StampProperties.
Context {F : Type} {FO : FloatOps F}.
Import Cache Spec.

Abbreviation reading := (dict (value F)).

Lemma fold_keeps_field {A} (step : reading -> A -> reading) (K : string)
  (v : value F) (items : list A) :
  (forall r a, In a items -> dget r K = Some v -> dget (step r a) K = Some v) ->
  forall row, dget row K = Some v -> dget (fold_left step items row) K = Some v.
Proof.
  induction items as [|a items IH]; intros H row G; simpl; [exact G|].
  apply IH.
  - intros r b I. apply H. simpl. auto.
  - apply H; [simpl; auto|exact G].
Qed.

Lemma new_record_stamp attrs stamp (av : reading) :
  dget av "timestamp_utc" = None ->
  dget (new_record attrs stamp av) "timestamp_utc" = Some (VTime stamp).
Proof.
  intros N. unfold new_record. apply fold_keeps_field.
  - intros r field I G. destruct (hasattr attrs field); [|exact G].
    destruct (get_or_none r field); try exact G.
    destruct (dget av field); [|exact G].
    rewrite dget_set_neq; [exact G|].
    intros <-. simpl in I. intuition discriminate.
  - apply fold_keeps_field; [|reflexivity].
    intros r [k x] I G. simpl. destruct (hasattr attrs k); [|exact G].
    rewrite dget_set_neq; [exact G|].
    intros <-. apply (in_map fst) in I. apply dget_in_some in I as [y Y].
    simpl in Y. congruence.
Qed.

Lemma attach_hourly_average_stamp powers (row row' : reading) :
  attach_hourly_average powers row = Ok row' ->
  dget row' "timestamp_utc" = dget row "timestamp_utc".
Proof.
  unfold attach_hourly_average. destruct (is_nil powers).
  - intros E. injection E as <-. reflexivity.
  - destruct (py_sum powers (of_Z 0)); cbn [obind]; [|discriminate].
    intros E. injection E as <-. apply dget_set_neq. discriminate.
Qed.

Lemma commit_row u (row : reading) (w w' : @world F) :
  bind (session_add_commit row) (fun _ => finish_save u) w = (Ok true, w') ->
  exists extra, table w' = (table w ++ row :: extra)%list.
Proof.
  intros E.
  destruct (commit_finish_cases u row w)
    as (r & w1 & E1 & [(R & _)|(_ & _ & _ & _ & _ & _ & _ & _ & extra & T)]).
  - rewrite E in E1. injection E1 as <- _. discriminate R.
  - rewrite E in E1. injection E1 as _ <-. eauto.
Qed.

Lemma persist_row u stamp (av : reading) (w w' : @world F) :
  persist u stamp av w = (Ok true, w') ->
  dget av "timestamp_utc" = None ->
  exists row extra,
    table w' = (table w ++ row :: extra)%list /\
    dget row "timestamp_utc" = Some (VTime stamp).
Proof.
  intros E N. pose proof (new_record_stamp (model_attrs w) stamp av N) as S.
  unfold persist in E. unfold bind at 1 2 in E. unfold ask in E.
  rewrite hourly_step_run in E.
  destruct (dget av "ups_realpower") as [p|]; cbv zeta in E.
  - destruct (next_hour (cache w)) as [hour|]; [|discriminate E].
    destruct (hour <=? u).
    + destruct (faults w (calls w)); [discriminate E|].
      destruct (attach_hourly_average _ _) as [row|e] eqn:A; [|discriminate E].
      apply commit_row in E as [extra T]. fields.
      exists row, extra. split; [exact T|].
      apply attach_hourly_average_stamp in A. congruence.
    + apply commit_row in E as [extra T]. fields. eauto.
  - apply commit_row in E as [extra T]. eauto.
Qed.

Lemma flush_row t (w w' : @world F) (stamp : Z) :
  calculate_and_save_averages t w = (Ok true, w') ->
  next_save_time (cache w) = Some stamp ->
  (forall rows, df (cache w) = Some rows ->
     dget (dupdate (averages_of rows) (last_values_of rows)) "timestamp_utc"
     = None) ->
  exists row extra,
    table w' = (table w ++ row :: extra)%list /\
    dget row "timestamp_utc" = Some (VTime stamp).
Proof.
  intros E NS N.
  unfold calculate_and_save_averages, try_except in E.
  destruct (save_body t w) as [[b|e] w1] eqn:SB; [|discriminate E].
  injection E as -> ->.
  unfold save_body, get_next_hour in SB. py_unfold. simpl in SB.
  destruct (next_hour (cache w)); simpl in SB;
    rewrite is_save_time_run in SB; simpl in SB; rewrite NS in SB;
    (destruct (_ <=? clock w _); simpl in SB; [|discriminate SB]);
    rewrite calculate_averages_run in SB; simpl in SB;
    (destruct (df (cache w)) as [rows|] eqn:DF; simpl in SB; [|discriminate SB]);
    (destruct (is_nil rows); simpl in SB; [discriminate SB|]);
    (destruct (faults w (calls w)); simpl in SB; [discriminate SB|]);
    (destruct (is_nil (dupdate _ _)); simpl in SB; [discriminate SB|]);
    rewrite NS in SB;
    apply persist_row in SB; auto.
Qed.

(** The fields of the reduction are columns of the data frame. *)
Lemma averages_fields (rows : @dataframe F) k v :
  dget (dupdate (averages_of rows) (last_values_of rows)) k = Some v ->
  In k (columns_of rows).
Proof.
  rewrite dget_update. intros G.
  destruct (dget (rev (last_values_of rows)) k) as [x|] eqn:L.
  - apply dget_some_in in L. rewrite map_rev in L. apply in_rev in L.
    unfold last_values_of in L. rewrite map_map in L. cbn [fst] in L.
    rewrite map_id in L. unfold non_numeric_cols in L.
    apply filter_In in L as [L _]. apply filter_In in L as [L _]. exact L.
  - apply dget_some_in in G. unfold averages_of in G.
    rewrite map_map in G. cbn [fst] in G. rewrite map_id in G.
    unfold numeric_cols in G. apply filter_In in G as [G _]. exact G.
Qed.

Lemma with_timestamp_keys ts (d : reading) k :
  In k (Dict.keys (with_timestamp ts d)) -> k = "timestamp" \/ In k (Dict.keys d).
Proof.
  unfold Dict.keys, with_timestamp. intros I.
  apply dget_in_some in I as [v G]. rewrite dget_update in G.
  destruct (dget (rev d) k) as [x|] eqn:L.
  - right. apply dget_some_in in L. rewrite map_rev in L. now apply in_rev in L.
  - left. simpl in G. destruct (String.eqb_spec k "timestamp"); [auto|discriminate].
Qed.

Lemma reachable_minute (w : @world F) :
  reachable w -> aligned MINUTE (next_save_time (cache w)).
Proof. intros R. now apply reachable_schedule. Qed.


(** X24: in a run whose readings have no field named timestamp_utc, the
    row a successful rollup stores first is stamped with the minute
    boundary that was due, a whole minute, not with the time of the save. *)
Theorem rollup_is_stamped_with_boundary t (w w' : @world F) (stamp : Z) :
  reachable w ->
  next_save_time (cache w) = Some stamp ->
  Forall (fun e => dget (snd e) "timestamp_utc" = None) (get (cache w)) ->
  calculate_and_save_averages t w = (Ok true, w') ->
  exists row extra,
    table w' = (table w ++ row :: extra)%list /\
    dget row "timestamp_utc" = Some (VTime stamp) /\
    stamp mod MINUTE = 0.
Proof.
  intros R NS NF E.
  destruct (@flush_row t w w' stamp E NS) as (row & extra & T & S).
  - intros rows DF.
    destruct (dget _ "timestamp_utc") as [v|] eqn:G; [|reflexivity].
    exfalso. apply averages_fields in G.
    destruct (reachable_buffer R) as [_ [[_ X]|[_ X]]]; [congruence|].
    rewrite X in DF. injection DF as <-.
    unfold columns_of in G. apply columns_of_in in G as [[]|(r & I & J)].
    unfold rows_of in I. apply in_map_iff in I as (e & <- & I).
    apply with_timestamp_keys in J as [J|J]; [discriminate J|].
    rewrite Forall_forall in NF. specialize (NF e I).
    apply dget_in_some in J as [x X'].
    pose proof (eq_trans (eq_sym NF) X') as C. discriminate C.
  - exists row, extra. split; [exact T|]. split; [exact S|].
    now apply (@reachable_minute w R).
Qed.

End StampProperties.

(* ===================================================================== *)
(** * The hour rollup *)
(* ===================================================================== *)

Section HourProperties.
Context {F : Type} {FO : FloatOps F}.
Import Cache Spec.

Abbreviation reading := (dict (value F)).

Lemma fold_keeps_absent {A} (step : reading -> A -> reading) (K : string)
  (items : list A) :
  (forall r a, In a items -> dget r K = None -> dget (step r a) K = None) ->
  forall row, dget row K = None -> dget (fold_left step items row) K = None.
Proof.
  induction items as [|a items IH]; intros H row G; simpl; [exact G|].
  apply IH.
  - intros r b I. apply H. simpl. auto.
  - apply H; [simpl; auto|exact G].
Qed.

(** The record holds no field the reduction did not give, its timestamp
    apart. *)
Lemma new_record_lacks attrs stamp (av : reading) (k : string) :
  dget av k = None -> k <> "timestamp_utc" ->
  dget (new_record attrs stamp av) k = None.
Proof.
  intros N T. unfold new_record. apply fold_keeps_absent.
  - intros r field I G. destruct (hasattr attrs field); [|exact G].
    destruct (get_or_none r field); try exact G.
    destruct (dget av field) as [v|] eqn:A; [|exact G].
    rewrite dget_set_neq; [exact G|]. intros ->. congruence.
  - apply fold_keeps_absent.
    + intros r [k' x] I G. simpl. destruct (hasattr attrs k'); [|exact G].
      rewrite dget_set_neq; [exact G|].
      intros ->. apply (in_map fst) in I. apply dget_in_some in I as [y Y].
      simpl in Y. congruence.
    + simpl. destruct (String.eqb_spec k "timestamp_utc"); [contradiction|].
      reflexivity.
Qed.

(** The reduction has no field the buffered entries have not. *)
Lemma reduction_lacks_field (w : @world F) (rows : dataframe) (k : string) :
  reachable w ->
  k <> "timestamp" ->
  Forall (fun e => dget (snd e) k = None) (data (cache w)) ->
  df (cache w) = Some rows ->
  dget (dupdate (averages_of rows) (last_values_of rows)) k = None.
Proof.
  intros R T NF DF.
  destruct (dget _ k) as [v|] eqn:G; [|reflexivity].
  exfalso. apply averages_fields in G.
  destruct (reachable_buffer R) as [_ [[_ X]|[_ X]]]; [congruence|].
  rewrite X in DF. injection DF as <-.
  unfold columns_of in G. apply columns_of_in in G as [[]|(r & I & J)].
  unfold rows_of in I. apply in_map_iff in I as (e & <- & I).
  apply with_timestamp_keys in J as [J|J]; [contradiction|].
  rewrite Forall_forall in NF. specialize (NF e I).
  apply dget_in_some in J as [x X'].
  pose proof (eq_trans (eq_sym NF) X') as C. discriminate C.
Qed.

(** C1, as the code has it: in every reachable state in which an hour
    rollup fires, the flush clears the hour-accumulation list and sets the
    hour boundary to the next whole hour after the reading of the clock it
    makes then; that boundary is past the one just reached, and it is
    exactly one hour after it when that reading is less than an hour past
    the boundary reached.  When the flush returns [True], the row it
    stores holds as hourly average the mean, rounded to 2 decimals, of the
    real powers of the rows stored in the hour before the boundary reached;
    when no such row has a real power, none is attached. *)
Theorem hour_boundary_resync t (w : @world F) (boundary : Z) :
  reachable w ->
  hour_rollup_fires w boundary ->
  let w' := snd (calculate_and_save_averages t w) in
  let reading := clock w (S (S (ticks w))) in
  let powers :=
    field_numbers "ups_realpower"
      (stored_between (boundary - HOUR) boundary (table w)) in
  next_hour (cache w') = Some (floor_to HOUR reading + HOUR) /\
  hourly_data (cache w') = [] /\
  boundary < floor_to HOUR reading + HOUR /\
  (reading < boundary + HOUR -> next_hour (cache w') = Some (boundary + HOUR)) /\
  (fst (calculate_and_save_averages t w) = Ok true ->
   exists row extra,
     table w' = (table w ++ row :: extra)%list /\
     (powers <> [] ->
      dget row "ups_realpower_hrs" = Some (VFloat (py_round (mean powers) 2))) /\
     (powers = [] ->
      Forall (fun e => dget (snd e) "ups_realpower_hrs" = None) (data (cache w)) ->
      dget row "ups_realpower_hrs" = None)).
Proof.
  intros R FIRES w' reading powers.
  destruct (hour_rollup_run t FIRES)
    as (b & w0 & stamp & rows & row & E & NH & HD & NS & DF & ATT & ROW).
  assert (W : w' = w0) by (unfold w'; now rewrite E). rewrite W. clear W w'.
  destruct (reachable_invariant R) as [M A].
  destruct FIRES as (NH0 & REACHED & _ & _ & _ & SUMM).
  assert (LE : boundary <= reading).
  { pose proof (monotone_le M (n := ticks w) (m := S (S (ticks w))) ltac:(lia)).
    unfold reading. lia. }
  pose proof (floor_to_next reading HOUR_pos) as NEXT.
  split; [exact NH|]. split; [exact HD|]. split; [lia|].
  split.
  { intros LT. rewrite NH. f_equal. f_equal.
    apply floor_to_within; [apply HOUR_pos|now apply A|lia]. }
  rewrite E. cbn [fst]. intros B. injection B as ->.
  destruct (ROW eq_refl) as [extra TB].
  exists row, extra. split; [exact TB|].
  destruct (py_sum_numbers SUMM (of_Z 0)) as [SUM LEN]. fold powers in SUM, LEN.
  unfold attach_hourly_average in ATT. split.
  - intros NE.
    destruct (hour_powers _) as [|p ps] eqn:HP.
    { destruct powers; [congruence|discriminate LEN]. }
    cbn [is_nil] in ATT. rewrite SUM in ATT. cbn [obind] in ATT.
    injection ATT as <-. rewrite dget_set_eq. unfold mean, fsum.
    rewrite <- LEN. reflexivity.
  - intros NONE NF. rewrite NONE in LEN.
    destruct (hour_powers _) as [|p ps]; [|discriminate LEN].
    cbn [is_nil] in ATT. injection ATT as <-.
    apply new_record_lacks; [|discriminate].
    apply (reduction_lacks_field R); [discriminate|exact NF|exact DF].
Qed.

End HourProperties.

Section HourRuns.
Import Cache Spec Runs.

Lemma resumed_reachable : reachable resumed.
Proof.
  eapply reachable_step; [|apply step_add].
  eapply reachable_step; [|apply step_save].
  eapply reachable_step; [|apply step_add].
  apply reachable_init with (size := 60); [reflexivity|].
  apply clock_of_monotone. apply Z.leb_le. reflexivity.
Qed.

Lemma resumed_fires : hour_rollup_fires resumed HOUR.
Proof.
  unfold hour_rollup_fires.
  split; [vm_compute; reflexivity|].
  split; [apply Z.leb_le; vm_compute; reflexivity|].
  split; [eexists; split;
          [vm_compute; reflexivity|apply Z.leb_le; vm_compute; reflexivity]|].
  split; [eexists; split; [vm_compute; reflexivity|];
          repeat split; vm_compute; reflexivity|].
  split; [vm_compute; reflexivity|].
  vm_compute. repeat constructor.
Qed.

Lemma hour_boundary_resync_witness :
  let w := resumed in
  let w' := snd (calculate_and_save_averages 0 w) in
  reachable w /\
  hour_rollup_fires w HOUR /\
  clock w (S (S (ticks w))) < HOUR + HOUR /\
  next_hour (cache w') = Some (HOUR + HOUR) /\
  hourly_data (cache w') = [] /\
  exists row extra,
    table w' = (table w ++ row :: extra)%list /\
    dget row "ups_realpower_hrs" = Some (VFloat (FloatQ.dec 7012 2)).
Proof.
  intros w w'.
  assert (R : reachable w) by apply resumed_reachable.
  assert (FIRES : hour_rollup_fires w HOUR) by apply resumed_fires.
  assert (IN : clock w (S (S (ticks w))) < HOUR + HOUR)
    by (vm_compute; reflexivity).
  destruct (hour_boundary_resync 0 R FIRES) as (_ & HD & _ & NEXT & STORED).
  split; [exact R|]. split; [exact FIRES|]. split; [exact IN|].
  split; [exact (NEXT IN)|]. split; [exact HD|].
  destruct STORED as (row & extra & TB & AVG & _); [vm_compute; reflexivity|].
  exists row, extra. split; [exact TB|].
  rewrite AVG; [vm_compute; reflexivity|]. vm_compute. discriminate.
Defined.

End HourRuns.

(* ===================================================================== *)
(** * The poll *)
(* ===================================================================== *)

Section PollProperties.
Context {F : Type} {FO : FloatOps F}.
Import Cache Spec.

Abbreviation reading := (dict (value F)).

Lemma set_size_same (w : @world F) :
  with_cache (set_size (size (cache w))) (tick w) = tick w.
Proof. destruct w as [c ? ? ? ? ? ? ? ?]. destruct c. reflexivity. Qed.

(** A poll reads the clock, settles the capacity, and goes on in one of
    the two modes. *)
Lemma save_ups_data_run (env : poll) (w : @world F) :
  let interval :=
    match polling_query env with Ok p => p | Raise _ => 1 end in
  let new_size :=
    if 1 <? interval then target_buffer_size interval else size (cache w) in
  let now_utc := clock w (ticks w) in
  save_ups_data env w =
  try_except
    (if (1 <? enabled_devices env)%nat then
       if is_nil (all_ups_data env)
       then ret (false, Some no_data_retrieved)
       else bind (add_multi_ups now_utc (all_ups_data env))
              (fun _ => ret (true, None))
     else
       if negb (is_ups_connected env)
       then ret (false, Some connection_unavailable)
       else bind (add now_utc (data_dict env))
              (fun _ => bind (calculate_and_save_averages now_utc)
                          (fun _ => ret (true, None))))
    (fun e => ret (false, Some (error_saving e)))
    (with_cache (set_size new_size) (tick w)).
Proof.
  intros interval new_size now_utc.
  unfold save_ups_data, new_size. fold interval.
  unfold try_except at 1 2. unfold bind at 1 2. unfold now. cbv beta iota.
  fold now_utc.
  destruct (1 <? interval).
  - unfold bind at 1. unfold get_cache. cbv beta iota. cbn [cache tick].
    destruct (Z.eqb_spec (size (cache w)) (target_buffer_size interval)) as [Q|Q];
      cbn [negb]; unfold modify, ret; cbv beta iota; [|reflexivity].
    rewrite <- Q, set_size_same. reflexivity.
  - unfold ret at 1. cbv beta iota. rewrite set_size_same. reflexivity.
Qed.

Lemma poll_keeps_size (env : poll) (now_utc x : Z) :
  keeps (fun w : @world F => size (cache w) = x)
    (try_except
       (if (1 <? enabled_devices env)%nat then
          if is_nil (all_ups_data env)
          then ret (false, Some no_data_retrieved)
          else bind (add_multi_ups now_utc (all_ups_data env))
                 (fun _ => ret (true, None))
        else
          if negb (is_ups_connected env)
          then ret (false, Some connection_unavailable)
          else bind (add now_utc (data_dict env))
                 (fun _ => bind (calculate_and_save_averages now_utc)
                             (fun _ => ret (true, None))))
       (fun e => ret (false, Some (error_saving e)))).
Proof. keeps_with ltac:(fun _ => first [untouched | loop_leaf]). Qed.

Lemma multi_poll_keeps_table (all : list (Z * reading)) (now_utc : Z)
  (x : list reading) :
  keeps (fun w : @world F => table w = x)
    (try_except
       (if is_nil all
        then ret (false, Some no_data_retrieved)
        else bind (add_multi_ups now_utc all) (fun _ => ret (true, None)))
       (fun e => ret (false, Some (error_saving e)))).
Proof. keeps_with ltac:(fun _ => untouched). Qed.

Lemma multi_poll_keeps_data (all : list (Z * reading)) (now_utc : Z)
  (x : buffer) :
  keeps (fun w : @world F => data (cache w) = x)
    (try_except
       (if is_nil all
        then ret (false, Some no_data_retrieved)
        else bind (add_multi_ups now_utc all) (fun _ => ret (true, None)))
       (fun e => ret (false, Some (error_saving e)))).
Proof. keeps_with ltac:(fun _ => first [untouched | loop_leaf]). Qed.

Lemma target_buffer_size_bounds (interval : Z) :
  1 < interval -> 5 <= target_buffer_size interval <= 30.
Proof.
  intros H. unfold target_buffer_size. split; [lia|].
  apply Z.max_lub; [lia|].
  apply Z.div_le_upper_bound; lia.
Qed.

(** X25: a poll leaves the cache with a capacity of
    max(5, 60 // interval) when the configured polling interval is above
    1, a value between 5 and 30, and with the capacity it had otherwise,
    also when the configuration cannot be read; this holds in both modes
    and whatever the poll returns. *)
Theorem buffer_size_rule (env : poll) (w : @world F) :
  let interval :=
    match polling_query env with Ok p => p | Raise _ => 1 end in
  let w' := snd (save_ups_data env w) in
  size (cache w') =
    (if 1 <? interval then Z.max 5 (60 / interval) else size (cache w)) /\
  (1 < interval -> 5 <= size (cache w') <= 30) /\
  (forall e, polling_query env = Raise e -> size (cache w') = size (cache w)).
Proof.
  intros interval w'.
  assert (S : size (cache w') =
              if 1 <? interval then target_buffer_size interval
              else size (cache w)).
  { unfold w'. rewrite save_ups_data_run. fold interval.
    apply poll_keeps_size. reflexivity. }
  split; [exact S|]. split.
  - intros H. rewrite S. destruct (Z.ltb_spec 1 interval); [|lia].
    now apply target_buffer_size_bounds.
  - intros e Q. rewrite S. unfold interval. rewrite Q. reflexivity.
Qed.


(** X26: with more than one device enabled, a poll never runs the rollup:
    it stores no row and leaves the sample buffer of the single-device path
    alone.  With no reading collected it reports that and buffers nothing;
    with readable statuses it appends the aggregate, stamped with its
    reading of the clock, to the aggregate buffer and reports success; with
    a status that cannot be read it reports the AttributeError. *)
Theorem multi_mode_never_persists (env : poll) (w : @world F) :
  (1 < enabled_devices env)%nat ->
  let now_utc := clock w (ticks w) in
  let w' := snd (save_ups_data env w) in
  table w' = table w /\
  get (cache w') = get (cache w) /\
  (all_ups_data env = [] ->
   fst (save_ups_data env w) = Ok (false, Some no_data_retrieved) /\
   aggregated_data (cache w') = aggregated_data (cache w)) /\
  (all_ups_data env <> [] ->
   Forall status_ok (Dict.values (all_ups_data env)) ->
   exists agg,
     Aggregator.aggregate_ups_data (all_ups_data env) = Ok agg /\
     fst (save_ups_data env w) = Ok (true, None) /\
     aggregated_data (cache w') =
       (aggregated_data (cache w) ++ [(now_utc, agg)])%list) /\
  (Exists (fun d => ~ status_ok d) (Dict.values (all_ups_data env)) ->
   fst (save_ups_data env w) = Ok (false, Some (error_saving AttributeError))).
Proof.
  intros MODE now_utc w'. unfold w'. clear w'.
  rewrite save_ups_data_run. fold now_utc.
  apply Nat.ltb_lt in MODE. rewrite MODE.
  match goal with
  | |- context [with_cache (set_size ?x) (tick w)] => generalize x
  end.
  intros s.
  split; [|split; [|split; [|split]]].
  - now apply multi_poll_keeps_table.
  - now apply multi_poll_keeps_data.
  - intros -> . split; reflexivity.
  - intros NE OK.
    destruct (aggregate_nonempty NE OK) as (t & worst & _ & _ & A).
    eexists. split; [exact A|].
    destruct (all_ups_data env) as [|kv rest] eqn:ALL; [congruence|].
    cbn [is_nil]. unfold try_except, bind. rewrite add_multi_ups_run, A.
    destruct (init_next_save_time_shape now_utc (with_cache (set_size s) (tick w)))
      as (v & n & -> & _).
    cbn [snd]. broadcast_frames. fields. loop_shape. fields.
    split; reflexivity.
  - intros X.
    destruct (all_ups_data env) as [|kv rest] eqn:ALL; [inversion X|].
    cbn [is_nil]. unfold try_except, bind.
    rewrite add_multi_ups_run, aggregate_unreadable by exact X.
    reflexivity.
Qed.


(** X27: with at most one device enabled, a poll of a disconnected device
    reports that the connection is unavailable and touches neither the
    buffer nor the stored rows nor the events.  A poll of a connected
    device always reports success, also when the rollup it runs fails: it
    buffers the reading, and then the buffer either holds that reading
    after the earlier ones or was emptied by a rollup; rows are only
    appended. *)
Theorem single_mode_poll (env : poll) (w : @world F) :
  (enabled_devices env <= 1)%nat ->
  let now_utc := clock w (ticks w) in
  let w' := snd (save_ups_data env w) in
  (is_ups_connected env = false ->
   fst (save_ups_data env w) = Ok (false, Some connection_unavailable) /\
   get (cache w') = get (cache w) /\
   table w' = table w /\
   emitted w' = emitted w) /\
  (is_ups_connected env = true ->
   fst (save_ups_data env w) = Ok (true, None) /\
   (get (cache w') = [] \/
    get (cache w') =
      (get (cache w) ++ [(now_utc, format_keys (data_dict env))])%list) /\
   exists rows, table w' = (table w ++ rows)%list).
Proof.
  intros MODE now_utc w'. unfold w'. clear w'.
  rewrite save_ups_data_run. fold now_utc.
  assert (M : (1 <? enabled_devices env)%nat = false) by (apply Nat.ltb_ge; lia).
  rewrite M.
  match goal with
  | |- context [with_cache (set_size ?x) (tick w)] => generalize x
  end.
  intros s. split.
  - intros ->. cbn [negb]. repeat split.
  - intros ->. cbn [negb]. unfold try_except, bind. unfold get.
    rewrite add_run.
    destruct (init_next_save_time_shape now_utc (with_cache (set_size s) (tick w)))
      as (v & n & -> & _).
    cbn [snd]. broadcast_frames.
    match goal with
    | |- context [calculate_and_save_averages ?t ?x] =>
        destruct (flush_cases t x) as (b & w' & -> & _ & _ & _ & FAIL & SUCC)
    end.
    unfold ret. cbn [fst snd]. split; [reflexivity|].
    destruct b.
    + destruct (SUCC eq_refl)
        as (s0 & i & j & _ & _ & _ & _ & _ & _ & _ & D & _ & row & extra & T).
      fields. split; [left; exact D|]. eauto.
    + destruct (FAIL eq_refl) as ((D & _) & T). fields.
      split; [right; exact D|]. exists []. now rewrite app_nil_r.
Qed.

End PollProperties.

(* ===================================================================== *)
(** * Concrete runs for the further properties *)
(* ===================================================================== *)

Section PropertiesRuns.
Import Cache Spec Runs.

Ltac run := vm_compute; reflexivity.

Lemma empty_entry_reachable : reachable empty_entry.
Proof.
  eapply reachable_step; [|apply step_add].
  apply fresh_reachable, after_stall_late.
Qed.

Lemma first_check_reachable : reachable (first_check after_stall None).
Proof.
  eapply reachable_step; [|apply step_save].
  apply first_reading_reachable, after_stall_late.
Qed.

Lemma first_check_run :
  run_from (fresh after_stall None) (first_check after_stall None).
Proof.
  eapply run_step; [|apply step_save].
  eapply run_step; [|apply step_add].
  apply run_start.
Qed.

Lemma add_effect_witness :
  let d := sample "OL" (FloatQ.dec 420 1) (FloatQ.dec 1050 1) in
  is_full (cache full_cache) = true /\
  exists w',
    add 0 d full_cache = (Ok tt, w') /\
    is_full (cache w') = true /\
    List.length (get (cache w')) = 2%nat.
Proof.
  intros d.
  assert (H : is_full (cache full_cache) = true) by reflexivity.
  split; [exact H|].
  destruct (@add_effect _ _ 0 d full_cache) as (w' & E & G & _ & _ & FULL & _).
  exists w'. split; [exact E|]. split; [exact (FULL H)|].
  rewrite G. reflexivity.
Defined.

Lemma empty_readings_are_kept_witness :
  reachable empty_entry /\
  Forall (fun e => snd e = []) (get (cache empty_entry)) /\
  exists w',
    calculate_and_save_averages 0 empty_entry = (Ok false, w') /\
    get (cache w') = get (cache empty_entry).
Proof.
  assert (E : Forall (fun e : Z * dict (value Fq) => snd e = [])
                (get (cache empty_entry))) by (repeat constructor).
  split; [exact empty_entry_reachable|]. split; [exact E|].
  destruct (proj2 (@empty_readings_are_kept _ _ 0 0 empty_entry)
              empty_entry_reachable E) as (w' & X & (D & _) & _).
  exists w'. split; [exact X|exact D].
Defined.

Lemma odd_devices_unreadable :
  Exists (fun d => ~ status_ok d) (Dict.values odd_devices).
Proof.
  apply Exists_cons_tl, Exists_cons_hd.
  intros [T|[s E]]; [discriminate T|discriminate E].
Qed.

Lemma add_multi_ups_partial_update_witness :
  Exists (fun d => ~ status_ok d) (Dict.values odd_devices) /\
  exists w',
    add_multi_ups 0 odd_devices (fresh after_stall None)
      = (Raise AttributeError, w') /\
    aggregated_data (cache w') = [] /\
    (exists earlier,
       Dict.get Z.eqb (per_ups_data (cache w')) 2 =
       Some (earlier ++ [(0, [("ups_status", VInt 1)])])%list).
Proof.
  split; [exact odd_devices_unreadable|].
  destruct (@add_multi_ups_partial_update _ _ 0 odd_devices
              (fresh after_stall None) odd_devices_unreadable) as (w' & E & P & A & _).
  exists w'. split; [exact E|]. split; [exact A|].
  apply (P 2 [("ups_status", VInt 1)]); [|reflexivity].
  repeat constructor; simpl; intuition discriminate.
Defined.

Lemma add_multi_ups_effect_witness :
  three_devices <> [] /\
  Forall status_ok (Dict.values three_devices) /\
  exists agg w',
    add_multi_ups 0 three_devices (fresh after_stall None) = (Ok tt, w') /\
    aggregated_data (cache w') = [(0, agg)] /\
    get (cache w') = [].
Proof.
  assert (NE : three_devices <> []) by discriminate.
  split; [exact NE|]. split; [exact three_devices_readable|].
  destruct (@add_multi_ups_effect _ _ 0 three_devices
              (fresh after_stall None) NE three_devices_readable) as (agg & w' & _ & E & A & _ & G & _).
  exists agg, w'. split; [exact E|]. split; [exact A|exact G].
Defined.

Lemma latest_view_is_last_notification_witness :
  let w := first_check after_stall None in
  run_from (fresh after_stall None) w /\
  get_latest_cache_data (cache w) = latest_cache_update (emitted w) /\
  dget (latest_cache_update (emitted w)) "ups_status" = Some (VStr "OL").
Proof.
  intros w. split; [exact first_check_run|]. split; [|run].
  exact (@latest_view_is_last_notification _ _ (fresh after_stall None) w 60
           eq_refl eq_refl first_check_run).
Defined.

Lemma three_devices_distinct : NoDup (Dict.keys three_devices).
Proof. repeat constructor; simpl; intuition discriminate. Qed.

Lemma latest_multi_view_is_notification_witness :
  NoDup (Dict.keys three_devices) /\
  exists a p n,
    emitted three_ingested = [multi_ups_update a p n] /\
    get_latest_multi_ups_data (cache three_ingested) = Some (a, p, n) /\
    n = 3.
Proof.
  split; [exact three_devices_distinct|].
  assert (EM : exists a p n,
             emitted (snd (add_multi_ups 0 three_devices (fresh after_stall None)))
             = (emitted (fresh after_stall None)
                ++ [multi_ups_update a p n])%list)
    by (eexists _, _, _; vm_compute; reflexivity).
  destruct EM as (a & p & n & EM).
  destruct (@latest_multi_view_is_notification _ _ 0 three_devices
              (fresh after_stall None) a p n three_devices_distinct EM)
    as (L & N & _).
  exists a, p, n. split; [exact EM|]. split; [exact L|exact N].
Defined.

Lemma minute_boundary_invariant_witness :
  let w := first_reading after_stall None in
  reachable w /\
  next_save_time (cache w) = Some MINUTE /\
  MINUTE mod MINUTE = 0.
Proof.
  intros w.
  assert (R : reachable w) by apply first_reading_reachable, after_stall_late.
  assert (NS : next_save_time (cache w) = Some MINUTE) by run.
  split; [exact R|]. split; [exact NS|].
  exact (proj1 (@minute_boundary_invariant _ _ w R) MINUTE NS).
Defined.

Lemma day_boundary_invariant_witness :
  let w := first_check after_stall None in
  reachable w /\
  last_daily_aggregation (cache w) = Some (4 * HOUR) /\
  (4 * HOUR) mod DAY = 4 * HOUR.
Proof.
  intros w.
  assert (D : last_daily_aggregation (cache w) = Some (4 * HOUR)) by run.
  split; [exact first_check_reachable|]. split; [exact D|].
  exact (@day_boundary_invariant _ _ w first_check_reachable (4 * HOUR) D).
Defined.

Lemma table_append_only_witness :
  let w := first_check after_stall None in
  run_from (fresh after_stall None) w /\
  (exists rows, table w = (table (fresh after_stall None) ++ rows)%list) /\
  List.length (table w) = 1%nat.
Proof.
  intros w. split; [exact first_check_run|]. split; [|run].
  exact (proj1 (@table_append_only _ _ (fresh after_stall None) w
                  first_check_run)).
Defined.

Lemma rollup_is_stamped_with_boundary_witness :
  let w := first_reading after_stall None in
  let w' := snd (calculate_and_save_averages 0 w) in
  reachable w /\
  next_save_time (cache w) = Some MINUTE /\
  calculate_and_save_averages 0 w = (Ok true, w') /\
  exists row extra,
    table w' = (table w ++ row :: extra)%list /\
    dget row "timestamp_utc" = Some (VTime MINUTE).
Proof.
  intros w w'.
  assert (R : reachable w) by apply first_reading_reachable, after_stall_late.
  assert (NS : next_save_time (cache w) = Some MINUTE) by run.
  assert (E : calculate_and_save_averages 0 w = (Ok true, w')) by run.
  assert (NF : Forall (fun e : Z * dict (value Fq) =>
                         dget (snd e) "timestamp_utc" = None) (get (cache w)))
    by (repeat constructor).
  split; [exact R|]. split; [exact NS|]. split; [exact E|].
  destruct (@rollup_is_stamped_with_boundary _ _ 0 w w' MINUTE R NS NF E)
    as (row & extra & T & S & _).
  exists row, extra. split; [exact T|exact S].
Defined.

Lemma buffer_size_rule_witness :
  let w := fresh after_stall None in
  size (cache (snd (save_ups_data (a_poll 1 7 true) w))) = 8 /\
  5 <= size (cache (snd (save_ups_data (a_poll 1 7 true) w))) <= 30.
Proof.
  intros w.
  destruct (@buffer_size_rule _ _ (a_poll 1 7 true) w) as (S & B & _).
  split; [exact S|]. apply B. reflexivity.
Defined.

Lemma multi_mode_never_persists_witness :
  let w := first_reading after_stall None in
  let w' := snd (save_ups_data (a_poll 3 1 true) w) in
  (1 < enabled_devices (a_poll 3 1 true))%nat /\
  table w' = table w /\
  get (cache w') = get (cache w) /\
  fst (save_ups_data (a_poll 3 1 true) w) = Ok (true, None) /\
  List.length (aggregated_data (cache w')) = 1%nat.
Proof.
  intros w w'.
  assert (M : (1 < enabled_devices (a_poll 3 1 true))%nat) by (simpl; lia).
  assert (NE : all_ups_data (a_poll 3 1 true) <> []) by discriminate.
  split; [exact M|].
  destruct (@multi_mode_never_persists _ _ (a_poll 3 1 true) w M)
    as (T & G & _ & OK & _).
  split; [exact T|]. split; [exact G|].
  destruct (OK NE three_devices_readable) as (agg & _ & R & A).
  split; [exact R|]. unfold w'. rewrite A. reflexivity.
Defined.

Lemma single_mode_poll_witness :
  let w := fresh after_stall (Some 1%nat) in
  (enabled_devices (a_poll 1 1 true) <= 1)%nat /\
  fst (save_ups_data (a_poll 1 1 false) w)
    = Ok (false, Some connection_unavailable) /\
  fst (save_ups_data (a_poll 1 1 true) w) = Ok (true, None) /\
  table (snd (save_ups_data (a_poll 1 1 false) w)) = table w.
Proof.
  intros w.
  assert (M : (enabled_devices (a_poll 1 1 true) <= 1)%nat) by (simpl; lia).
  split; [exact M|].
  destruct (@single_mode_poll _ _ (a_poll 1 1 false) w M) as (OFF & _).
  destruct (@single_mode_poll _ _ (a_poll 1 1 true) w M) as (_ & ON).
  destruct (OFF eq_refl) as (R & _ & T & _).
  destruct (ON eq_refl) as (R' & _).
  split; [exact R|]. split; [exact R'|exact T].
Defined.

(** The first check of the day timer at 00:01:01 sets the day boundary to
    04:00 of the same day. *)
Example day_timer_first_check :
  last_daily_aggregation
    (cache (snd (should_aggregate_daily 0 (first_reading after_stall None))))
  = Some (4 * HOUR).
Proof. run. Qed.

Lemma daily_aggregation_witness :
  let w' := snd (aggregate_daily_data 0 next_day) in
  cache w' = cache next_day /\
  table w' =
    (table next_day ++
     [[("timestamp_utc", VTime DAY);
       ("ups_realpower_days", VFloat (FloatQ.dec 7512 2))]])%list.
Proof.
  pose proof (daily_aggregation 0 next_day) as D. cbv zeta in D.
  destruct D as (_ & C & _ & _ & S & _).
  split; [exact C|].
  rewrite S; [vm_compute; reflexivity|].
  split; [reflexivity|]. split; [reflexivity|].
  split; vm_compute; [discriminate|reflexivity].
Defined.

End PropertiesRuns.
